(** * Tidewave orchestrator: intent routing and the verify-and-heal loop

    A shallow embedding of the three prototypes of the orchestrator service
    ([main.py], [current_app.py], [main_langgraph.py]) and the properties of
    their intent classification, dispatch, verification and logging.

    Conventions of the embedding:
    - a Python [str] is the list of its Unicode code points;
    - every outbound HTTP call is answered by an oracle [net], indexed by the
      kind of call and by how many calls of that kind were made before, so a
      theorem quantified over [net] speaks about every sequence of replies;
    - handlers run in a small monad carrying the log of outbound calls and a
      possibly raised exception, so [try]/[except] in the source is [try_except]
      here and a missing [try] lets the exception through. *)

From Stdlib Require Import List String Ascii ZArith NArith Bool Lia Arith DecimalString.
Import ListNotations.

Set Implicit Arguments.

(* ===================================================================== *)
(** ** Text: Python strings as code point lists *)
(* ===================================================================== *)

Module Text.

Definition codepoint := N.
Definition str := list codepoint.

(** Code points of an ASCII literal. *)
Definition cps (s : string) : str := map N_of_ascii (list_ascii_of_string s).

Definition is_ascii (c : codepoint) : bool := (c <? 128)%N.
Definition is_ascii_upper (c : codepoint) : bool := ((65 <=? c) && (c <=? 90))%N.
Definition ascii_lower (c : codepoint) : codepoint :=
  if is_ascii_upper c then (c + 32)%N else c.

(** Hangul Syllables block, U+AC00..U+D7A3: letters without case. *)
Definition is_hangul (c : codepoint) : bool := ((44032 <=? c) && (c <=? 55203))%N.

(** [str.isspace] of one character, which [str.strip()] uses. *)
Definition isspace (c : codepoint) : bool :=
  (((9 <=? c) && (c <=? 13)) || ((28 <=? c) && (c <=? 32))
   || (c =? 133) || (c =? 160) || (c =? 5760)
   || ((8192 <=? c) && (c <=? 8202))
   || (c =? 8232) || (c =? 8233) || (c =? 8239) || (c =? 8287)
   || (c =? 12288))%N.

Fixpoint lstrip (t : str) : str :=
  match t with
  | [] => []
  | c :: t' => if isspace c then lstrip t' else t
  end.

Definition rstrip (t : str) : str := rev (lstrip (rev t)).

(** [s.strip()] *)
Definition strip (t : str) : str := rstrip (lstrip t).

(** Matching a pattern at the head of a text; [m c p] says that the text
    character [c] is accepted for the pattern character [p]. *)
Fixpoint match_at (m : codepoint -> codepoint -> bool) (p t : str) : bool :=
  match p, t with
  | [], _ => true
  | _ :: _, [] => false
  | a :: p', c :: t' => m c a && match_at m p' t'
  end.

(** Leftmost search of the pattern anywhere in the text. *)
Fixpoint search (m : codepoint -> codepoint -> bool) (p t : str) : bool :=
  match_at m p t ||
  match t with
  | [] => false
  | _ :: t' => search m p t'
  end.

(** [k in txt] for two strings. *)
Definition contains (k txt : str) : bool := search (fun c a => (c =? a)%N) k txt.

Section Lower.
(** The lowercase mapping of the characters that are neither ASCII nor
    Hangul syllables is left open: any function of the whole text and the
    position (so that context rules such as the Greek final sigma, and
    characters that lower to several code points, are covered). *)
Variable lower_other : str -> nat -> str.

Definition lower_char (whole : str) (i : nat) (c : codepoint) : str :=
  if is_ascii c then [ascii_lower c]
  else if is_hangul c then [c]
  else lower_other whole i.

Fixpoint lower_from (whole : str) (i : nat) (t : str) : str :=
  match t with
  | [] => []
  | c :: t' => lower_char whole i c ++ lower_from whole (S i) t'
  end.

(** [s.lower()] *)
Definition lower (t : str) : str := lower_from t 0 t.
End Lower.

Section IgnoreCase.
(** [re.I] on a [str] pattern: a text character always matches itself; an
    ASCII text character matches a pattern character with the same ASCII
    lowercase; which other non-ASCII text characters match (the Kelvin sign
    for [k], the long s for [s], ...) is left open. *)
Variable ci_other : codepoint -> codepoint -> bool.

Definition ci_match (c a : codepoint) : bool :=
  (c =? a)%N ||
  (if is_ascii c then (ascii_lower c =? ascii_lower a)%N else ci_other c a).

(** [re.search(r"(a1|a2|...)", text, re.I)] as a truth value. *)
Definition re_search_i (alts : list str) (text : str) : bool :=
  existsb (fun a => search ci_match a text) alts.
End IgnoreCase.

(** Two texts that differ only in the case of ASCII letters. *)
Definition same_upto_ascii_case (s t : str) : Prop :=
  Forall2 (fun a b => a = b \/
           (is_ascii a = true /\ is_ascii b = true /\ ascii_lower a = ascii_lower b)) s t.

(** [occurs_upto_case k t]: some casing of the keyword [k] occurs in [t]. *)
Definition occurs_upto_case (k t : str) : Prop :=
  exists pre k' post, t = pre ++ k' ++ post /\ same_upto_ascii_case k' k.

(** A character that [lower] leaves alone: an ASCII character that is not an
    upper-case letter, or a Hangul syllable. *)
Definition stable (c : codepoint) : bool :=
  if is_ascii c then (ascii_lower c =? c)%N else is_hangul c.

(** Keywords as they are written in the sources. *)
Definition kw_baepo : str := [48176; 54252]%N.          (* U+BC30 U+D3EC *)
Definition kw_jaebaepo : str := [51116; 48176; 54252]%N. (* U+C7AC U+BC30 U+D3EC *)
Definition kw_helseu : str := [54764; 49828]%N.         (* U+D5EC U+C2A4 *)
Definition kw_sangtae : str := [49345; 53468]%N.        (* U+C0C1 U+D0DC *)
Definition kw_saraiss : str := [49332; 50500; 51080]%N. (* U+C0B4 U+C544 U+C788 *)

End Text.

(* ===================================================================== *)
(** ** Outbound HTTP calls *)
(* ===================================================================== *)

Module Http.
Import Text.

(** What [httpx] hands back: a response with any status code, or an
    exception (timeout, connection failure, ...). *)
Record response := Response {
  status_code : Z;
  text : string;            (* r.text *)
  json : option string      (* r.json(): the parsed body, None when it raises *)
}.

Inductive reply :=
| Answer (r : response)
| Fails (e : string).

Inductive kind := KHook | KHealth | KLLM | KLog.

Definition kind_eqb (a b : kind) : bool :=
  match a, b with
  | KHook, KHook | KHealth, KHealth | KLLM, KLLM | KLog, KLog => true
  | _, _ => false
  end.

(** The log of what a request did: each outbound call, the body sent to the
    LLM provider (recorded just before that call), and a marker each time the
    redeploy action is entered. *)
Inductive event :=
| Call (k : kind) (url : string)
| LLMRequest (model : string) (max_tokens : Z) (prompt : str)
| Redeploy.

Definition is_call (k : kind) (e : event) : bool :=
  match e with
  | Call k' _ => kind_eqb k k'
  | _ => false
  end.

Definition is_redeploy (e : event) : bool :=
  match e with Redeploy => true | _ => false end.

Definition calls (k : kind) (tr : list event) : nat := List.length (filter (is_call k) tr).
Definition redeploys (tr : list event) : nat := List.length (filter is_redeploy tr).
Definition outbound (tr : list event) : nat :=
  calls KHook tr + calls KHealth tr + calls KLLM tr + calls KLog tr.

Inductive exc :=
| HTTPException (status : Z) (detail : string)
| NetworkError (e : string)
| GraphRecursionError
| AttributeError (name : string).

Inductive result (A : Type) :=
| Ok (a : A)
| Raised (e : exc).
Arguments Ok {A} a.
Arguments Raised {A} e.

(** Computations that make outbound calls and may raise. *)
Definition M (A : Type) : Type := list event -> result A * list event.

Definition ret {A} (a : A) : M A := fun tr => (Ok a, tr).

Definition bind {A B} (m : M A) (f : A -> M B) : M B :=
  fun tr => match m tr with
            | (Ok a, tr') => f a tr'
            | (Raised e, tr') => (Raised e, tr')
            end.

Definition raise {A} (e : exc) : M A := fun tr => (Raised e, tr).

(** [try: m except Exception as e: h e] *)
Definition try_except {A} (m : M A) (h : exc -> M A) : M A :=
  fun tr => match m tr with
            | (Raised e, tr') => h e tr'
            | r => r
            end.

Definition mark (e : event) : M unit := fun tr => (Ok tt, tr ++ [e]).

(** [str(e)] of an exception. *)
Definition str_of_exc (e : exc) : string :=
  match e with
  | HTTPException _ d => d
  | NetworkError m => m
  | GraphRecursionError => "Recursion limit reached"%string
  | AttributeError name =>
      ("'dict' object has no attribute '" ++ name ++ "'")%string
  end.

Section Net.
(** [net k i]: the reply to the [i]-th call of kind [k] (counting from 0). *)
Variable net : kind -> nat -> reply.

(** [await client.get(url)] / [await client.post(url, ...)] *)
Definition request (k : kind) (url : string) : M response :=
  fun tr => match net k (calls k tr) with
            | Answer r => (Ok r, tr ++ [Call k url])
            | Fails e => (Raised (NetworkError e), tr ++ [Call k url])
            end.
End Net.

Definition nonempty (s : string) : bool :=
  match s with EmptyString => false | _ => true end.

(** A health probe passes when it is answered with status 200; any other
    status, and any exception, is a failed probe. *)
Definition probe_passes (r : reply) : bool :=
  match r with
  | Answer r => (status_code r =? 200)%Z
  | Fails _ => false
  end.

(** [returns m tr P]: run after the calls [tr], [m] does not raise, and its
    value and the calls made by then satisfy [P]. *)
Definition returns {A} (m : M A) (tr : list event) (P : A -> list event -> Prop) : Prop :=
  exists a tr', m tr = (Ok a, tr') /\ P a tr'.

End Http.

Declare Scope io_scope.
Notation "x <- m ;; f" := (Http.bind m (fun x => f))
  (at level 61, m at next level, right associativity) : io_scope.
Notation "m ;;; f" := (Http.bind m (fun _ => f))
  (at level 61, right associativity) : io_scope.

(* ===================================================================== *)
(** ** main.py: the graph Plan -> Implement -> Verify -> (Heal -> Verify) *)
(* ===================================================================== *)

Module MainPy.
Import Text Http.
Local Open Scope io_scope.

(** The module-level settings read from the environment. *)
Record Config := {
  VERCEL_HOOK_1 : string;
  VERCEL_HOOK_2 : string;
  HEALTH_URL : option string;   (* os.environ.get("HEALTH_URL") *)
  PORT : Z
}.

Inductive Intent := DEPLOY | HEALTH | OTHER.

Definition Intent_value (i : Intent) : string :=
  match i with
  | DEPLOY => "deploy"
  | HEALTH => "health"
  | OTHER => "other"
  end.

Definition Intent_eqb (a b : Intent) : bool :=
  match a, b with
  | DEPLOY, DEPLOY | HEALTH, HEALTH | OTHER, OTHER => true
  | _, _ => false
  end.

(** The lines appended to [state.logs], one constructor per f-string. *)
Inductive LogLine :=
| LogPlan (plan : string)                      (* "[plan] {plan}" *)
| LogImplementSkip                             (* "[implement] skip (health only)" *)
| LogImplementStatus (idx : nat) (status : Z)  (* "[implement] vercel_hook_{idx} status=..." *)
| LogImplementError (idx : nat) (e : string)   (* "[implement] vercel_hook_{idx} error=..." *)
| LogVerify (url : string) (status : Z)        (* "[verify] GET {url} -> {status}" *)
| LogVerifyError (e : string)                  (* "[verify] error={e}" *)
| LogHeal (attempt : Z).                       (* "[heal] attempt={retries} -> redeploy" *)

Record OrchestratorState := {
  instruction : str;
  intent : option Intent;
  plan : option string;
  retries : Z;
  verify_passed : option bool;
  logs : list LogLine
}.

(** [OrchestratorState(instruction=text)] with the declared defaults. *)
Definition init_state (text : str) : OrchestratorState :=
  {| instruction := text; intent := None; plan := None; retries := 0;
     verify_passed := None; logs := [] |}.

Definition append_log (st : OrchestratorState) (l : LogLine) : OrchestratorState :=
  {| instruction := instruction st; intent := intent st; plan := plan st;
     retries := retries st; verify_passed := verify_passed st;
     logs := logs st ++ [l] |}.

Definition set_verify_passed (st : OrchestratorState) (b : bool) : OrchestratorState :=
  {| instruction := instruction st; intent := intent st; plan := plan st;
     retries := retries st; verify_passed := Some b; logs := logs st |}.

Definition deploy_keywords : list str := [kw_baepo; kw_jaebaepo; cps "deploy"].
Definition health_keywords : list str := [kw_helseu; cps "health"; kw_sangtae; cps "alive"].

Inductive route := END | heal.

Inductive node := NPlan | NImplement | NVerify | NHeal.

(** The JSON object that the [return] statement of [POST /orchestrate] is
    written to build. *)
Record Response := {
  r_instruction : str;
  r_intent : option string;
  r_plan : option string;
  r_verify_passed : option bool;
  r_retries : Z;
  r_logs : list LogLine
}.

Section Graph.
Variable lower_other : str -> nat -> str.
Variable cfg : Config.
Variable net : kind -> nat -> reply.

(** The intent computed by the first lines of [plan_node]. *)
Definition plan_intent (instruction : str) : Intent :=
  let txt := lower lower_other instruction in
  if existsb (fun k => contains k txt) deploy_keywords then DEPLOY
  else if existsb (fun k => contains k txt) health_keywords then HEALTH
  else OTHER.

Definition plan_node (state : OrchestratorState) : M OrchestratorState :=
  let intent := plan_intent (instruction state) in
  let plan := ("intent=" ++ Intent_value intent
               ++ "; steps=[implement→verify→(heal if fail)]")%string in
  ret {| instruction := instruction state; intent := Some intent;
         plan := Some plan; retries := retries state;
         verify_passed := verify_passed state;
         logs := logs state ++ [LogPlan plan] |}.

(** One turn of the loop over the two hooks in [implement_node]. *)
Definition post_hook (idx : nat) (hook : string) (state : OrchestratorState)
  : M OrchestratorState :=
  if negb (nonempty hook) then ret state
  else try_except
         (r <- request net KHook hook ;;
          ret (append_log state (LogImplementStatus idx (status_code r))))
         (fun e => ret (append_log state (LogImplementError idx (str_of_exc e)))).

Definition implement_node (state : OrchestratorState) : M OrchestratorState :=
  match intent state with
  | Some HEALTH => ret (append_log state LogImplementSkip)
  | _ =>
      mark Redeploy ;;;
      s1 <- post_hook 1 (VERCEL_HOOK_1 cfg) state ;;
      post_hook 2 (VERCEL_HOOK_2 cfg) s1
  end.

Definition default_health_url : string :=
  ("http://127.0.0.1:" ++ DecimalString.NilZero.string_of_int (Z.to_int (PORT cfg))
   ++ "/health")%string.

Definition health_url : string :=
  match HEALTH_URL cfg with
  | Some u => if nonempty u then u else default_health_url
  | None => default_health_url
  end.

Definition verify_node (state : OrchestratorState) : M OrchestratorState :=
  let url := health_url in
  try_except
    (r <- request net KHealth url ;;
     let ok := (status_code r =? 200)%Z in
     ret (append_log (set_verify_passed state ok) (LogVerify url (status_code r))))
    (fun e => ret (append_log (set_verify_passed state false)
                              (LogVerifyError (str_of_exc e)))).

Definition heal_node (state : OrchestratorState) : M OrchestratorState :=
  let n := (retries state + 1)%Z in
  let state1 :=
    {| instruction := instruction state; intent := intent state;
       plan := plan state; retries := n;
       verify_passed := verify_passed state;
       logs := logs state ++ [LogHeal n] |} in
  implement_node state1.

Definition verify_router (state : OrchestratorState) : route :=
  match intent state with
  | Some HEALTH =>
      match verify_passed state with
      | Some false => heal       (* verify_passed is False *)
      | _ => END
      end
  | _ =>
      match verify_passed state with
      | Some true => END
      | _ => if (retries state <? 1)%Z then heal else END
      end
  end.

Definition run_node (n : node) : OrchestratorState -> M OrchestratorState :=
  match n with
  | NPlan => plan_node
  | NImplement => implement_node
  | NVerify => verify_node
  | NHeal => heal_node
  end.

(** The edges added to the builder; [None] is [END]. *)
Definition successor (n : node) (state : OrchestratorState) : option node :=
  match n with
  | NPlan => Some NImplement
  | NImplement => Some NVerify
  | NVerify => match verify_router state with
               | END => None
               | heal => Some NHeal
               end
  | NHeal => Some NVerify
  end.

(** Running the compiled graph. The graph engine belongs to the langgraph
    package; it runs one node after the other along the edges and raises
    when [limit] node executions did not reach [END]. *)
Fixpoint run_graph (limit : nat) (n : node) (state : OrchestratorState)
  : M OrchestratorState :=
  match limit with
  | O => raise GraphRecursionError
  | S limit' =>
      state' <- run_node n state ;;
      match successor n state' with
      | None => ret state'
      | Some n' => run_graph limit' n' state'
      end
  end.

(** [graph.ainvoke(init)]: the entry edge goes from [START] to [plan]. The
    value is the content of the state channels at [END]; the engine hands it
    back as a plain [dict] keyed by field name, which is why line 111 of
    main.py needs its [# type: ignore]. *)
Definition ainvoke (limit : nat) (init : OrchestratorState) : M OrchestratorState :=
  run_graph limit NPlan init.

(** [final.name], for the [dict] that [ainvoke] returned: a [dict] has items,
    not attributes, so the access raises. *)
Definition getattr {A : Type} (final : OrchestratorState) (name : string) : M A :=
  raise (AttributeError name).

(** [POST /orchestrate]. The graph runs first; the [return] statement then
    evaluates [final.instruction], the first entry of the dict literal, and
    that raises: the handler makes the calls of the run and never answers. *)
Definition orchestrate (limit : nat) (req_text : str) : M Response :=
  final <- ainvoke limit (init_state req_text) ;;
  r_instruction <- getattr final "instruction" ;;
  r_intent <- getattr final "intent" ;;
  r_plan <- getattr final "plan" ;;
  r_verify_passed <- getattr final "verify_passed" ;;
  r_retries <- getattr final "retries" ;;
  r_logs <- getattr final "logs" ;;
  ret {| r_instruction := r_instruction;
         r_intent := option_map Intent_value r_intent;
         r_plan := r_plan;
         r_verify_passed := r_verify_passed;
         r_retries := r_retries;
         r_logs := r_logs |}.
End Graph.

(** The hook posts of one pass through [implement_node]. *)
Definition hook_calls (cfg : Config) : list event :=
  map (Call KHook) (filter nonempty [VERCEL_HOOK_1 cfg; VERCEL_HOOK_2 cfg]).

(** The calls of one pass through [implement_node], by the intent of the
    state. *)
Definition pass_calls (cfg : Config) (i : option Intent) : list event :=
  match i with
  | Some HEALTH => []
  | _ => Redeploy :: hook_calls cfg
  end.

(** The calls of one round of the graph: the implement (or heal) node and the
    verify node that follows it. *)
Definition round_calls (cfg : Config) (i : Intent) : list event :=
  match i with
  | HEALTH => []
  | _ => Redeploy :: hook_calls cfg
  end ++ [Call KHealth (health_url cfg)].

End MainPy.

(* ===================================================================== *)
(** ** current_app.py: the script-style handler *)
(* ===================================================================== *)

Module CurrentApp.
Import Text Http.
Local Open Scope io_scope.

(** The settings read (and stripped) at import time. *)
Record Config := {
  SUPABASE_URL : string;
  SUPABASE_KEY : string;
  ANTHROPIC_API_KEY : string;
  ANTHROPIC_API_URL : string;
  ANTHROPIC_API_VERSION : string;
  LLM_PROMOTION_THRESHOLD : Z;
  LLM_MAX_TOKENS : Z;
  VERCEL_HOOK_1 : string;
  VERCEL_HOOK_2 : string;
  API_HEALTH : string
}.

(** [[v for v in [hook1, hook2] if v]] *)
Definition VERCEL_HOOKS (cfg : Config) : list string :=
  filter nonempty [VERCEL_HOOK_1 cfg; VERCEL_HOOK_2 cfg].

Record OrchestrateIn := {
  text : str;
  user : option string;
  critical : option bool;
  meta : option string
}.

Definition sonnet : string := "claude-3-5-sonnet-20240620".
Definition haiku : string := "claude-3-5-haiku-20240307".

(** [r.json()], or the fallback built when it raises. *)
Inductive RawData :=
| Parsed (j : string)
| Unparsed (status_code : Z) (text : string).

Inductive LLMResult :=
| LLMMissingKey                                      (* reason: missing_ANTHROPIC_API_KEY *)
| LLMReply (ok : bool) (status : Z) (model : string) (raw : RawData).

Inductive HookResult :=
| HookStatus (url : string) (status : Z)
| HookError (url : string) (error : string).

Inductive HealthResult :=
| HealthMissing                                      (* reason: missing_API_HEALTH *)
| HealthReply (ok : bool) (status : Z) (body : string)
| HealthError (error : string).

Inductive Intent := llm_plan | deploy_frontend | health_check.

Inductive Step :=
| StepDeploy (vercels : list HookResult)
| StepHealth (hl : HealthResult)
| StepLLM (ai : LLMResult).

Record Results := { intent : Intent; steps : list Step }.
Record Reply := { ok : bool; result : Results }.

(** The JSON object returned by [POST /mvp]. *)
Record MvpReply := { mvp_ok : bool; logged : bool; echo : string }.

(** The ["ok"] entry of a health result (absent when the probe raised). *)
Definition health_ok (h : HealthResult) : bool :=
  match h with
  | HealthReply ok _ _ => ok
  | _ => false
  end.

(** The entry appended by [call_vercel_hooks] for one hook, by what the
    network did. *)
Definition hook_entry (url : string) (r : reply) : HookResult :=
  match r with
  | Answer resp => HookStatus url (status_code resp)
  | Fails e => HookError url e
  end.

Definition deploy_pattern : list str :=
  [kw_baepo; cps "redeploy"; cps "deploy"; kw_jaebaepo].
Definition health_pattern : list str :=
  [kw_helseu; cps "health"; kw_sangtae; cps "status"; kw_saraiss].

(** [bool(body.critical)] *)
Definition truthy (b : option bool) : bool :=
  match b with Some true => true | _ => false end.

Section Handlers.
Variable ci_other : codepoint -> codepoint -> bool.
Variable cfg : Config.
Variable net : kind -> nat -> reply.

Definition log_supabase (level message : string) : M unit :=
  if negb (nonempty (SUPABASE_URL cfg)) || negb (nonempty (SUPABASE_KEY cfg))
  then ret tt
  else try_except
         (_ <- request net KLog (SUPABASE_URL cfg ++ "/rest/v1/ai_logs")%string ;;
          ret tt)
         (fun _ => ret tt).

(** The model chosen by [call_anthropic]. *)
Definition choose_model (prompt : str) (critical : bool) : string :=
  if critical || (Z.of_nat (List.length prompt) >? LLM_PROMOTION_THRESHOLD cfg)%Z
  then sonnet else haiku.

Definition call_anthropic (prompt : str) (critical : bool) : M LLMResult :=
  if negb (nonempty (ANTHROPIC_API_KEY cfg)) then ret LLMMissingKey
  else
    let model := choose_model prompt critical in
    mark (LLMRequest model (LLM_MAX_TOKENS cfg) prompt) ;;;
    r <- request net KLLM (ANTHROPIC_API_URL cfg ++ "/v1/messages")%string ;;
    let data := match json r with
                | Some j => Parsed j
                | None => Unparsed (status_code r) (Http.text r)
                end in
    ret (LLMReply ((status_code r =? 200)%Z || (status_code r =? 201)%Z)
                  (status_code r) model data).

(** The loop of [call_vercel_hooks] over the remaining urls. *)
Fixpoint post_hooks (urls : list string) (results : list HookResult)
  : M (list HookResult) :=
  match urls with
  | [] => ret results
  | url :: rest =>
      results' <- try_except
                    (resp <- request net KHook url ;;
                     ret (results ++ [HookStatus url (status_code resp)]))
                    (fun e => ret (results ++ [HookError url (str_of_exc e)])) ;;
      post_hooks rest results'
  end.

Definition call_vercel_hooks : M (list HookResult) :=
  mark Redeploy ;;;
  post_hooks (VERCEL_HOOKS cfg) [].

Definition call_health : M HealthResult :=
  if negb (nonempty (API_HEALTH cfg)) then ret HealthMissing
  else try_except
         (r <- request net KHealth (API_HEALTH cfg) ;;
          ret (HealthReply (status_code r =? 200)%Z (status_code r)
                           (substring 0 400 (Http.text r))))
         (fun e => ret (HealthError (str_of_exc e))).

(** The "quick intent routing" of [orchestrate]. *)
Definition route_intent (text : str) : Intent :=
  if re_search_i ci_other deploy_pattern text then deploy_frontend
  else if re_search_i ci_other health_pattern text then health_check
  else llm_plan.

(** [POST /orchestrate] *)
Definition orchestrate (body : OrchestrateIn) : M Reply :=
  let text := strip (text body) in
  match text with
  | [] => raise (HTTPException 400 "text is required")
  | _ =>
      let intent := route_intent text in
      steps <- match intent with
               | deploy_frontend =>
                   vercels <- call_vercel_hooks ;;
                   hl <- call_health ;;
                   ret [StepDeploy vercels; StepHealth hl]
               | health_check =>
                   hl <- call_health ;;
                   ret [StepHealth hl]
               | llm_plan =>
                   ai <- call_anthropic text (truthy (critical body)) ;;
                   ret [StepLLM ai]
               end ;;
      log_supabase "info" "orchestrate" ;;;
      ret {| ok := true; result := {| intent := intent; steps := steps |} |}
  end.

(** [POST /mvp] *)
Definition mvp_log (payload : string) : M MvpReply :=
  log_supabase "info" "mvp_log" ;;;
  ret {| mvp_ok := true; logged := true; echo := payload |}.
End Handlers.

End CurrentApp.

(* ===================================================================== *)
(** ** main_langgraph.py: nodes that name their successor *)
(* ===================================================================== *)

Module MainLanggraph.
Import Text Http.
Local Open Scope io_scope.

Record Config := {
  SUPABASE_URL : string;
  SUPABASE_KEY : string;
  ANTHROPIC_API_KEY : string;
  ANTHROPIC_API_URL : string;
  ANTHROPIC_API_VERSION : string;
  VERCEL_HOOK_1 : string;
  VERCEL_HOOK_2 : string;
  API_HEALTH : string;
  LLM_PROMOTION_THRESHOLD : Z;
  LLM_MAX_TOKENS : Z;
  AI_LOGS_TABLE : string
}.

(** [[h for h in [VERCEL_HOOK_1, VERCEL_HOOK_2] if h]] *)
Definition VERCEL_HOOKS (cfg : Config) : list string :=
  filter nonempty [VERCEL_HOOK_1 cfg; VERCEL_HOOK_2 cfg].

Definition sonnet : string := "claude-3-5-sonnet-20240620".
Definition haiku : string := "claude-3-5-haiku-20240307".

Inductive RawData :=
| Parsed (j : string)
| Unparsed (status : Z) (text : string).

Inductive LLMResult :=
| LLMMissingKey
| LLMReply (ok : bool) (status : Z) (model : string) (data : RawData).

(** A value of the dict built by [call_vercel_hooks]. *)
Inductive HookValue :=
| HookStatus (status : Z)
| HookError (e : string).           (* "error: {e}" *)

(** The dict itself, keyed by the index in ["hook{idx}"], in insertion order. *)
Definition HookDict := list (nat * HookValue).

(** The value stored by [call_vercel_hooks] for one hook, by what the network
    did. *)
Definition hook_value (r : reply) : HookValue :=
  match r with
  | Answer resp => HookStatus (status_code resp)
  | Fails e => HookError e
  end.

Inductive HealthResult :=
| HealthMissing
| HealthReply (ok : bool) (status : Z) (body : string)
| HealthError (error : string).

(** [verify.get("ok")] *)
Definition health_ok (h : HealthResult) : bool :=
  match h with
  | HealthReply ok _ _ => ok
  | _ => false
  end.

Inductive Intent := deploy | health | other.

Definition Intent_value (i : Intent) : string :=
  match i with
  | deploy => "deploy"
  | health => "health"
  | other => "other"
  end.

Inductive ImplementResult :=
| Hooks (d : HookDict)
| Skipped.                          (* {"skipped": True} *)

Inductive VerifyResult :=
| VerifyHealth (h : HealthResult)
| VerifyLLM (llm : LLMResult).      (* {"llm": llm} *)

Record HealResult := { heal_hooks : HookDict; verify2 : option HealthResult }.

Record OrchestratorState := {
  prompt : str;
  intent : Intent;
  user : option string;
  plan_result : option LLMResult;
  implement_result : option ImplementResult;
  verify_result : option VerifyResult;
  heal_result : option HealResult
}.

Record NLRequest := {
  req_prompt : str;
  req_user : option string;
  req_critical : option bool
}.

Record Reply := {
  ok : bool;
  reply_intent : Intent;
  reply_plan : option LLMResult;
  reply_implement : option ImplementResult;
  reply_verify : option VerifyResult;
  reply_heal : option HealResult
}.

(** Node names; [stop] is the empty name returned by [node_done]. *)
Inductive name := plan | implement | verify | heal | done | stop.

(** How many node executions a run that is about to execute the named node
    may still need. *)
Definition rank (n : name) : nat :=
  match n with
  | plan => 5
  | implement => 4
  | verify => 3
  | heal => 2
  | done => 1
  | stop => 0
  end.

Definition deploy_pattern : list str := [kw_baepo; cps "deploy"; kw_jaebaepo].
Definition health_pattern : list str := [kw_helseu; cps "health"; kw_sangtae].

Section Handlers.
Variable ci_other : codepoint -> codepoint -> bool.
Variable cfg : Config.
Variable net : kind -> nat -> reply.

Definition choose_model (prompt : str) (critical : bool) : string :=
  if critical || (Z.of_nat (List.length prompt) >? LLM_PROMOTION_THRESHOLD cfg)%Z
  then sonnet else haiku.

Definition call_anthropic (prompt : str) (critical : bool) : M LLMResult :=
  if negb (nonempty (ANTHROPIC_API_KEY cfg)) then ret LLMMissingKey
  else
    let model := choose_model prompt critical in
    mark (LLMRequest model (LLM_MAX_TOKENS cfg) prompt) ;;;
    resp <- request net KLLM (ANTHROPIC_API_URL cfg ++ "/v1/messages")%string ;;
    let data := match json resp with
                | Some j => Parsed j
                | None => Unparsed (status_code resp) (substring 0 400 (Http.text resp))
                end in
    ret (LLMReply ((status_code resp =? 200)%Z || (status_code resp =? 201)%Z)
                  (status_code resp) model data).

(** The loop of [call_vercel_hooks], from index [idx] on. *)
Fixpoint post_hooks (idx : nat) (hooks : list string) (results : HookDict)
  : M HookDict :=
  match hooks with
  | [] => ret results
  | hook :: rest =>
      results' <- try_except
                    (r <- request net KHook hook ;;
                     ret (results ++ [(idx, HookStatus (status_code r))]))
                    (fun e => ret (results ++ [(idx, HookError (str_of_exc e))])) ;;
      post_hooks (S idx) rest results'
  end.

Definition call_vercel_hooks : M HookDict :=
  mark Redeploy ;;;
  post_hooks 1 (VERCEL_HOOKS cfg) [].

Definition call_health : M HealthResult :=
  if negb (nonempty (API_HEALTH cfg)) then ret HealthMissing
  else try_except
         (resp <- request net KHealth (API_HEALTH cfg) ;;
          ret (HealthReply (status_code resp =? 200)%Z (status_code resp)
                           (substring 0 400 (Http.text resp))))
         (fun e => ret (HealthError (str_of_exc e))).

(** No [try] around the POST here. *)
Definition log_supabase (action : string) : M unit :=
  if negb (nonempty (SUPABASE_URL cfg)) || negb (nonempty (SUPABASE_KEY cfg))
  then ret tt
  else
    _ <- request net KLog
           (SUPABASE_URL cfg ++ "/rest/v1/" ++ AI_LOGS_TABLE cfg)%string ;;
    ret tt.

Definition set_plan (st : OrchestratorState) (p : LLMResult) :=
  {| prompt := prompt st; intent := intent st; user := user st;
     plan_result := Some p; implement_result := implement_result st;
     verify_result := verify_result st; heal_result := heal_result st |}.

Definition set_implement (st : OrchestratorState) (i : ImplementResult) :=
  {| prompt := prompt st; intent := intent st; user := user st;
     plan_result := plan_result st; implement_result := Some i;
     verify_result := verify_result st; heal_result := heal_result st |}.

Definition set_verify (st : OrchestratorState) (v : VerifyResult) :=
  {| prompt := prompt st; intent := intent st; user := user st;
     plan_result := plan_result st; implement_result := implement_result st;
     verify_result := Some v; heal_result := heal_result st |}.

Definition set_heal (st : OrchestratorState) (h : HealResult) :=
  {| prompt := prompt st; intent := intent st; user := user st;
     plan_result := plan_result st; implement_result := implement_result st;
     verify_result := verify_result st; heal_result := Some h |}.

(** f"Plan for intent: {state.intent}\nInstruction: {state.prompt}" *)
Definition plan_prompt (st : OrchestratorState) : str :=
  cps "Plan for intent: " ++ cps (Intent_value (intent st)) ++ [10%N]
      ++ cps "Instruction: " ++ prompt st.

Definition node_plan (state : OrchestratorState) : M (OrchestratorState * name) :=
  plan <- call_anthropic (plan_prompt state) false ;;
  ret (set_plan state plan,
       match intent state with deploy => implement | _ => verify end).

Definition node_implement (state : OrchestratorState) : M (OrchestratorState * name) :=
  match intent state with
  | deploy =>
      implement_ <- call_vercel_hooks ;;
      ret (set_implement state (Hooks implement_), verify)
  | _ => ret (set_implement state Skipped, verify)
  end.

Definition node_verify (state : OrchestratorState) : M (OrchestratorState * name) :=
  match intent state with
  | deploy =>
      v <- call_health ;;
      ret (set_verify state (VerifyHealth v), if health_ok v then done else heal)
  | health =>
      v <- call_health ;;
      ret (set_verify state (VerifyHealth v), done)
  | other =>
      llm <- call_anthropic (prompt state)
               (Nat.ltb 200 (List.length (prompt state))) ;;
      ret (set_verify state (VerifyLLM llm), done)
  end.

Definition node_heal (state : OrchestratorState) : M (OrchestratorState * name) :=
  heal_ <- call_vercel_hooks ;;
  verify2_ <- call_health ;;
  ret (set_heal state {| heal_hooks := heal_; verify2 := Some verify2_ |}, done).

Definition node_done (state : OrchestratorState) : M (OrchestratorState * name) :=
  ret (state, stop).

Definition run_node (n : name) (state : OrchestratorState)
  : M (OrchestratorState * name) :=
  match n with
  | plan => node_plan state
  | implement => node_implement state
  | verify => node_verify state
  | heal => node_heal state
  | done => node_done state
  | stop => ret (state, stop)
  end.

(** Running the graph. The engine belongs to the langgraph package; the
    nodes of this module return the state with the name of the node to run
    next, and the run ends at the empty name. It starts at [plan], the
    first node added. *)
Fixpoint graph_runner (limit : nat) (n : name) (state : OrchestratorState)
  : M OrchestratorState :=
  match limit with
  | O => raise GraphRecursionError
  | S limit' =>
      r <- run_node n state ;;
      match snd r with
      | stop => ret (fst r)
      | n' => graph_runner limit' n' (fst r)
      end
  end.

Definition classify (prompt : str) : Intent :=
  if re_search_i ci_other deploy_pattern prompt then deploy
  else if re_search_i ci_other health_pattern prompt then health
  else other.

(** [POST /orchestrate] *)
Definition orchestrate (limit : nat) (req : NLRequest) : M Reply :=
  let prompt := strip (req_prompt req) in
  match prompt with
  | [] => raise (HTTPException 400 "prompt is required")
  | _ =>
      let intent := classify prompt in
      let state := {| prompt := prompt; intent := intent; user := req_user req;
                      plan_result := None; implement_result := None;
                      verify_result := None; heal_result := None |} in
      final_state <- graph_runner limit plan state ;;
      log_supabase "orchestrate" ;;;
      ret {| ok := true; reply_intent := intent;
             reply_plan := plan_result final_state;
             reply_implement := implement_result final_state;
             reply_verify := verify_result final_state;
             reply_heal := heal_result final_state |}
  end.
End Handlers.

End MainLanggraph.

(* ===================================================================== *)
(** ** Sample settings, networks and requests *)
(* ===================================================================== *)

Module Samples.
Import Text Http.

(** A lowercase mapping that only knows the ASCII letters: every other
    character is kept as it is. *)
Definition lower_ascii_only : str -> nat -> str :=
  fun w i => match nth_error w i with
             | Some c => [ascii_lower c]
             | None => []
             end.

(** Ignoring case for the ASCII letters only. *)
Definition ci_ascii_only : codepoint -> codepoint -> bool := fun _ _ => false.

Definition r200 : reply := Answer (Response 200 "ok" None).
Definition r500 : reply := Answer (Response 500 "unavailable" None).

(** Every call is answered with status 200. *)
Definition net_ok : kind -> nat -> reply := fun _ _ => r200.

(** The health endpoint answers 500 three times and 200 from then on. *)
Definition net_unhealthy_thrice : kind -> nat -> reply :=
  fun k i => match k with
             | KHealth => if Nat.ltb i 3 then r500 else r200
             | _ => r200
             end.

(** The health endpoint never answers 200. *)
Definition net_unhealthy : kind -> nat -> reply :=
  fun k _ => match k with
             | KHealth => r500
             | _ => r200
             end.

(** The LLM provider times out. *)
Definition net_llm_timeout : kind -> nat -> reply :=
  fun k _ => match k with
             | KLLM => Fails "timed out"
             | _ => r200
             end.

(** The log sink times out. *)
Definition net_log_timeout : kind -> nat -> reply :=
  fun k _ => match k with
             | KLog => Fails "timed out"
             | _ => r200
             end.

Definition main_no_hooks : MainPy.Config :=
  {| MainPy.VERCEL_HOOK_1 := ""; MainPy.VERCEL_HOOK_2 := "";
     MainPy.HEALTH_URL := None; MainPy.PORT := 8000 |}.

Definition main_one_hook : MainPy.Config :=
  {| MainPy.VERCEL_HOOK_1 := "https://hooks.example/1"; MainPy.VERCEL_HOOK_2 := "";
     MainPy.HEALTH_URL := None; MainPy.PORT := 8000 |}.

(** current_app.py with every integration set up except the hooks. *)
Definition app_no_hooks : CurrentApp.Config :=
  {| CurrentApp.SUPABASE_URL := "https://db.example";
     CurrentApp.SUPABASE_KEY := "key";
     CurrentApp.ANTHROPIC_API_KEY := "sk";
     CurrentApp.ANTHROPIC_API_URL := "https://api.anthropic.com";
     CurrentApp.ANTHROPIC_API_VERSION := "2023-06-01";
     CurrentApp.LLM_PROMOTION_THRESHOLD := 120;
     CurrentApp.LLM_MAX_TOKENS := 512;
     CurrentApp.VERCEL_HOOK_1 := "";
     CurrentApp.VERCEL_HOOK_2 := "";
     CurrentApp.API_HEALTH := "https://svc.example/health" |}.

Definition app_request (text : string) (critical : option bool) : CurrentApp.OrchestrateIn :=
  {| CurrentApp.text := cps text; CurrentApp.user := None;
     CurrentApp.critical := critical; CurrentApp.meta := None |}.

(** main_langgraph.py with every integration set up except the hooks. *)
Definition lg_config (threshold : Z) : MainLanggraph.Config :=
  {| MainLanggraph.SUPABASE_URL := "https://db.example";
     MainLanggraph.SUPABASE_KEY := "key";
     MainLanggraph.ANTHROPIC_API_KEY := "sk";
     MainLanggraph.ANTHROPIC_API_URL := "https://api.anthropic.com";
     MainLanggraph.ANTHROPIC_API_VERSION := "2023-06-01";
     MainLanggraph.VERCEL_HOOK_1 := "";
     MainLanggraph.VERCEL_HOOK_2 := "";
     MainLanggraph.API_HEALTH := "https://svc.example/health";
     MainLanggraph.LLM_PROMOTION_THRESHOLD := threshold;
     MainLanggraph.LLM_MAX_TOKENS := 512;
     MainLanggraph.AI_LOGS_TABLE := "ai_logs" |}.

Definition lg_request (prompt : str) (critical : option bool) : MainLanggraph.NLRequest :=
  {| MainLanggraph.req_prompt := prompt; MainLanggraph.req_user := None;
     MainLanggraph.req_critical := critical |}.

(** A prompt of 300 letters. *)
Definition long_prompt : str := repeat 97%N 300.

End Samples.

(* ===================================================================== *)
(** ** Facts about texts *)
(* ===================================================================== *)

Module TextFacts.
Import Text.

Lemma match_at_prefix (m : codepoint -> codepoint -> bool) (p p' post : str) :
  Forall2 (fun c a => m c a = true) p' p ->
  match_at m p (p' ++ post) = true.
Proof.
  induction 1 as [|c a p' p Hca _ IH]; simpl.
  - reflexivity.
  - rewrite Hca, IH. reflexivity.
Qed.

Lemma search_here (m : codepoint -> codepoint -> bool) (p t : str) :
  match_at m p t = true -> search m p t = true.
Proof.
  intros H. destruct t; simpl in *; rewrite H; reflexivity.
Qed.

Lemma search_skip (m : codepoint -> codepoint -> bool) (p pre t : str) :
  search m p t = true -> search m p (pre ++ t) = true.
Proof.
  induction pre as [|c pre IH]; simpl; intros H.
  - exact H.
  - rewrite (IH H). apply orb_true_r.
Qed.

Lemma search_occurrence (m : codepoint -> codepoint -> bool) (p pre p' post : str) :
  Forall2 (fun c a => m c a = true) p' p ->
  search m p (pre ++ p' ++ post) = true.
Proof.
  intros H. apply search_skip, search_here, match_at_prefix, H.
Qed.

Lemma contains_occurrence (k pre post : str) :
  contains k (pre ++ k ++ post) = true.
Proof.
  unfold contains. apply search_occurrence.
  induction k; constructor; auto using N.eqb_refl.
Qed.

(** [match_at] and [search] only look at the text through [m]. *)
Lemma match_at_ext (m m' : codepoint -> codepoint -> bool) (p s t : str) :
  Forall2 (fun c c' => forall a, m c a = m' c' a) s t ->
  match_at m p s = match_at m' p t.
Proof.
  intros H. revert p. induction H as [|c c' s t Hc _ IH]; intros [|a p]; simpl; auto.
  rewrite Hc, IH. reflexivity.
Qed.

Lemma search_ext (m m' : codepoint -> codepoint -> bool) (p s t : str) :
  Forall2 (fun c c' => forall a, m c a = m' c' a) s t ->
  search m p s = search m' p t.
Proof.
  intros H. induction H as [|c c' s t Hc Hst IH].
  - destruct p; reflexivity.
  - cbn [search]. rewrite IH.
    rewrite (@match_at_ext m m' p (c :: s) (c' :: t)) by (constructor; assumption).
    reflexivity.
Qed.

Section Lower.
Variable lower_other : str -> nat -> str.

Lemma lower_from_app (w : str) (i : nat) (a b : str) :
  lower_from lower_other w i (a ++ b)
  = lower_from lower_other w i a ++ lower_from lower_other w (i + List.length a) b.
Proof.
  revert i. induction a as [|c a IH]; intros i; simpl.
  - rewrite Nat.add_0_r. reflexivity.
  - rewrite IH, <- app_assoc, Nat.add_succ_r. reflexivity.
Qed.

(** Any casing of a stable keyword lowers to the keyword itself. *)
Lemma lower_from_keyword (w : str) (k' k : str) :
  forallb stable k = true ->
  same_upto_ascii_case k' k ->
  forall i, lower_from lower_other w i k' = k.
Proof.
  intros Hst H. induction H as [|a b k' k Hab _ IH]; intros i.
  - reflexivity.
  - simpl in Hst. apply andb_true_iff in Hst as [Hb Hk].
    simpl. rewrite (IH Hk). unfold lower_char, stable in *.
    destruct Hab as [-> | (Ha & Hb' & Hl)].
    + destruct (is_ascii b).
      * apply N.eqb_eq in Hb. rewrite Hb. reflexivity.
      * rewrite Hb. reflexivity.
    + rewrite Ha, Hl. rewrite Hb' in Hb. apply N.eqb_eq in Hb.
      rewrite Hb. reflexivity.
Qed.

Lemma lower_contains_keyword (k text : str) :
  forallb stable k = true ->
  occurs_upto_case k text ->
  contains k (lower lower_other text) = true.
Proof.
  intros Hst (pre & k' & post & -> & Hk).
  unfold lower. rewrite !lower_from_app.
  rewrite (lower_from_keyword _ Hst Hk).
  apply contains_occurrence.
Qed.

(** When the lowercase of the other characters does not depend on the case
    of the ASCII letters of the text, neither does the lowercase text. *)
Hypothesis lower_other_case :
  forall w w' i, same_upto_ascii_case w w' -> lower_other w i = lower_other w' i.

Lemma lower_from_same_case (w w' s t : str) :
  same_upto_ascii_case w w' -> same_upto_ascii_case s t ->
  forall i, lower_from lower_other w i s = lower_from lower_other w' i t.
Proof.
  intros Hw H. induction H as [|a b s t Hab _ IH]; intros i; simpl.
  - reflexivity.
  - rewrite IH. f_equal. unfold lower_char.
    destruct Hab as [-> | (Ha & Hb & Hl)].
    + rewrite (lower_other_case i Hw). reflexivity.
    + rewrite Ha, Hb, Hl. reflexivity.
Qed.

Lemma lower_same_case (s t : str) :
  same_upto_ascii_case s t -> lower lower_other s = lower lower_other t.
Proof.
  intros H. unfold lower. apply lower_from_same_case; assumption.
Qed.
End Lower.

Section IgnoreCase.
Variable ci_other : codepoint -> codepoint -> bool.

Lemma ci_match_casing (k' k : str) :
  same_upto_ascii_case k' k ->
  Forall2 (fun c a => ci_match ci_other c a = true) k' k.
Proof.
  induction 1 as [|a b k' k Hab _ IH]; constructor; auto.
  unfold ci_match. destruct Hab as [-> | (Ha & _ & Hl)].
  - rewrite N.eqb_refl. reflexivity.
  - rewrite Ha, Hl, N.eqb_refl. apply orb_true_r.
Qed.

Lemma re_search_i_occurrence (alts : list str) (k text : str) :
  In k alts -> occurs_upto_case k text ->
  re_search_i ci_other alts text = true.
Proof.
  intros Hin (pre & k' & post & -> & Hk).
  unfold re_search_i. apply existsb_exists. exists k. split; [exact Hin|].
  apply search_occurrence, ci_match_casing, Hk.
Qed.

Lemma ci_match_same_case (s t : str) :
  same_upto_ascii_case s t ->
  Forall2 (fun c c' => forall a, ci_match ci_other c a = ci_match ci_other c' a) s t.
Proof.
  induction 1 as [|a b s t Hab _ IH]; constructor; auto.
  intros x. destruct Hab as [-> | (Ha & Hb & Hl)]; [reflexivity|].
  unfold ci_match. rewrite Ha, Hb, Hl.
  destruct (N.eqb_spec a x) as [->|Hax], (N.eqb_spec b x) as [->|Hbx];
    try reflexivity; simpl.
  - rewrite <- Hl, N.eqb_refl. reflexivity.
  - rewrite N.eqb_refl. reflexivity.
Qed.

Lemma re_search_i_same_case (alts : list str) (s t : str) :
  same_upto_ascii_case s t ->
  re_search_i ci_other alts s = re_search_i ci_other alts t.
Proof.
  intros H. unfold re_search_i.
  induction alts as [|a alts IH]; simpl; [reflexivity|].
  rewrite IH. f_equal. apply search_ext, ci_match_same_case, H.
Qed.
End IgnoreCase.

(** The ASCII-only lowercase mapping does not depend on the case of the text
    around. *)
Lemma lower_ascii_only_case (w w' : str) (i : nat) :
  same_upto_ascii_case w w' ->
  Samples.lower_ascii_only w i = Samples.lower_ascii_only w' i.
Proof.
  intros H. revert i. unfold Samples.lower_ascii_only.
  induction H as [|a b w w' Hab _ IH]; intros [|i]; simpl; auto.
  destruct Hab as [-> | (_ & _ & ->)]; reflexivity.
Qed.

(** Deciding [same_upto_ascii_case] on two literals. *)
Ltac same_case :=
  unfold same_upto_ascii_case; cbv [cps list_ascii_of_string map N_of_ascii N_of_digits];
  repeat (apply Forall2_cons;
          [first [left; reflexivity | right; repeat split; reflexivity]|]);
  apply Forall2_nil.

End TextFacts.

(* ===================================================================== *)
(** ** Facts about the call log and the monad *)
(* ===================================================================== *)

Module HttpFacts.
Import Text Http.

Lemma calls_snoc (k : kind) (tr : list event) (e : event) :
  calls k (tr ++ [e]) = calls k tr + (if is_call k e then 1 else 0).
Proof.
  unfold calls. rewrite filter_app, length_app. simpl.
  destruct (is_call k e); reflexivity.
Qed.

Lemma redeploys_snoc (tr : list event) (e : event) :
  redeploys (tr ++ [e]) = redeploys tr + (if is_redeploy e then 1 else 0).
Proof.
  unfold redeploys. rewrite filter_app, length_app. simpl.
  destruct (is_redeploy e); reflexivity.
Qed.

Lemma returns_ret {A} (a : A) (tr : list event) (P : A -> list event -> Prop) :
  P a tr -> returns (ret a) tr P.
Proof.
  intros H. exists a, tr. split; [reflexivity | exact H].
Qed.

Lemma returns_bind {A B} (m : M A) (f : A -> M B) (tr : list event)
      (Q : B -> list event -> Prop) :
  returns m tr (fun a tr' => returns (f a) tr' Q) ->
  returns (bind m f) tr Q.
Proof.
  intros (a & tr' & Hm & b & tr'' & Hf & HQ).
  exists b, tr''. split; [|exact HQ].
  unfold bind. rewrite Hm. exact Hf.
Qed.

Lemma returns_weaken {A} (m : M A) (tr : list event) (P Q : A -> list event -> Prop) :
  returns m tr P -> (forall a tr', P a tr' -> Q a tr') -> returns m tr Q.
Proof.
  intros (a & tr' & Hm & HP) H. exists a, tr'. auto.
Qed.

Lemma returns_mark (e : event) (tr : list event) (P : unit -> list event -> Prop) :
  P tt (tr ++ [e]) -> returns (mark e) tr P.
Proof.
  intros H. exists tt, (tr ++ [e]). split; [reflexivity | exact H].
Qed.

Lemma bind_eq {A B} (m m' : M A) (f f' : A -> M B) (tr : list event) :
  m tr = m' tr -> (forall a tr', f a tr' = f' a tr') ->
  bind m f tr = bind m' f' tr.
Proof.
  intros Hm Hf. unfold bind. rewrite Hm.
  destruct (m' tr) as [[a|e] tr']; [apply Hf | reflexivity].
Qed.

Lemma fst_bind_eq {A B} (m m' : M A) (f f' : A -> M B) (tr : list event) :
  m tr = m' tr -> (forall a tr', fst (f a tr') = fst (f' a tr')) ->
  fst (bind m f tr) = fst (bind m' f' tr).
Proof.
  intros Hm Hf. unfold bind. rewrite Hm.
  destruct (m' tr) as [[a|e] tr']; [apply Hf | reflexivity].
Qed.

(** A guarded request: whatever the network does, the guarded block returns,
    having made exactly one call. *)
Lemma returns_guarded_request {A} (net : kind -> nat -> reply) (k : kind) (url : string)
      (f : response -> A) (h : exc -> A) (tr : list event)
      (P : A -> list event -> Prop) :
  (forall r, net k (calls k tr) = Answer r -> P (f r) (tr ++ [Call k url])) ->
  (forall e, net k (calls k tr) = Fails e -> P (h (NetworkError e)) (tr ++ [Call k url])) ->
  returns (try_except (bind (request net k url) (fun r => ret (f r)))
                      (fun e => ret (h e))) tr P.
Proof.
  intros Hok Hfail. unfold returns, try_except, bind, request, ret.
  destruct (net k (calls k tr)) as [r|e] eqn:E.
  - eexists _, _. split; [reflexivity | apply Hok; reflexivity].
  - eexists _, _. split; [reflexivity | apply Hfail; reflexivity].
Qed.

End HttpFacts.

(* ===================================================================== *)
(** ** main.py: what each node does *)
(* ===================================================================== *)

Module MainPyFacts.
Import Text Http HttpFacts MainPy.

Section Nodes.
Variable lower_other : str -> nat -> str.
Variable cfg : Config.
Variable net : kind -> nat -> reply.

Lemma post_hook_returns (idx : nat) (hook : string) (st : OrchestratorState)
      (tr : list event) :
  returns (post_hook net idx hook st) tr (fun st' tr' =>
    intent st' = intent st /\ retries st' = retries st /\
    verify_passed st' = verify_passed st /\
    calls KHealth tr' = calls KHealth tr /\ redeploys tr' = redeploys tr).
Proof.
  unfold post_hook. destruct (nonempty hook); simpl.
  - apply (returns_guarded_request net KHook hook
             (fun r => append_log st (LogImplementStatus idx (status_code r)))
             (fun e => append_log st (LogImplementError idx (str_of_exc e))));
      intros; rewrite calls_snoc, redeploys_snoc; simpl; auto with arith.
  - apply returns_ret. auto.
Qed.

Lemma implement_node_returns (st : OrchestratorState) (tr : list event) :
  returns (implement_node cfg net st) tr (fun st' tr' =>
    intent st' = intent st /\ retries st' = retries st /\
    verify_passed st' = verify_passed st /\
    calls KHealth tr' = calls KHealth tr /\
    match intent st with
    | Some HEALTH => tr' = tr
    | _ => redeploys tr' = S (redeploys tr)
    end).
Proof.
  assert (Hgen : returns
            (bind (mark Redeploy) (fun _ =>
             bind (post_hook net 1 (VERCEL_HOOK_1 cfg) st) (fun s1 =>
             post_hook net 2 (VERCEL_HOOK_2 cfg) s1))) tr
            (fun st' tr' =>
               intent st' = intent st /\ retries st' = retries st /\
               verify_passed st' = verify_passed st /\
               calls KHealth tr' = calls KHealth tr /\
               redeploys tr' = S (redeploys tr))).
  { apply returns_bind, returns_mark, returns_bind.
    eapply returns_weaken; [apply post_hook_returns|].
    intros s1 tr1 (I1 & R1 & V1 & H1 & D1).
    eapply returns_weaken; [apply post_hook_returns|].
    intros s2 tr2 (I2 & R2 & V2 & H2 & D2).
    rewrite I2, R2, V2, H2, D2, I1, R1, V1, H1, D1.
    rewrite calls_snoc, redeploys_snoc. simpl.
    repeat split; auto with arith. }
  unfold implement_node.
  destruct (intent st) as [[| |]|] eqn:E; try exact Hgen.
  apply returns_ret. simpl. auto.
Qed.

Lemma verify_node_returns (st : OrchestratorState) (tr : list event) :
  returns (verify_node cfg net st) tr (fun st' tr' =>
    intent st' = intent st /\ retries st' = retries st /\
    verify_passed st' = Some (probe_passes (net KHealth (calls KHealth tr))) /\
    calls KHealth tr' = S (calls KHealth tr) /\
    calls KHook tr' = calls KHook tr /\ redeploys tr' = redeploys tr).
Proof.
  unfold verify_node.
  apply (returns_guarded_request net KHealth (health_url cfg)
           (fun r => append_log (set_verify_passed st (status_code r =? 200)%Z)
                                (LogVerify (health_url cfg) (status_code r)))
           (fun e => append_log (set_verify_passed st false)
                                (LogVerifyError (str_of_exc e))));
    intros r E; rewrite E, !calls_snoc, redeploys_snoc; simpl;
    repeat split; auto with arith; apply Nat.add_1_r.
Qed.

Lemma heal_node_returns (st : OrchestratorState) (tr : list event) :
  returns (heal_node cfg net st) tr (fun st' tr' =>
    intent st' = intent st /\ retries st' = (retries st + 1)%Z /\
    verify_passed st' = verify_passed st /\
    calls KHealth tr' = calls KHealth tr /\
    match intent st with
    | Some HEALTH => tr' = tr
    | _ => redeploys tr' = S (redeploys tr)
    end).
Proof.
  unfold heal_node. eapply returns_weaken; [apply implement_node_returns|].
  simpl. intros st' tr' H. exact H.
Qed.

(** One node execution of the graph engine. *)
Lemma run_graph_step (limit : nat) (n : node) (st st' : OrchestratorState)
      (tr tr' : list event) :
  run_node lower_other cfg net n st tr = (Ok st', tr') ->
  run_graph lower_other cfg net (S limit) n st tr
  = match successor n st' with
    | None => (Ok st', tr')
    | Some n' => run_graph lower_other cfg net limit n' st' tr'
    end.
Proof.
  intros E. simpl. unfold bind. rewrite E.
  destruct (successor n st'); reflexivity.
Qed.

Lemma returns_step (limit : nat) (n : node) (st st' : OrchestratorState)
      (tr tr' : list event) (P : OrchestratorState -> list event -> Prop) :
  run_node lower_other cfg net n st tr = (Ok st', tr') ->
  returns (match successor n st' with
           | None => ret st'
           | Some n' => run_graph lower_other cfg net limit n' st'
           end) tr' P ->
  returns (run_graph lower_other cfg net (S limit) n st) tr P.
Proof.
  intros E (a & tr2 & H & HP). exists a, tr2. split; [|exact HP].
  rewrite (run_graph_step limit n st tr E).
  destruct (successor n st'); exact H.
Qed.

(** [plan_node] makes no call and only records the intent and the plan. *)
Lemma plan_node_eq (st : OrchestratorState) (tr : list event) :
  exists st', plan_node lower_other st tr = (Ok st', tr) /\
    intent st' = Some (plan_intent lower_other (instruction st)) /\
    retries st' = retries st /\ verify_passed st' = verify_passed st.
Proof.
  eexists. split; [reflexivity|]. simpl. auto.
Qed.

Local Abbreviation run := (run_graph lower_other cfg net).

(** *** The HealthCheck path never reaches the hooks *)

Lemma health_run_no_redeploy (limit : nat) :
  forall (n : node) (st : OrchestratorState) (tr : list event),
    intent st = Some HEALTH -> n <> NPlan ->
    calls KHook (snd (run limit n st tr)) = calls KHook tr /\
    redeploys (snd (run limit n st tr)) = redeploys tr.
Proof.
  induction limit as [|limit IH]; intros n st tr Hi Hn.
  - simpl. auto.
  - destruct n; [congruence | | |].
    + destruct (implement_node_returns st tr) as (st' & tr' & E & I & _ & _ & _ & T).
      rewrite Hi in T. subst tr'.
      rewrite (run_graph_step limit NImplement st tr E). simpl.
      apply IH; [congruence | discriminate].
    + destruct (verify_node_returns st tr) as (st' & tr' & E & I & _ & _ & _ & K & D).
      rewrite (run_graph_step limit NVerify st tr E). simpl.
      destruct (verify_router st').
      * simpl. auto.
      * rewrite <- K, <- D. apply IH; [congruence | discriminate].
    + destruct (heal_node_returns st tr) as (st' & tr' & E & I & _ & _ & _ & T).
      rewrite Hi in T. subst tr'.
      rewrite (run_graph_step limit NHeal st tr E). simpl.
      apply IH; [congruence | discriminate].
Qed.

(** *** Any other intent heals at most once *)

Lemma router_not_health (st : OrchestratorState) :
  intent st <> Some HEALTH ->
  verify_router st =
    match verify_passed st with
    | Some true => END
    | _ => if (retries st <? 1)%Z then heal else END
    end.
Proof.
  intros H. unfold verify_router.
  destruct (intent st) as [[| |]|]; try reflexivity. congruence.
Qed.

(** The second verification: whatever the probe says, the run ends. *)
Lemma verify_last_safe (limit : nat) (st : OrchestratorState) (tr : list event) :
  intent st <> Some HEALTH -> retries st = 1%Z ->
  redeploys (snd (run limit NVerify st tr)) = redeploys tr /\
  (forall st', fst (run limit NVerify st tr) = Ok st' -> retries st' = 1%Z).
Proof.
  intros Hi Hr. destruct limit as [|limit]; [simpl; split; [auto | discriminate]|].
  destruct (verify_node_returns st tr) as (st' & tr' & E & I & R & V & _ & _ & D).
  rewrite (run_graph_step limit NVerify st tr E). simpl.
  rewrite router_not_health by congruence. rewrite R, Hr, V. simpl.
  destruct (probe_passes _); simpl; (split; [exact D | intros ? [= <-]; congruence]).
Qed.

Lemma heal_safe (limit : nat) (st : OrchestratorState) (tr : list event) :
  intent st <> Some HEALTH -> retries st = 0%Z ->
  redeploys (snd (run limit NHeal st tr)) <= S (redeploys tr) /\
  (forall st', fst (run limit NHeal st tr) = Ok st' -> retries st' = 1%Z).
Proof.
  intros Hi Hr. destruct limit as [|limit]; [simpl; split; [auto | discriminate]|].
  destruct (heal_node_returns st tr) as (st' & tr' & E & I & R & _ & _ & T).
  rewrite (run_graph_step limit NHeal st tr E). simpl.
  assert (D : redeploys tr' = S (redeploys tr))
    by (destruct (intent st) as [[| |]|]; congruence).
  destruct (@verify_last_safe limit st' tr') as (D' & R'); [congruence | lia |].
  rewrite D', D. split; [auto | exact R'].
Qed.

Lemma verify_first_safe (limit : nat) (st : OrchestratorState) (tr : list event) :
  intent st <> Some HEALTH -> retries st = 0%Z ->
  redeploys (snd (run limit NVerify st tr)) <= S (redeploys tr) /\
  (forall st', fst (run limit NVerify st tr) = Ok st' -> (retries st' <= 1)%Z).
Proof.
  intros Hi Hr. destruct limit as [|limit]; [simpl; split; [auto | discriminate]|].
  destruct (verify_node_returns st tr) as (st' & tr' & E & I & R & V & _ & _ & D).
  rewrite (run_graph_step limit NVerify st tr E). simpl.
  rewrite router_not_health by congruence. rewrite R, Hr, V. simpl.
  destruct (probe_passes _); simpl.
  - split; [lia | intros ? [= <-]; lia].
  - destruct (@heal_safe limit st' tr') as (D' & R'); [congruence | congruence |].
    rewrite <- D. split; [exact D' | intros s Hs; rewrite (R' s Hs); lia].
Qed.

Lemma ainvoke_safe (limit : nat) (text : str) :
  plan_intent lower_other text <> HEALTH ->
  redeploys (snd (ainvoke lower_other cfg net limit (init_state text) [])) <= 2 /\
  (forall st', fst (ainvoke lower_other cfg net limit (init_state text) []) = Ok st' ->
               (retries st' <= 1)%Z).
Proof.
  intros Hi. unfold ainvoke.
  destruct limit as [|limit]; [simpl; split; [auto | discriminate]|].
  destruct (plan_node_eq (init_state text) []) as (st1 & E1 & I1 & R1 & _).
  rewrite (run_graph_step limit NPlan (init_state text) [] E1). simpl successor. cbv iota.
  simpl in I1, R1.
  destruct limit as [|limit]; [simpl; split; [auto | discriminate]|].
  destruct (implement_node_returns st1 []) as (st2 & tr2 & E2 & I2 & R2 & _ & _ & T).
  rewrite (run_graph_step limit NImplement st1 [] E2). simpl successor. cbv iota.
  assert (D : redeploys tr2 = 1).
  { rewrite I1 in T. destruct (plan_intent lower_other text); try exact T. congruence. }
  destruct (@verify_first_safe limit st2 tr2) as (D' & R'); [congruence | congruence |].
  split; [lia | exact R'].
Qed.

(** *** What a run with enough steps returns *)

Lemma verify_last_returns (l : nat) (st : OrchestratorState) (tr : list event) :
  intent st <> Some HEALTH -> retries st = 1%Z ->
  returns (run (S l) NVerify st) tr (fun st' tr' =>
    retries st' = 1%Z /\
    verify_passed st' = Some (probe_passes (net KHealth (calls KHealth tr)))).
Proof.
  intros Hi Hr.
  destruct (verify_node_returns st tr) as (st' & tr' & E & I & R & V & _).
  eapply returns_step; [exact E|]. simpl successor.
  rewrite router_not_health by congruence. rewrite R, Hr, V. simpl Z.ltb.
  destruct (probe_passes _); apply returns_ret; split; congruence.
Qed.

Lemma verify_first_returns (l : nat) (st : OrchestratorState) (tr : list event) :
  intent st <> Some HEALTH -> retries st = 0%Z ->
  returns (run (S (S (S l))) NVerify st) tr (fun st' tr' =>
    if probe_passes (net KHealth (calls KHealth tr))
    then retries st' = 0%Z /\ verify_passed st' = Some true
    else retries st' = 1%Z /\
         verify_passed st' = Some (probe_passes (net KHealth (S (calls KHealth tr))))).
Proof.
  intros Hi Hr.
  destruct (verify_node_returns st tr) as (st1 & tr1 & E1 & I1 & R1 & V1 & H1 & _).
  eapply returns_step; [exact E1|]. simpl successor.
  rewrite router_not_health by congruence. rewrite R1, Hr, V1. simpl Z.ltb.
  destruct (probe_passes (net KHealth (calls KHealth tr))) eqn:P; cbv iota.
  - apply returns_ret. split; congruence.
  - destruct (heal_node_returns st1 tr1) as (st2 & tr2 & E2 & I2 & R2 & _ & H2 & _).
    eapply returns_step; [exact E2|]. simpl successor. cbv iota.
    eapply returns_weaken;
      [apply verify_last_returns; [congruence | rewrite R2, R1, Hr; reflexivity]|].
    simpl. intros st3 tr3 (R3 & V3). rewrite H2, H1 in V3. auto.
Qed.

Lemma ainvoke_returns (l : nat) (text : str) :
  plan_intent lower_other text <> HEALTH ->
  returns (ainvoke lower_other cfg net (5 + l) (init_state text)) [] (fun st' tr' =>
    if probe_passes (net KHealth 0)
    then retries st' = 0%Z /\ verify_passed st' = Some true
    else retries st' = 1%Z /\ verify_passed st' = Some (probe_passes (net KHealth 1))).
Proof.
  intros Hi. unfold ainvoke.
  destruct (plan_node_eq (init_state text) []) as (st1 & E1 & I1 & R1 & _).
  simpl plus. eapply returns_step; [exact E1|]. simpl successor. cbv iota.
  simpl in I1, R1.
  destruct (implement_node_returns st1 []) as (st2 & tr2 & E2 & I2 & R2 & _ & H2 & _).
  eapply returns_step; [exact E2|]. simpl successor. cbv iota.
  eapply returns_weaken;
    [apply verify_first_returns; congruence|].
  simpl. rewrite H2. intros st3 tr3 H. exact H.
Qed.

(** *** The HealthCheck path heals after every failed probe *)

Lemma health_loop_returns (k : nat) :
  forall (l : nat) (st : OrchestratorState) (tr : list event),
    intent st = Some HEALTH ->
    (forall i, i < k -> probe_passes (net KHealth (calls KHealth tr + i)) = false) ->
    probe_passes (net KHealth (calls KHealth tr + k)) = true ->
    returns (run (S (k + k + l)) NVerify st) tr (fun st' tr' =>
      retries st' = (retries st + Z.of_nat k)%Z /\ verify_passed st' = Some true).
Proof.
  induction k as [|k IH]; intros l st tr Hi Hfail Hpass.
  - destruct (verify_node_returns st tr) as (st1 & tr1 & E1 & I1 & R1 & V1 & _).
    rewrite Nat.add_0_r in Hpass. rewrite Hpass in V1.
    simpl plus. eapply returns_step; [exact E1|]. simpl successor.
    unfold verify_router. rewrite I1, Hi, V1.
    apply returns_ret. split; [lia | exact V1].
  - destruct (verify_node_returns st tr) as (st1 & tr1 & E1 & I1 & R1 & V1 & H1 & _).
    pose proof (Hfail 0 (Nat.lt_0_succ k)) as F0.
    rewrite Nat.add_0_r in F0. rewrite F0 in V1.
    replace (S (S k + S k + l)) with (S (S (S (k + k + l)))) by lia.
    eapply returns_step; [exact E1|]. simpl successor.
    unfold verify_router. rewrite I1, Hi, V1. cbv iota.
    destruct (heal_node_returns st1 tr1) as (st2 & tr2 & E2 & I2 & R2 & _ & H2 & _).
    eapply returns_step; [exact E2|]. simpl successor. cbv iota.
    eapply returns_weaken; [apply IH|].
    + congruence.
    + intros i Hik. rewrite H2, H1.
      replace (S (calls KHealth tr) + i) with (calls KHealth tr + S i) by lia.
      apply Hfail. lia.
    + rewrite H2, H1.
      replace (S (calls KHealth tr) + k) with (calls KHealth tr + S k) by lia.
      exact Hpass.
    + simpl. intros st3 tr3 (R3 & V3). split; [lia | exact V3].
Qed.

(** *** No text is refused *)

Lemma run_node_returns (n : node) (st : OrchestratorState) (tr : list event) :
  returns (run_node lower_other cfg net n st) tr (fun _ tr' =>
    calls KHealth tr <= calls KHealth tr').
Proof.
  destruct n; simpl.
  - apply returns_ret. auto.
  - eapply returns_weaken; [apply implement_node_returns|].
    simpl. intros ? ? (_ & _ & _ & H & _). rewrite H. auto.
  - eapply returns_weaken; [apply verify_node_returns|].
    simpl. intros ? ? (_ & _ & _ & H & _). rewrite H. auto.
  - eapply returns_weaken; [apply heal_node_returns|].
    simpl. intros ? ? (_ & _ & _ & H & _). rewrite H. auto.
Qed.

(** A run ends with a state or with the engine's step limit, and never
    forgets a probe. *)
Lemma run_graph_outcome (limit : nat) :
  forall (n : node) (st : OrchestratorState) (tr : list event),
    calls KHealth tr <= calls KHealth (snd (run limit n st tr)) /\
    ((exists st', fst (run limit n st tr) = Ok st') \/
     fst (run limit n st tr) = Raised GraphRecursionError).
Proof.
  induction limit as [|limit IH]; intros n st tr.
  - simpl. auto.
  - destruct (run_node_returns n st tr) as (st' & tr' & E & H).
    rewrite (run_graph_step limit n st tr E).
    destruct (successor n st') as [n'|].
    + destruct (IH n' st' tr') as (H' & O). split; [lia | exact O].
    + simpl. split; [exact H | left; eauto].
Qed.

Lemma ainvoke_probes (l : nat) (st : OrchestratorState) :
  1 <= calls KHealth (snd (ainvoke lower_other cfg net (3 + l) st [])).
Proof.
  unfold ainvoke.
  destruct (plan_node_eq st []) as (st1 & E1 & _).
  simpl plus. rewrite (run_graph_step (S (S l)) NPlan st [] E1). simpl successor. cbv iota.
  destruct (implement_node_returns st1 []) as (st2 & tr2 & E2 & _ & _ & _ & H2 & _).
  rewrite (run_graph_step (S l) NImplement st1 [] E2). simpl successor. cbv iota.
  destruct (verify_node_returns st2 tr2) as (st3 & tr3 & E3 & _ & _ & _ & H3 & _).
  rewrite (run_graph_step l NVerify st2 tr2 E3).
  destruct (successor NVerify st3) as [n'|].
  - destruct (run_graph_outcome l n' st3 tr3) as (H & _). lia.
  - simpl. lia.
Qed.

(** The handler runs the graph and then fails on [final.instruction]: its
    call log is the one of the run, and its outcome is the exception of the
    run, or the [AttributeError]. *)
Lemma orchestrate_eq (limit : nat) (text : str) (tr : list event) :
  orchestrate lower_other cfg net limit text tr
  = (match fst (ainvoke lower_other cfg net limit (init_state text) tr) with
     | Ok final => Raised (AttributeError "instruction")
     | Raised e => Raised e
     end,
     snd (ainvoke lower_other cfg net limit (init_state text) tr)).
Proof.
  unfold orchestrate, bind.
  destruct (ainvoke lower_other cfg net limit (init_state text) tr) as [[final|e] tr'];
    reflexivity.
Qed.

(** No request to the handler is answered. *)
Lemma orchestrate_never_answers (limit : nat) (text : str) (tr : list event)
      (resp : Response) :
  fst (orchestrate lower_other cfg net limit text tr) <> Ok resp.
Proof.
  rewrite orchestrate_eq. cbn [fst].
  destruct (fst (ainvoke lower_other cfg net limit (init_state text) tr)); discriminate.
Qed.
End Nodes.

End MainPyFacts.

(* ===================================================================== *)
(** ** current_app.py and main_langgraph.py: what each helper does *)
(* ===================================================================== *)

Module CurrentAppFacts.
Import Text Http HttpFacts CurrentApp.

Lemma strip_blank (t : str) : forallb isspace t = true -> strip t = [].
Proof.
  intros H. unfold strip, rstrip.
  assert (L : lstrip t = []).
  { induction t as [|c t IH]; simpl in *; [reflexivity|].
    apply andb_true_iff in H as [Hc Ht]. rewrite Hc. auto. }
  rewrite L. reflexivity.
Qed.

Lemma sonnet_not_haiku : sonnet <> haiku.
Proof. discriminate. Qed.

Section Handlers.
Variable ci_other : codepoint -> codepoint -> bool.
Variable cfg : Config.
Variable net : kind -> nat -> reply.

(** The log call never raises and touches nothing but the log sink. *)
Lemma log_supabase_returns (level message : string) (tr : list event) :
  returns (log_supabase cfg net level message) tr (fun _ tr' =>
    calls KHook tr' = calls KHook tr /\ calls KHealth tr' = calls KHealth tr /\
    calls KLLM tr' = calls KLLM tr /\ redeploys tr' = redeploys tr).
Proof.
  unfold log_supabase.
  destruct (negb (nonempty (SUPABASE_URL cfg)) || negb (nonempty (SUPABASE_KEY cfg))).
  - apply returns_ret. auto.
  - apply (returns_guarded_request net KLog _ (fun _ => tt) (fun _ => tt));
      intros; rewrite !calls_snoc, redeploys_snoc; simpl; auto with arith.
Qed.

(** The health probe never raises. *)
Lemma call_health_returns (tr : list event) :
  returns (call_health cfg net) tr (fun _ tr' =>
    calls KHook tr' = calls KHook tr /\ redeploys tr' = redeploys tr /\
    calls KHealth tr' = calls KHealth tr + (if nonempty (API_HEALTH cfg) then 1 else 0)).
Proof.
  unfold call_health. destruct (nonempty (API_HEALTH cfg)); simpl.
  - apply (returns_guarded_request net KHealth (API_HEALTH cfg)
             (fun r => HealthReply (status_code r =? 200)%Z (status_code r)
                                   (substring 0 400 (Http.text r)))
             (fun e => HealthError (str_of_exc e)));
      intros; rewrite !calls_snoc, redeploys_snoc; simpl; auto with arith.
  - apply returns_ret. auto with arith.
Qed.

(** The fan-out never raises: one entry and one call per configured hook. *)
Lemma post_hooks_returns (urls : list string) :
  forall (results : list HookResult) (tr : list event),
    returns (post_hooks net urls results) tr (fun res tr' =>
      List.length res = List.length results + List.length urls /\
      calls KHook tr' = calls KHook tr + List.length urls /\
      calls KHealth tr' = calls KHealth tr /\ redeploys tr' = redeploys tr).
Proof.
  induction urls as [|url urls IH]; intros results tr; simpl.
  - apply returns_ret. auto with arith.
  - apply returns_bind.
    apply (returns_guarded_request net KHook url
             (fun resp => results ++ [HookStatus url (status_code resp)])
             (fun e => results ++ [HookError url (str_of_exc e)]));
      intros ? _; (eapply returns_weaken; [apply IH|]);
      intros res tr' (L & K & H & D);
      rewrite L, K, H, D, length_app, !calls_snoc, redeploys_snoc; simpl;
      repeat split; lia.
Qed.

Lemma choose_model_sonnet (prompt : str) (critical : bool) :
  choose_model cfg prompt critical = sonnet <->
  critical = true \/ (LLM_PROMOTION_THRESHOLD cfg < Z.of_nat (List.length prompt))%Z.
Proof.
  unfold choose_model.
  destruct critical; simpl; [tauto|].
  destruct (Z.gtb_spec (Z.of_nat (List.length prompt)) (LLM_PROMOTION_THRESHOLD cfg)).
  - split; auto.
  - split; [intros E; symmetry in E; now apply sonnet_not_haiku in E|].
    intros [E|E]; [discriminate | lia].
Qed.

(** The request sent to the provider carries the chosen model. *)
Lemma call_anthropic_request (prompt : str) (critical : bool) (tr : list event) :
  nonempty (ANTHROPIC_API_KEY cfg) = true ->
  exists r, call_anthropic cfg net prompt critical tr =
    (r, tr ++ [LLMRequest (choose_model cfg prompt critical) (LLM_MAX_TOKENS cfg) prompt]
           ++ [Call KLLM (ANTHROPIC_API_URL cfg ++ "/v1/messages")%string]).
Proof.
  intros K. unfold call_anthropic. rewrite K. simpl.
  unfold bind, mark, request, ret. rewrite <- app_assoc.
  destruct (net KLLM _); eexists; reflexivity.
Qed.

(** A failing call to the provider leaves [call_anthropic] as an exception. *)
Lemma call_anthropic_raises (prompt : str) (critical : bool) (tr : list event) (e : string) :
  nonempty (ANTHROPIC_API_KEY cfg) = true ->
  net KLLM (calls KLLM tr) = Fails e ->
  fst (call_anthropic cfg net prompt critical tr) = Raised (NetworkError e).
Proof.
  intros K F. unfold call_anthropic. rewrite K. simpl.
  unfold bind, mark, request, ret. rewrite calls_snoc. simpl.
  rewrite Nat.add_0_r, F. reflexivity.
Qed.

(** Blank text is refused before anything is called. *)
Lemma orchestrate_blank (body : OrchestrateIn) :
  forallb isspace (text body) = true ->
  orchestrate ci_other cfg net body [] = (Raised (HTTPException 400 "text is required"), []).
Proof.
  intros H. unfold orchestrate. rewrite (strip_blank _ H). reflexivity.
Qed.
End Handlers.

Section LogIndependence.
Variable ci_other : codepoint -> codepoint -> bool.
Variable cfg : Config.
Variables net net' : kind -> nat -> reply.
Hypothesis agree : forall k i, k <> KLog -> net k i = net' k i.

Lemma request_agree (k : kind) (url : string) (tr : list event) :
  k <> KLog -> request net k url tr = request net' k url tr.
Proof.
  intros H. unfold request. rewrite (agree _ H). reflexivity.
Qed.

Lemma call_health_agree (tr : list event) :
  call_health cfg net tr = call_health cfg net' tr.
Proof.
  unfold call_health. destruct (negb _); [reflexivity|].
  unfold try_except, bind. rewrite request_agree by discriminate. reflexivity.
Qed.

Lemma post_hooks_agree (urls : list string) :
  forall results tr, post_hooks net urls results tr = post_hooks net' urls results tr.
Proof.
  induction urls as [|url urls IH]; intros results tr; simpl; [reflexivity|].
  unfold try_except, bind. rewrite request_agree by discriminate.
  destruct (request net' KHook url tr) as [[r|e] tr']; simpl; apply IH.
Qed.

Lemma call_anthropic_agree (prompt : str) (critical : bool) (tr : list event) :
  call_anthropic cfg net prompt critical tr = call_anthropic cfg net' prompt critical tr.
Proof.
  unfold call_anthropic. destruct (negb _); [reflexivity|].
  unfold bind, mark. rewrite request_agree by discriminate. reflexivity.
Qed.

Lemma call_vercel_hooks_agree (tr : list event) :
  call_vercel_hooks cfg net tr = call_vercel_hooks cfg net' tr.
Proof.
  unfold call_vercel_hooks. apply bind_eq; [reflexivity|].
  intros _ tr'. apply post_hooks_agree.
Qed.

(** Two networks that differ only in what the log sink does give the same
    response. *)
Lemma orchestrate_ignores_log (body : OrchestrateIn) :
  fst (orchestrate ci_other cfg net body []) = fst (orchestrate ci_other cfg net' body []).
Proof.
  unfold orchestrate. destruct (strip (text body)) as [|c t]; [reflexivity|].
  apply fst_bind_eq.
  - destruct (route_intent ci_other (c :: t)).
    + apply bind_eq; [apply call_anthropic_agree | reflexivity].
    + apply bind_eq; [apply call_vercel_hooks_agree|].
      intros v tr1. apply bind_eq; [apply call_health_agree | reflexivity].
    + apply bind_eq; [apply call_health_agree | reflexivity].
  - intros steps tr.
    destruct (log_supabase_returns cfg net "info" "orchestrate" tr) as ([] & tr1 & E1 & _).
    destruct (log_supabase_returns cfg net' "info" "orchestrate" tr) as ([] & tr2 & E2 & _).
    unfold bind. rewrite E1, E2. reflexivity.
Qed.
End LogIndependence.

End CurrentAppFacts.

(* ===================================================================== *)
(** ** Properties of the orchestrator *)
(* ===================================================================== *)

Import Text Http HttpFacts.

(** C10. After every execution of the verify step the field [verify_passed]
    holds a boolean: whatever the state before (the field may still be unset)
    and whatever the probe does (any status code, or an exception),
    [verify_node] returns a state in which [verify_passed] is [Some b], where
    [b] tells whether the probe was answered with status 200; so the router
    that follows branches on a defined value. *)
Theorem verify_node_defines_verify_passed
        (cfg : MainPy.Config) (net : kind -> nat -> reply)
        (st : MainPy.OrchestratorState) (tr : list event) :
  exists st' tr',
    MainPy.verify_node cfg net st tr = (Ok st', tr') /\
    MainPy.verify_passed st' = Some (probe_passes (net KHealth (calls KHealth tr))) /\
    MainPy.verify_passed st' <> None.
Proof.
  destruct (MainPyFacts.verify_node_returns cfg net st tr) as (st' & tr' & E & _ & _ & V & _).
  exists st', tr'. rewrite V. repeat split; [exact E | discriminate].
Qed.



(** C4. Dispatching a HealthCheck intent never invokes the redeploy action.
    In main.py, for every network (so every sequence of probe outcomes) and
    every step limit, a run whose planned intent is HEALTH posts to no hook
    and never enters the redeploy action, however often it heals; in
    current_app.py a request routed to [health_check] posts to no hook
    either. *)
Theorem health_check_never_redeploys
        (lower_other : str -> nat -> str) (ci_other : codepoint -> codepoint -> bool)
        (mcfg : MainPy.Config) (acfg : CurrentApp.Config)
        (net : kind -> nat -> reply) :
  (forall (limit : nat) (text : str),
      MainPy.plan_intent lower_other text = MainPy.HEALTH ->
      calls KHook (snd (MainPy.orchestrate lower_other mcfg net limit text [])) = 0 /\
      redeploys (snd (MainPy.orchestrate lower_other mcfg net limit text [])) = 0) /\
  (forall body : CurrentApp.OrchestrateIn,
      CurrentApp.route_intent ci_other (strip (CurrentApp.text body))
        = CurrentApp.health_check ->
      calls KHook (snd (CurrentApp.orchestrate ci_other acfg net body [])) = 0 /\
      redeploys (snd (CurrentApp.orchestrate ci_other acfg net body [])) = 0).
Proof.
  split.
  - intros limit text Hi. rewrite MainPyFacts.orchestrate_eq. simpl snd.
    unfold MainPy.ainvoke. destruct limit as [|limit]; [simpl; auto|].
    destruct (MainPyFacts.plan_node_eq lower_other (MainPy.init_state text) [])
      as (st1 & E1 & I1 & _).
    rewrite (MainPyFacts.run_graph_step lower_other mcfg net limit MainPy.NPlan
               (MainPy.init_state text) [] E1).
    simpl MainPy.successor. cbv iota.
    apply (MainPyFacts.health_run_no_redeploy lower_other mcfg net limit
             (n := MainPy.NImplement) st1 []).
    + simpl in I1. congruence.
    + discriminate.
  - intros body Hr. unfold CurrentApp.orchestrate.
    destruct (strip (CurrentApp.text body)) as [|c t]; [simpl; auto|].
    rewrite Hr.
    assert (R : returns
                  (bind (bind (CurrentApp.call_health acfg net)
                              (fun hl => ret [CurrentApp.StepHealth hl]))
                        (fun steps =>
                           bind (CurrentApp.log_supabase acfg net "info" "orchestrate")
                                (fun _ => ret {| CurrentApp.ok := true;
                                                 CurrentApp.result :=
                                                   {| CurrentApp.intent := CurrentApp.health_check;
                                                      CurrentApp.steps := steps |} |})))
                  [] (fun _ tr => calls KHook tr = 0 /\ redeploys tr = 0)).
    { apply returns_bind, returns_bind.
      eapply returns_weaken; [apply CurrentAppFacts.call_health_returns|].
      intros hl tr1 (K1 & D1 & _). apply returns_ret, returns_bind.
      eapply returns_weaken; [apply CurrentAppFacts.log_supabase_returns|].
      intros [] tr2 (K2 & _ & _ & D2). apply returns_ret.
      rewrite K2, D2, K1, D1. auto. }
    destruct R as (a & tr & E & H). rewrite E. exact H.
Qed.

(** Two health requests against failing health endpoints, one per handler. *)
Lemma health_check_never_redeploys_witness :
  calls KHook (snd (MainPy.orchestrate Samples.lower_ascii_only Samples.main_one_hook
                      Samples.net_unhealthy_thrice 25 (cps "is it ALIVE?") [])) = 0 /\
  calls KHook (snd (CurrentApp.orchestrate Samples.ci_ascii_only Samples.app_no_hooks
                      Samples.net_unhealthy (Samples.app_request " Status? " None) [])) = 0.
Proof.
  destruct (health_check_never_redeploys Samples.lower_ascii_only Samples.ci_ascii_only
              Samples.main_one_hook Samples.app_no_hooks Samples.net_unhealthy_thrice)
    as (Hmain & _).
  destruct (health_check_never_redeploys Samples.lower_ascii_only Samples.ci_ascii_only
              Samples.main_one_hook Samples.app_no_hooks Samples.net_unhealthy)
    as (_ & Happ).
  split.
  - apply (Hmain 25 (cps "is it ALIVE?")). reflexivity.
  - apply (Happ (Samples.app_request " Status? " None)). reflexivity.
Defined.

(** C1 at a HealthCheck request: the health endpoint of main.py answers 500
    three times and then 200; the run of the graph heals three times and
    ends in a final state with [retries = 3]. *)
Lemma health_check_heals_three_times :
  exists final tr,
    MainPy.ainvoke Samples.lower_ascii_only Samples.main_no_hooks
                   Samples.net_unhealthy_thrice 25 (MainPy.init_state (cps "health")) []
    = (Ok final, tr) /\
    MainPy.intent final = Some MainPy.HEALTH /\
    calls KHealth tr = 4 /\
    ~ (MainPy.retries final <= 1)%Z.
Proof.
  eexists _, _. split; [vm_compute; reflexivity|].
  split; [reflexivity|]. split; [reflexivity | simpl; lia].
Qed.

(** C1, amended. In main.py, for every request whose planned intent is not
    HEALTH (Deploy and Other) and for every network: the run of the graph
    enters the redeploy action at most twice, a final state has
    [retries <= 1], and a run that may execute five nodes does end in a final
    state. On the HEALTH path the router heals after every failed probe: when
    the first [k] probes fail and the next one passes, the run ends in a
    final state with [retries = k]. *)
Theorem heal_at_most_once_unless_health
        (lower_other : str -> nat -> str) (cfg : MainPy.Config)
        (net : kind -> nat -> reply) (limit : nat) (text : str) :
  (MainPy.plan_intent lower_other text <> MainPy.HEALTH ->
   redeploys (snd (MainPy.ainvoke lower_other cfg net limit (MainPy.init_state text) [])) <= 2 /\
   (forall final,
       fst (MainPy.ainvoke lower_other cfg net limit (MainPy.init_state text) []) = Ok final ->
       (MainPy.retries final <= 1)%Z) /\
   (5 <= limit ->
    exists final,
      fst (MainPy.ainvoke lower_other cfg net limit (MainPy.init_state text) []) = Ok final)) /\
  (MainPy.plan_intent lower_other text = MainPy.HEALTH ->
   forall k : nat,
     (forall i, i < k -> probe_passes (net KHealth i) = false) ->
     probe_passes (net KHealth k) = true ->
     2 * k + 3 <= limit ->
     exists final,
       fst (MainPy.ainvoke lower_other cfg net limit (MainPy.init_state text) []) = Ok final /\
       MainPy.retries final = Z.of_nat k /\
       MainPy.verify_passed final = Some true).
Proof.
  split.
  - intros Hn.
    destruct (MainPyFacts.ainvoke_safe lower_other cfg net limit text Hn) as (D & R).
    split; [exact D|]. split; [exact R|].
    intros Hl. replace limit with (5 + (limit - 5)) by lia.
    destruct (MainPyFacts.ainvoke_returns lower_other cfg net (limit - 5) text Hn)
      as (final & tr & E & _).
    rewrite E. simpl. eauto.
  - intros Hh k Hfail Hpass Hl.
    assert (R : returns (MainPy.ainvoke lower_other cfg net limit (MainPy.init_state text)) []
                  (fun final _ => MainPy.retries final = Z.of_nat k /\
                                  MainPy.verify_passed final = Some true)).
    { replace limit with (S (S (S (k + k + (limit - (2 * k + 3)))))) by lia.
      unfold MainPy.ainvoke.
      destruct (MainPyFacts.plan_node_eq lower_other (MainPy.init_state text) [])
        as (st1 & E1 & I1 & R1 & _).
      eapply MainPyFacts.returns_step; [exact E1|]. simpl MainPy.successor. cbv iota.
      simpl in I1, R1. rewrite Hh in I1.
      destruct (MainPyFacts.implement_node_returns cfg net st1 [])
        as (st2 & tr2 & E2 & I2 & R2 & _ & _ & T).
      rewrite I1 in T. subst tr2.
      eapply MainPyFacts.returns_step; [exact E2|]. simpl MainPy.successor. cbv iota.
      eapply returns_weaken.
      - apply MainPyFacts.health_loop_returns with (k := k).
        + congruence.
        + intros i Hi. simpl. apply Hfail, Hi.
        + simpl. exact Hpass.
      - simpl. intros st3 tr3 (R3 & V3). split; [lia | exact V3]. }
    destruct R as (final & tr & E & F1 & F2).
    exists final. rewrite E. simpl. auto.
Qed.

(** A deploy request against a health endpoint that always answers 500, and
    a health request against one that answers 500 three times. *)
Lemma heal_at_most_once_unless_health_witness :
  (redeploys (snd (MainPy.ainvoke Samples.lower_ascii_only Samples.main_one_hook
                     Samples.net_unhealthy 25
                     (MainPy.init_state (cps "please deploy")) [])) <= 2 /\
   exists final,
     fst (MainPy.ainvoke Samples.lower_ascii_only Samples.main_one_hook
            Samples.net_unhealthy 25 (MainPy.init_state (cps "please deploy")) [])
     = Ok final /\
     (MainPy.retries final <= 1)%Z) /\
  (exists final,
     fst (MainPy.ainvoke Samples.lower_ascii_only Samples.main_one_hook
            Samples.net_unhealthy_thrice 25 (MainPy.init_state (cps "health")) [])
     = Ok final /\
     MainPy.retries final = 3%Z /\ MainPy.verify_passed final = Some true).
Proof.
  split.
  - destruct (heal_at_most_once_unless_health Samples.lower_ascii_only Samples.main_one_hook
                Samples.net_unhealthy 25 (cps "please deploy")) as (Hbounded & _).
    destruct Hbounded as (D & R & (final & E)).
    + vm_compute. discriminate.
    + lia.
    + split; [exact D|]. exists final. split; [exact E | exact (R final E)].
  - destruct (heal_at_most_once_unless_health Samples.lower_ascii_only Samples.main_one_hook
                Samples.net_unhealthy_thrice 25 (cps "health")) as (_ & Hhealth).
    apply (Hhealth eq_refl 3).
    + intros i Hi. do 3 (destruct i as [|i]; [reflexivity|]). lia.
    + reflexivity.
    + lia.
Defined.

(** C2. Intent classification is a function of the text alone; it ignores
    the case of ASCII letters, and the deploy keywords win: in main.py, in
    current_app.py and in main_langgraph.py a text in which a deploy keyword
    occurs in any casing is classified Deploy, whatever else it contains; a
    text in which a health keyword occurs is never classified Other; and two
    texts that differ only in the case of their letters get the same intent
    (for main.py: as long as lowering the non-ASCII characters does not
    depend on the case of the ASCII letters around them). *)
Theorem classification_deploy_first_any_case
        (lower_other : str -> nat -> str) (ci_other : codepoint -> codepoint -> bool) :
  (forall text k,
      In k MainPy.deploy_keywords -> occurs_upto_case k text ->
      MainPy.plan_intent lower_other text = MainPy.DEPLOY) /\
  (forall text k,
      In k CurrentApp.deploy_pattern -> occurs_upto_case k text ->
      CurrentApp.route_intent ci_other text = CurrentApp.deploy_frontend) /\
  (forall text k,
      In k MainLanggraph.deploy_pattern -> occurs_upto_case k text ->
      MainLanggraph.classify ci_other text = MainLanggraph.deploy) /\
  (forall text k,
      In k MainPy.health_keywords -> occurs_upto_case k text ->
      MainPy.plan_intent lower_other text <> MainPy.OTHER) /\
  (forall text k,
      In k CurrentApp.health_pattern -> occurs_upto_case k text ->
      CurrentApp.route_intent ci_other text <> CurrentApp.llm_plan) /\
  ((forall w w' i, same_upto_ascii_case w w' -> lower_other w i = lower_other w' i) ->
   forall s t, same_upto_ascii_case s t ->
               MainPy.plan_intent lower_other s = MainPy.plan_intent lower_other t) /\
  (forall s t, same_upto_ascii_case s t ->
               CurrentApp.route_intent ci_other s = CurrentApp.route_intent ci_other t /\
               MainLanggraph.classify ci_other s = MainLanggraph.classify ci_other t).
Proof.
  assert (Hkw : forall k txt l,
             In k l -> forallb (forallb stable) l = true -> occurs_upto_case k txt ->
             existsb (fun k => contains k (lower lower_other txt)) l = true).
  { intros k txt l Hin Hst Hocc. apply existsb_exists. exists k. split; [exact Hin|].
    apply TextFacts.lower_contains_keyword; [|exact Hocc].
    rewrite forallb_forall in Hst. apply Hst, Hin. }
  repeat split.
  - intros text k Hin Hocc. unfold MainPy.plan_intent.
    rewrite (Hkw k text MainPy.deploy_keywords Hin eq_refl Hocc). reflexivity.
  - intros text k Hin Hocc. unfold CurrentApp.route_intent.
    rewrite (TextFacts.re_search_i_occurrence ci_other _ Hin Hocc). reflexivity.
  - intros text k Hin Hocc. unfold MainLanggraph.classify.
    rewrite (TextFacts.re_search_i_occurrence ci_other _ Hin Hocc). reflexivity.
  - intros text k Hin Hocc. unfold MainPy.plan_intent.
    rewrite (Hkw k text MainPy.health_keywords Hin eq_refl Hocc).
    destruct (existsb _ MainPy.deploy_keywords); discriminate.
  - intros text k Hin Hocc. unfold CurrentApp.route_intent.
    rewrite (TextFacts.re_search_i_occurrence ci_other CurrentApp.health_pattern Hin Hocc).
    destruct (re_search_i ci_other CurrentApp.deploy_pattern text); discriminate.
  - intros Hlow s t Hst. unfold MainPy.plan_intent.
    rewrite (TextFacts.lower_same_case lower_other Hlow Hst). reflexivity.
  - unfold CurrentApp.route_intent.
    rewrite !(TextFacts.re_search_i_same_case ci_other _ H). reflexivity.
  - unfold MainLanggraph.classify.
    rewrite !(TextFacts.re_search_i_same_case ci_other _ H). reflexivity.
Qed.

(** Mixed-case texts that hold keywords of both kinds. *)
Lemma classification_deploy_first_any_case_witness :
  MainPy.plan_intent Samples.lower_ascii_only (cps "Health check, then DePloY") = MainPy.DEPLOY /\
  CurrentApp.route_intent Samples.ci_ascii_only (cps "STATUS of the ReDeploy")
    = CurrentApp.deploy_frontend /\
  MainPy.plan_intent Samples.lower_ascii_only (cps "is it ALIVE") <> MainPy.OTHER /\
  MainPy.plan_intent Samples.lower_ascii_only (cps "Is It Alive")
    = MainPy.plan_intent Samples.lower_ascii_only (cps "is it alive").
Proof.
  destruct (classification_deploy_first_any_case Samples.lower_ascii_only Samples.ci_ascii_only)
    as (Hmain & Happ & _ & Hhealth & _ & Hcase & _).
  split; [|split; [|split]].
  - apply (Hmain _ (cps "deploy")).
    + simpl. auto.
    + exists (cps "Health check, then "), (cps "DePloY"), [].
      split; [reflexivity | TextFacts.same_case].
  - apply (Happ _ (cps "deploy")).
    + simpl. auto.
    + exists (cps "STATUS of the Re"), (cps "Deploy"), [].
      split; [reflexivity | TextFacts.same_case].
  - apply (Hhealth _ (cps "alive")).
    + simpl. auto.
    + exists (cps "is it "), (cps "ALIVE"), [].
      split; [reflexivity | TextFacts.same_case].
  - apply Hcase.
    + intros w w' i. apply TextFacts.lower_ascii_only_case.
    + TextFacts.same_case.
Defined.

(** *** Blank instructions *)

(** current_app.py and main_langgraph.py refuse a blank instruction with
    status 400 before any call is made. *)
Lemma blank_text_is_refused
      (ci_other : codepoint -> codepoint -> bool)
      (acfg : CurrentApp.Config) (lcfg : MainLanggraph.Config)
      (net : kind -> nat -> reply) (limit : nat)
      (body : CurrentApp.OrchestrateIn) (req : MainLanggraph.NLRequest) :
  (forallb isspace (CurrentApp.text body) = true ->
   CurrentApp.orchestrate ci_other acfg net body []
   = (Raised (HTTPException 400 "text is required"), [])) /\
  (forallb isspace (MainLanggraph.req_prompt req) = true ->
   MainLanggraph.orchestrate ci_other lcfg net limit req []
   = (Raised (HTTPException 400 "prompt is required"), [])).
Proof.
  split; intros H.
  - apply CurrentAppFacts.orchestrate_blank, H.
  - unfold MainLanggraph.orchestrate. rewrite (CurrentAppFacts.strip_blank _ H). reflexivity.
Qed.

(** main.py refuses no text at all: whatever the text, the handler never
    raises an HTTP error of its own, and it probes the health endpoint. *)
Lemma main_py_refuses_nothing
      (lower_other : str -> nat -> str) (cfg : MainPy.Config)
      (net : kind -> nat -> reply) (l : nat) (text : str) :
  (forall status detail,
      fst (MainPy.orchestrate lower_other cfg net (3 + l) text [])
      <> Raised (HTTPException status detail)) /\
  1 <= calls KHealth (snd (MainPy.orchestrate lower_other cfg net (3 + l) text [])).
Proof.
  rewrite MainPyFacts.orchestrate_eq. cbn [fst snd]. split.
  - intros status detail.
    destruct (MainPyFacts.run_graph_outcome lower_other cfg net (3 + l) MainPy.NPlan
                (MainPy.init_state text) []) as (_ & [(st' & E) | E]);
      unfold MainPy.ainvoke; rewrite E; discriminate.
  - apply MainPyFacts.ainvoke_probes.
Qed.

(** C3 at the empty text: main.py, with one hook configured, runs the graph
    on the empty instruction. The run plans the intent [OTHER], enters the
    redeploy action, posts to the hook, probes the health endpoint and ends
    in a final state; the call log of the handler is these two calls, and
    what the handler raises is not the HTTP error 400. A text of three
    spaces is handled the same way. *)
Theorem main_py_runs_the_empty_text :
  ((exists final,
      MainPy.ainvoke Samples.lower_ascii_only Samples.main_one_hook Samples.net_ok 25
                     (MainPy.init_state []) []
      = (Ok final,
         [Redeploy; Call KHook "https://hooks.example/1";
          Call KHealth "http://127.0.0.1:8000/health"]) /\
      MainPy.intent final = Some MainPy.OTHER) /\
   snd (MainPy.orchestrate Samples.lower_ascii_only Samples.main_one_hook Samples.net_ok 25
          [] [])
   = [Redeploy; Call KHook "https://hooks.example/1";
      Call KHealth "http://127.0.0.1:8000/health"] /\
   outbound (snd (MainPy.orchestrate Samples.lower_ascii_only Samples.main_one_hook
                    Samples.net_ok 25 [] [])) = 2 /\
   forall detail,
     fst (MainPy.orchestrate Samples.lower_ascii_only Samples.main_one_hook Samples.net_ok 25
            [] [])
     <> Raised (HTTPException 400 detail)) /\
  ((exists final,
      MainPy.ainvoke Samples.lower_ascii_only Samples.main_one_hook Samples.net_ok 25
                     (MainPy.init_state (cps "   ")) []
      = (Ok final,
         [Redeploy; Call KHook "https://hooks.example/1";
          Call KHealth "http://127.0.0.1:8000/health"]) /\
      forallb isspace (MainPy.instruction final) = true /\
      MainPy.intent final = Some MainPy.OTHER) /\
   outbound (snd (MainPy.orchestrate Samples.lower_ascii_only Samples.main_one_hook
                    Samples.net_ok 25 (cps "   ") [])) = 2 /\
   forall detail,
     fst (MainPy.orchestrate Samples.lower_ascii_only Samples.main_one_hook Samples.net_ok 25
            (cps "   ") [])
     <> Raised (HTTPException 400 detail)).
Proof.
  split.
  - split; [eexists; split; [vm_compute; reflexivity | reflexivity]|].
    split; [vm_compute; reflexivity|].
    split; [vm_compute; reflexivity|].
    intros detail. vm_compute. discriminate.
  - split; [eexists; split; [vm_compute; reflexivity | split; reflexivity]|].
    split; [vm_compute; reflexivity|].
    intros detail. vm_compute. discriminate.
Qed.

(** *** Failing outbound calls *)

(** In current_app.py the health probe and the hook fan-out always return a
    value, whatever the network does. *)
Lemma guarded_actions_return
      (cfg : CurrentApp.Config) (net : kind -> nat -> reply) (tr : list event) :
  (exists hl tr', CurrentApp.call_health cfg net tr = (Ok hl, tr')) /\
  (exists results tr', CurrentApp.call_vercel_hooks cfg net tr = (Ok results, tr')).
Proof.
  split.
  - destruct (CurrentAppFacts.call_health_returns cfg net tr) as (hl & tr' & E & _). eauto.
  - unfold CurrentApp.call_vercel_hooks, bind, mark.
    destruct (CurrentAppFacts.post_hooks_returns net (CurrentApp.VERCEL_HOOKS cfg) []
                (tr ++ [Redeploy])) as (r & tr' & E & _).
    rewrite E. eauto.
Qed.

(** C6 at a request for the LLM: the provider times out, and the exception
    leaves [call_anthropic] and the handler of current_app.py instead of
    becoming a failed result in the response; the log call is not reached. *)
Theorem llm_timeout_propagates :
  CurrentApp.orchestrate Samples.ci_ascii_only Samples.app_no_hooks Samples.net_llm_timeout
                         (Samples.app_request "hello" None) []
  = (Raised (NetworkError "timed out"),
     [LLMRequest CurrentApp.haiku 512 (cps "hello");
      Call KLLM "https://api.anthropic.com/v1/messages"]) /\
  fst (MainLanggraph.call_anthropic (Samples.lg_config 120) Samples.net_llm_timeout
                                    (cps "hello") false [])
  = Raised (NetworkError "timed out").
Proof.
  split; vm_compute; reflexivity.
Qed.

(** C5 at a health-check request to main_langgraph.py: with a log sink that
    times out the handler raises, while with a working sink the same request
    is answered with [ok = true]. *)
Theorem langgraph_log_failure_surfaces :
  fst (MainLanggraph.orchestrate Samples.ci_ascii_only (Samples.lg_config 120)
         Samples.net_log_timeout 25 (Samples.lg_request (cps "check health") None) [])
  = Raised (NetworkError "timed out") /\
  exists reply,
    fst (MainLanggraph.orchestrate Samples.ci_ascii_only (Samples.lg_config 120)
           Samples.net_ok 25 (Samples.lg_request (cps "check health") None) [])
    = Ok reply /\ MainLanggraph.ok reply = true.
Proof.
  split; [vm_compute; reflexivity|].
  eexists. split; [vm_compute; reflexivity | reflexivity].
Qed.

(** In current_app.py the response does not depend on what the log sink
    does. *)
Lemma current_app_swallows_log_failure
      (ci_other : codepoint -> codepoint -> bool) (cfg : CurrentApp.Config)
      (net net' : kind -> nat -> reply) (body : CurrentApp.OrchestrateIn) :
  (forall k i, k <> KLog -> net k i = net' k i) ->
  fst (CurrentApp.orchestrate ci_other cfg net body [])
  = fst (CurrentApp.orchestrate ci_other cfg net' body []).
Proof.
  intros H. apply CurrentAppFacts.orchestrate_ignores_log, H.
Qed.

(** *** Choice of the model *)

(** In current_app.py an Other-intent request sends the provider the larger
    model exactly when the request is critical or the text is longer than
    the threshold. *)
Lemma current_app_escalation
      (ci_other : codepoint -> codepoint -> bool) (cfg : CurrentApp.Config)
      (net : kind -> nat -> reply) (body : CurrentApp.OrchestrateIn) :
  strip (CurrentApp.text body) <> [] ->
  CurrentApp.route_intent ci_other (strip (CurrentApp.text body)) = CurrentApp.llm_plan ->
  nonempty (CurrentApp.ANTHROPIC_API_KEY cfg) = true ->
  exists model,
    hd_error (snd (CurrentApp.orchestrate ci_other cfg net body []))
    = Some (LLMRequest model (CurrentApp.LLM_MAX_TOKENS cfg) (strip (CurrentApp.text body))) /\
    (model = CurrentApp.sonnet <->
     CurrentApp.critical body = Some true \/
     (CurrentApp.LLM_PROMOTION_THRESHOLD cfg
      < Z.of_nat (List.length (strip (CurrentApp.text body))))%Z).
Proof.
  intros Hne Hr Hk. unfold CurrentApp.orchestrate.
  destruct (strip (CurrentApp.text body)) as [|c t] eqn:S; [congruence|].
  rewrite Hr.
  destruct (CurrentAppFacts.call_anthropic_request cfg net (c :: t)
              (CurrentApp.truthy (CurrentApp.critical body)) [] Hk) as (r & E).
  exists (CurrentApp.choose_model cfg (c :: t) (CurrentApp.truthy (CurrentApp.critical body))).
  split.
  - unfold bind at 1. unfold bind at 1. rewrite E. simpl app.
    destruct r as [ai|e]; [|reflexivity].
    unfold ret at 1. unfold CurrentApp.log_supabase.
    destruct (negb _ || negb _); unfold bind, try_except, request, ret.
    + reflexivity.
    + destruct (net KLog _); reflexivity.
  - rewrite CurrentAppFacts.choose_model_sonnet.
    destruct (CurrentApp.critical body) as [[|]|]; simpl; intuition congruence.
Qed.

(** C7 at two requests to main_langgraph.py (API key set). A critical
    two-letter prompt with threshold 120 is sent with the small model; a
    300-letter prompt that is not critical, with the threshold raised to
    1000, is sent with the large model. In both runs the request for the raw
    instruction is the third event, after the planning request. *)
Theorem langgraph_ignores_critical_flag :
  nth_error
    (snd (MainLanggraph.orchestrate Samples.ci_ascii_only (Samples.lg_config 120)
            Samples.net_ok 25 (Samples.lg_request (cps "hi") (Some true)) [])) 2
  = Some (LLMRequest MainLanggraph.haiku 512 (cps "hi")) /\
  nth_error
    (snd (MainLanggraph.orchestrate Samples.ci_ascii_only (Samples.lg_config 1000)
            Samples.net_ok 25 (Samples.lg_request Samples.long_prompt (Some false)) [])) 2
  = Some (LLMRequest MainLanggraph.sonnet 512 Samples.long_prompt) /\
  (Z.of_nat (List.length Samples.long_prompt) < 1000)%Z.
Proof.
  split; [vm_compute; reflexivity|].
  split; [vm_compute; reflexivity|].
  vm_compute. reflexivity.
Qed.

(** *** Deploying without hooks *)

(** C9 at "please redeploy now" with no hook configured (current_app.py):
    the deploy step of the response is the empty list, so it holds no entry
    for any target, and none that says "not configured". *)
Lemma deploy_without_hooks_reports_no_target :
  exists reply tr,
    CurrentApp.orchestrate Samples.ci_ascii_only Samples.app_no_hooks Samples.net_ok
                           (Samples.app_request "please redeploy now" None) []
    = (Ok reply, tr) /\
    CurrentApp.steps (CurrentApp.result reply)
    = [CurrentApp.StepDeploy [];
       CurrentApp.StepHealth (CurrentApp.HealthReply true 200 "ok")] /\
    ~ (exists vercels entry,
          In (CurrentApp.StepDeploy vercels) (CurrentApp.steps (CurrentApp.result reply)) /\
          In entry vercels).
Proof.
  eexists _, _. split; [vm_compute; reflexivity|].
  split; [reflexivity|].
  intros (vercels & entry & Hstep & Hentry). simpl in Hstep.
  destruct Hstep as [[= <-] | [[=] | []]]. exact Hentry.
Qed.

(** C9, amended. With no hook configured, a Deploy request to current_app.py
    gets a response with [ok = true] whose deploy step is the empty list and
    whose health step is what the health probe returned: no hook is called,
    the probe runs (one GET when the health URL is set), and nothing is
    raised, whatever the network does. In main_langgraph.py the redeploy
    action likewise returns the empty dict. *)
Theorem deploy_without_hooks_is_empty_and_ok
        (ci_other : codepoint -> codepoint -> bool)
        (cfg : CurrentApp.Config) (lcfg : MainLanggraph.Config)
        (net : kind -> nat -> reply) (body : CurrentApp.OrchestrateIn) :
  (CurrentApp.VERCEL_HOOKS cfg = [] ->
   CurrentApp.route_intent ci_other (strip (CurrentApp.text body))
     = CurrentApp.deploy_frontend ->
   exists hl tr,
     CurrentApp.orchestrate ci_other cfg net body []
     = (Ok {| CurrentApp.ok := true;
              CurrentApp.result :=
                {| CurrentApp.intent := CurrentApp.deploy_frontend;
                   CurrentApp.steps := [CurrentApp.StepDeploy []; CurrentApp.StepHealth hl] |} |},
        tr) /\
     fst (CurrentApp.call_health cfg net [Redeploy]) = Ok hl /\
     calls KHook tr = 0 /\
     calls KHealth tr = (if nonempty (CurrentApp.API_HEALTH cfg) then 1 else 0)) /\
  (MainLanggraph.VERCEL_HOOKS lcfg = [] ->
   forall tr, MainLanggraph.call_vercel_hooks lcfg net tr = (Ok [], tr ++ [Redeploy])).
Proof.
  split.
  - intros Hh Hr. unfold CurrentApp.orchestrate.
    destruct (strip (CurrentApp.text body)) as [|c t]; [vm_compute in Hr; discriminate|].
    rewrite Hr.
    destruct (CurrentAppFacts.call_health_returns cfg net [Redeploy])
      as (hl & tr1 & E1 & K1 & _ & H1).
    destruct (CurrentAppFacts.log_supabase_returns cfg net "info" "orchestrate" tr1)
      as ([] & tr2 & E2 & K2 & H2 & _).
    exists hl, tr2. split; [|split; [|split]].
    + unfold bind at 1. unfold bind at 1.
      unfold CurrentApp.call_vercel_hooks. rewrite Hh.
      unfold bind at 1. unfold mark. simpl CurrentApp.post_hooks. unfold ret at 1.
      simpl app. unfold bind at 1. rewrite E1. unfold ret at 1.
      unfold bind. rewrite E2. reflexivity.
    + rewrite E1. reflexivity.
    + rewrite K2, K1. reflexivity.
    + rewrite H2, H1. reflexivity.
  - intros Hh tr. unfold MainLanggraph.call_vercel_hooks. rewrite Hh. reflexivity.
Qed.

(** "please redeploy now" with no hook and a health endpoint answering 500. *)
Lemma deploy_without_hooks_is_empty_and_ok_witness :
  (exists hl tr,
     CurrentApp.orchestrate Samples.ci_ascii_only Samples.app_no_hooks Samples.net_unhealthy
                            (Samples.app_request "please redeploy now" None) []
     = (Ok {| CurrentApp.ok := true;
              CurrentApp.result :=
                {| CurrentApp.intent := CurrentApp.deploy_frontend;
                   CurrentApp.steps := [CurrentApp.StepDeploy []; CurrentApp.StepHealth hl] |} |},
        tr) /\
     fst (CurrentApp.call_health Samples.app_no_hooks Samples.net_unhealthy [Redeploy]) = Ok hl /\
     calls KHook tr = 0 /\
     calls KHealth tr = 1) /\
  MainLanggraph.call_vercel_hooks (Samples.lg_config 120) Samples.net_unhealthy []
  = (Ok [], [Redeploy]).
Proof.
  destruct (deploy_without_hooks_is_empty_and_ok Samples.ci_ascii_only Samples.app_no_hooks
              (Samples.lg_config 120) Samples.net_unhealthy
              (Samples.app_request "please redeploy now" None)) as (Happ & Hlg).
  split.
  - apply Happ; reflexivity.
  - apply (Hlg eq_refl []).
Defined.

(* ===================================================================== *)
(** ** Further facts about texts: what a match tells *)
(* ===================================================================== *)

Module TextMore.
Import Text.

Lemma match_at_inv (m : codepoint -> codepoint -> bool) (p : str) :
  forall t, match_at m p t = true ->
            exists p' post, t = p' ++ post /\ Forall2 (fun c a => m c a = true) p' p.
Proof.
  induction p as [|a p IH]; intros t H.
  - exists [], t. split; [reflexivity | constructor].
  - destruct t as [|c t]; simpl in H; [discriminate|].
    apply andb_true_iff in H as [Hc Ht].
    destruct (IH t Ht) as (p' & post & -> & F).
    exists (c :: p'), post. split; [reflexivity | constructor; assumption].
Qed.

Lemma search_inv (m : codepoint -> codepoint -> bool) (p t : str) :
  search m p t = true ->
  exists pre p' post, t = pre ++ p' ++ post /\ Forall2 (fun c a => m c a = true) p' p.
Proof.
  induction t as [|c t IH]; cbn [search]; intros H.
  - rewrite orb_false_r in H. destruct (match_at_inv m p [] H) as (p' & post & E & F).
    exists [], p', post. auto.
  - apply orb_true_iff in H as [H|H].
    + destruct (match_at_inv m p (c :: t) H) as (p' & post & E & F).
      exists [], p', post. auto.
    + destruct (IH H) as (pre & p' & post & -> & F).
      exists (c :: pre), p', post. auto.
Qed.

(** A text that holds a longer pattern holds each of its endings. *)
Lemma search_suffix (m : codepoint -> codepoint -> bool) (a p t : str) :
  search m (a ++ p) t = true -> search m p t = true.
Proof.
  intros H. destruct (search_inv m (a ++ p) t H) as (pre & p' & post & -> & F).
  apply Forall2_app_inv_r in F as (a' & p2 & Fa & Fp & ->).
  rewrite <- app_assoc, app_assoc. apply TextFacts.search_occurrence, Fp.
Qed.

Lemma ascii_lower_ascii (c : codepoint) : is_ascii (ascii_lower c) = is_ascii c.
Proof.
  unfold ascii_lower, is_ascii_upper, is_ascii.
  destruct (65 <=? c)%N eqn:A, (c <=? 90)%N eqn:B; simpl; try reflexivity.
  apply N.leb_le in A, B.
  destruct (N.ltb_spec (c + 32) 128), (N.ltb_spec c 128); try reflexivity; lia.
Qed.

Lemma ascii_lower_idem (c : codepoint) : ascii_lower (ascii_lower c) = ascii_lower c.
Proof.
  unfold ascii_lower. destruct (is_ascii_upper c) eqn:U.
  - assert (U' : is_ascii_upper (c + 32)%N = false).
    { unfold is_ascii_upper in *. apply andb_true_iff in U as [A B].
      apply N.leb_le in A, B. apply andb_false_iff. right. apply N.leb_gt. lia. }
    rewrite U'. reflexivity.
  - rewrite U. reflexivity.
Qed.

Lemma forallb_app_inv (f : codepoint -> bool) (a b : str) :
  forallb f (a ++ b) = true -> forallb f a = true /\ forallb f b = true.
Proof.
  rewrite forallb_app. apply andb_true_iff.
Qed.

Section IgnoreCase.
Variable ci_other : codepoint -> codepoint -> bool.

(** On ASCII text, a match ignoring case is an occurrence in some casing. *)
Lemma ci_match_ascii (k' k : str) :
  forallb is_ascii k' = true ->
  Forall2 (fun c a => ci_match ci_other c a = true) k' k ->
  same_upto_ascii_case k' k.
Proof.
  intros Ha F. induction F as [|c a k' k Hca _ IH]; [constructor|].
  simpl in Ha. apply andb_true_iff in Ha as [Hc Hk].
  constructor; [|apply IH, Hk].
  unfold ci_match in Hca. rewrite Hc in Hca.
  apply orb_true_iff in Hca as [E|E]; apply N.eqb_eq in E; [left; exact E|].
  right. repeat split; [exact Hc | | exact E].
  rewrite <- ascii_lower_ascii, <- E, ascii_lower_ascii. exact Hc.
Qed.

Lemma re_search_i_ascii (alts : list str) (text : str) :
  forallb is_ascii text = true ->
  (re_search_i ci_other alts text = true <->
   exists k, In k alts /\ occurs_upto_case k text).
Proof.
  intros Ha. split.
  - unfold re_search_i. intros H. apply existsb_exists in H as (k & Hin & Hs).
    exists k. split; [exact Hin|].
    destruct (search_inv _ k text Hs) as (pre & k' & post & -> & F).
    exists pre, k', post. split; [reflexivity|].
    apply ci_match_ascii; [|exact F].
    apply forallb_app_inv in Ha as [_ Ha]. apply forallb_app_inv in Ha as [Ha _]. exact Ha.
  - intros (k & Hin & Hocc). apply (TextFacts.re_search_i_occurrence ci_other alts Hin Hocc).
Qed.
End IgnoreCase.

Section Lower.
Variable lower_other : str -> nat -> str.

(** Lowering an ASCII text lowers each of its letters. *)
Lemma lower_from_ascii (w : str) (t : str) :
  forallb is_ascii t = true ->
  forall i, lower_from lower_other w i t = map ascii_lower t.
Proof.
  induction t as [|c t IH]; intros Ha i; [reflexivity|].
  simpl in Ha. apply andb_true_iff in Ha as [Hc Ht].
  simpl. unfold lower_char. rewrite Hc, (IH Ht). reflexivity.
Qed.

Lemma contains_lower_ascii (k text : str) :
  forallb is_ascii text = true ->
  contains k (lower lower_other text) = true ->
  occurs_upto_case k text.
Proof.
  intros Ha H. unfold lower in H. rewrite (lower_from_ascii _ _ Ha) in H.
  destruct (search_inv _ k _ H) as (pre & k' & post & E & F).
  assert (Hk : k' = k).
  { clear E H. induction F as [|c a k' k Hca _ IH]; [reflexivity|].
    f_equal; [apply N.eqb_eq, Hca | exact IH]. }
  subst k'.
  apply map_eq_app in E as (pre0 & rest & -> & <- & E).
  apply map_eq_app in E as (k0 & post0 & -> & <- & <-).
  exists pre0, k0, post0. split; [reflexivity|].
  apply forallb_app_inv in Ha as [_ Ha]. apply forallb_app_inv in Ha as [Ha _].
  clear F H. induction k0 as [|c k0 IH]; [constructor|].
  simpl in Ha. apply andb_true_iff in Ha as [Hc Hk].
  constructor; [|apply IH, Hk].
  right. rewrite ascii_lower_ascii, ascii_lower_idem. auto.
Qed.
End Lower.

(** *** Stripping *)

Lemma lstrip_nil (t : str) : lstrip t = [] -> forallb isspace t = true.
Proof.
  induction t as [|c t IH]; simpl; [reflexivity|].
  destruct (isspace c); [exact IH | discriminate].
Qed.

Lemma lstrip_head (t : str) (c : codepoint) (r : str) :
  lstrip t = c :: r -> isspace c = false.
Proof.
  induction t as [|a t IH]; simpl; [discriminate|].
  destruct (isspace a) eqn:S; [exact IH | intros [= <- _]; exact S].
Qed.

(** [strip] leaves nothing exactly when the text is blank. *)
Lemma strip_nil_iff (t : str) : strip t = [] <-> forallb isspace t = true.
Proof.
  split; [|apply CurrentAppFacts.strip_blank].
  unfold strip, rstrip. intros H.
  assert (H1 : lstrip (rev (lstrip t)) = []).
  { rewrite <- (rev_involutive (lstrip (rev (lstrip t)))), H. reflexivity. }
  apply lstrip_nil in H1. rewrite forallb_forall in H1.
  destruct (lstrip t) as [|c r] eqn:E; [apply lstrip_nil, E|].
  pose proof (lstrip_head t E) as Hc.
  rewrite H1 in Hc; [discriminate|]. apply in_rev. rewrite rev_involutive. left. reflexivity.
Qed.

End TextMore.

(* ===================================================================== *)
(** ** Further properties: classification *)
(* ===================================================================== *)

(** A decision with two tests, read backwards. *)
Lemma two_tests {T : Type} (d h : bool) (D H : Prop) (x y z : T) :
  x <> y -> x <> z -> y <> z ->
  (d = true <-> D) -> (h = true <-> H) ->
  ((if d then x else if h then y else z) = x <-> D) /\
  ((if d then x else if h then y else z) = y <-> ~ D /\ H) /\
  ((if d then x else if h then y else z) = z <-> ~ D /\ ~ H).
Proof.
  intros Hxy Hxz Hyz HD HH.
  assert (Hd : d = false -> ~ D) by (intros -> X; apply HD in X; discriminate).
  assert (Hh : h = false -> ~ H) by (intros -> X; apply HH in X; discriminate).
  destruct d, h; repeat split; intros;
    try reflexivity; try (apply HD; reflexivity); try (apply HH; reflexivity);
    try (apply Hd; reflexivity); try (apply Hh; reflexivity);
    try congruence;
    try (exfalso; intuition congruence).
Qed.

(** X1. On ASCII text the regex routing of current_app.py and of
    main_langgraph.py is decided by keyword occurrences alone: Deploy exactly
    when a deploy keyword occurs in some casing, HealthCheck exactly when no
    deploy keyword but a health keyword occurs, and Other exactly when no
    keyword occurs at all. *)
Theorem regex_routing_on_ascii
        (ci_other : codepoint -> codepoint -> bool) (text : str) :
  forallb is_ascii text = true ->
  ((CurrentApp.route_intent ci_other text = CurrentApp.deploy_frontend <->
    exists k, In k CurrentApp.deploy_pattern /\ occurs_upto_case k text) /\
   (CurrentApp.route_intent ci_other text = CurrentApp.health_check <->
    (~ exists k, In k CurrentApp.deploy_pattern /\ occurs_upto_case k text) /\
    exists k, In k CurrentApp.health_pattern /\ occurs_upto_case k text) /\
   (CurrentApp.route_intent ci_other text = CurrentApp.llm_plan <->
    (~ exists k, In k CurrentApp.deploy_pattern /\ occurs_upto_case k text) /\
    ~ exists k, In k CurrentApp.health_pattern /\ occurs_upto_case k text)) /\
  ((MainLanggraph.classify ci_other text = MainLanggraph.deploy <->
    exists k, In k MainLanggraph.deploy_pattern /\ occurs_upto_case k text) /\
   (MainLanggraph.classify ci_other text = MainLanggraph.health <->
    (~ exists k, In k MainLanggraph.deploy_pattern /\ occurs_upto_case k text) /\
    exists k, In k MainLanggraph.health_pattern /\ occurs_upto_case k text) /\
   (MainLanggraph.classify ci_other text = MainLanggraph.other <->
    (~ exists k, In k MainLanggraph.deploy_pattern /\ occurs_upto_case k text) /\
    ~ exists k, In k MainLanggraph.health_pattern /\ occurs_upto_case k text)).
Proof.
  intros Ha.
  pose proof (fun alts => TextMore.re_search_i_ascii ci_other alts text Ha) as R.
  split.
  - unfold CurrentApp.route_intent.
    apply two_tests; try discriminate; apply R.
  - unfold MainLanggraph.classify.
    apply two_tests; try discriminate; apply R.
Qed.

(** "what is the weather" holds no keyword and goes to the LLM; "Check
    STATUS" holds a health keyword of current_app.py only. *)
Lemma regex_routing_on_ascii_witness :
  (CurrentApp.route_intent Samples.ci_ascii_only (cps "what is the weather")
   = CurrentApp.llm_plan <->
   (~ exists k, In k CurrentApp.deploy_pattern /\
                occurs_upto_case k (cps "what is the weather")) /\
   ~ exists k, In k CurrentApp.health_pattern /\
               occurs_upto_case k (cps "what is the weather")) /\
  (MainLanggraph.classify Samples.ci_ascii_only (cps "Check STATUS") = MainLanggraph.other <->
   (~ exists k, In k MainLanggraph.deploy_pattern /\ occurs_upto_case k (cps "Check STATUS")) /\
   ~ exists k, In k MainLanggraph.health_pattern /\ occurs_upto_case k (cps "Check STATUS")).
Proof.
  split.
  - apply (regex_routing_on_ascii Samples.ci_ascii_only (cps "what is the weather")).
    reflexivity.
  - apply (regex_routing_on_ascii Samples.ci_ascii_only (cps "Check STATUS")).
    reflexivity.
Defined.

(** X2. On ASCII text [plan_node] of main.py is decided by keyword
    occurrences alone, whatever the lowercase mapping does elsewhere: DEPLOY
    exactly when a deploy keyword occurs in some casing, HEALTH exactly when
    no deploy keyword but a health keyword occurs, OTHER exactly when none
    occurs. *)
Theorem plan_intent_on_ascii
        (lower_other : str -> nat -> str) (text : str) :
  forallb is_ascii text = true ->
  (MainPy.plan_intent lower_other text = MainPy.DEPLOY <->
   exists k, In k MainPy.deploy_keywords /\ occurs_upto_case k text) /\
  (MainPy.plan_intent lower_other text = MainPy.HEALTH <->
   (~ exists k, In k MainPy.deploy_keywords /\ occurs_upto_case k text) /\
   exists k, In k MainPy.health_keywords /\ occurs_upto_case k text) /\
  (MainPy.plan_intent lower_other text = MainPy.OTHER <->
   (~ exists k, In k MainPy.deploy_keywords /\ occurs_upto_case k text) /\
   ~ exists k, In k MainPy.health_keywords /\ occurs_upto_case k text).
Proof.
  intros Ha.
  assert (R : forall l, forallb (forallb stable) l = true ->
                (existsb (fun k => contains k (lower lower_other text)) l = true <->
                 exists k, In k l /\ occurs_upto_case k text)).
  { intros l Hst. rewrite existsb_exists. split; intros (k & Hin & H); exists k; (split; [exact Hin|]).
    - apply (TextMore.contains_lower_ascii lower_other k text Ha H).
    - apply TextFacts.lower_contains_keyword; [|exact H].
      rewrite forallb_forall in Hst. apply Hst, Hin. }
  unfold MainPy.plan_intent.
  apply two_tests; try discriminate; apply R; reflexivity.
Qed.

Lemma plan_intent_on_ascii_witness :
  MainPy.plan_intent Samples.lower_ascii_only (cps "Is the site ALIVE?") = MainPy.HEALTH <->
  (~ exists k, In k MainPy.deploy_keywords /\ occurs_upto_case k (cps "Is the site ALIVE?")) /\
  exists k, In k MainPy.health_keywords /\ occurs_upto_case k (cps "Is the site ALIVE?").
Proof.
  apply (plan_intent_on_ascii Samples.lower_ascii_only (cps "Is the site ALIVE?")).
  reflexivity.
Defined.

(** X3. The two regex classifiers agree on deploys, and what
    main_langgraph.py calls a health check is one for current_app.py too, on
    every text: they can only differ where main_langgraph.py answers Other. *)
Theorem regex_classifiers_agree
        (ci_other : codepoint -> codepoint -> bool) (text : str) :
  (MainLanggraph.classify ci_other text = MainLanggraph.deploy <->
   CurrentApp.route_intent ci_other text = CurrentApp.deploy_frontend) /\
  (MainLanggraph.classify ci_other text = MainLanggraph.health ->
   CurrentApp.route_intent ci_other text = CurrentApp.health_check).
Proof.
  assert (D : re_search_i ci_other CurrentApp.deploy_pattern text
              = re_search_i ci_other MainLanggraph.deploy_pattern text).
  { unfold re_search_i, CurrentApp.deploy_pattern, MainLanggraph.deploy_pattern.
    cbn [existsb].
    destruct (search (ci_match ci_other) kw_baepo text); [reflexivity|].
    destruct (search (ci_match ci_other) (cps "deploy") text) eqn:E.
    - rewrite orb_true_r. reflexivity.
    - destruct (search (ci_match ci_other) (cps "redeploy") text) eqn:E'; [|reflexivity].
      apply (TextMore.search_suffix _ (cps "re") (cps "deploy")) in E'. congruence. }
  assert (H : re_search_i ci_other MainLanggraph.health_pattern text = true ->
              re_search_i ci_other CurrentApp.health_pattern text = true).
  { unfold re_search_i. rewrite !existsb_exists. intros (k & Hin & Hs).
    exists k. split; [|exact Hs].
    simpl in Hin. simpl. intuition. }
  unfold MainLanggraph.classify, CurrentApp.route_intent. rewrite D.
  destruct (re_search_i ci_other MainLanggraph.deploy_pattern text).
  - split; [split; reflexivity | discriminate].
  - destruct (re_search_i ci_other MainLanggraph.health_pattern text).
    + rewrite (H eq_refl). split; [split; discriminate | reflexivity].
    + split; [|discriminate].
      destruct (re_search_i ci_other CurrentApp.health_pattern text); split; discriminate.
Qed.

(* ===================================================================== *)
(** ** Further properties: the call log of main.py *)
(* ===================================================================== *)

Module MainPyMore.
Import Text Http HttpFacts MainPy.

Lemma calls_app (k : kind) (a b : list event) : calls k (a ++ b) = calls k a + calls k b.
Proof.
  unfold calls. rewrite filter_app, length_app. reflexivity.
Qed.

Lemma redeploys_app (a b : list event) : redeploys (a ++ b) = redeploys a + redeploys b.
Proof.
  unfold redeploys. rewrite filter_app, length_app. reflexivity.
Qed.

Lemma concat_repeat_snoc {A} (x : list A) (n : nat) :
  List.concat (repeat x (S n)) = List.concat (repeat x n) ++ x.
Proof.
  change (x ++ List.concat (repeat x n) = List.concat (repeat x n) ++ x).
  induction n as [|n IH]; simpl.
  - rewrite app_nil_r. reflexivity.
  - rewrite IH at 1. rewrite app_assoc. reflexivity.
Qed.

Section Nodes.
Variable lower_other : str -> nat -> str.
Variable cfg : Config.
Variable net : kind -> nat -> reply.

Local Abbreviation run := (run_graph lower_other cfg net).
Local Abbreviation block := (pass_calls cfg).

Lemma block_no_probe (i : option Intent) : calls KHealth (block i) = 0.
Proof.
  unfold pass_calls, hook_calls.
  destruct i as [[| |]|]; try reflexivity;
    simpl; destruct (nonempty (VERCEL_HOOK_1 cfg)), (nonempty (VERCEL_HOOK_2 cfg));
    reflexivity.
Qed.

Lemma post_hook_exact (idx : nat) (hook : string) (st : OrchestratorState)
      (tr : list event) :
  exists st',
    post_hook net idx hook st tr
    = (Ok st', tr ++ map (Call KHook) (filter nonempty [hook])) /\
    intent st' = intent st /\ retries st' = retries st /\
    verify_passed st' = verify_passed st.
Proof.
  unfold post_hook. simpl. destruct (nonempty hook); simpl.
  - unfold try_except, bind, request, ret.
    destruct (net KHook (calls KHook tr)); eexists; (split; [reflexivity|]); simpl; auto.
  - exists st. rewrite app_nil_r. auto.
Qed.

Lemma implement_node_exact (st : OrchestratorState) (tr : list event) :
  exists st',
    implement_node cfg net st tr = (Ok st', tr ++ block (intent st)) /\
    intent st' = intent st /\ retries st' = retries st /\
    verify_passed st' = verify_passed st.
Proof.
  assert (Hgen : exists st',
             bind (mark Redeploy) (fun _ =>
               bind (post_hook net 1 (VERCEL_HOOK_1 cfg) st) (fun s1 =>
                 post_hook net 2 (VERCEL_HOOK_2 cfg) s1)) tr
             = (Ok st', tr ++ Redeploy :: hook_calls cfg) /\
             intent st' = intent st /\ retries st' = retries st /\
             verify_passed st' = verify_passed st).
  { unfold bind at 1, mark.
    destruct (post_hook_exact 1 (VERCEL_HOOK_1 cfg) st (tr ++ [Redeploy]))
      as (s1 & E1 & I1 & R1 & V1).
    unfold bind. rewrite E1.
    destruct (post_hook_exact 2 (VERCEL_HOOK_2 cfg) s1
                ((tr ++ [Redeploy]) ++ map (Call KHook) (filter nonempty [VERCEL_HOOK_1 cfg])))
      as (s2 & E2 & I2 & R2 & V2).
    exists s2. rewrite E2. split; [|repeat split; congruence].
    f_equal. rewrite <- !app_assoc. f_equal. simpl. f_equal.
    unfold hook_calls. rewrite <- map_app. f_equal.
    simpl. destruct (nonempty (VERCEL_HOOK_1 cfg)), (nonempty (VERCEL_HOOK_2 cfg));
      reflexivity. }
  unfold implement_node, pass_calls.
  destruct (intent st) as [[| |]|] eqn:E; try exact Hgen.
  eexists. split; [unfold ret; rewrite app_nil_r; reflexivity|]. simpl. auto.
Qed.

Lemma verify_node_exact (st : OrchestratorState) (tr : list event) :
  exists st',
    verify_node cfg net st tr = (Ok st', tr ++ [Call KHealth (health_url cfg)]) /\
    intent st' = intent st /\ retries st' = retries st /\
    verify_passed st' = Some (probe_passes (net KHealth (calls KHealth tr))).
Proof.
  unfold verify_node, try_except, bind, request, ret.
  destruct (net KHealth (calls KHealth tr)); eexists; (split; [reflexivity|]); simpl; auto.
Qed.

Lemma heal_node_exact (st : OrchestratorState) (tr : list event) :
  exists st',
    heal_node cfg net st tr = (Ok st', tr ++ block (intent st)) /\
    intent st' = intent st /\ retries st' = (retries st + 1)%Z /\
    verify_passed st' = verify_passed st.
Proof.
  unfold heal_node.
  match goal with
  | |- context [implement_node cfg net ?s tr] =>
      destruct (implement_node_exact s tr) as (st' & E & I & R & V)
  end.
  exists st'. simpl in *. auto.
Qed.

(** The state and the call log at the end of a run, by induction on the
    number of node executions left: from the verify node, and from the heal
    node. *)
Lemma run_shape (limit : nat) :
  (forall (i : Intent) (st st' : OrchestratorState) (tr : list event),
      intent st = Some i -> (0 <= retries st)%Z ->
      calls KHealth tr = Z.to_nat (retries st) ->
      tr ++ [Call KHealth (health_url cfg)]
      = List.concat (repeat (round_calls cfg i) (S (Z.to_nat (retries st)))) ->
      fst (run limit NVerify st tr) = Ok st' ->
      intent st' = Some i /\ (0 <= retries st')%Z /\
      snd (run limit NVerify st tr)
      = List.concat (repeat (round_calls cfg i) (S (Z.to_nat (retries st')))) /\
      verify_passed st'
      = Some (probe_passes (net KHealth (Z.to_nat (retries st'))))) /\
  (forall (i : Intent) (st st' : OrchestratorState) (tr : list event),
      intent st = Some i -> (0 <= retries st)%Z ->
      calls KHealth tr = S (Z.to_nat (retries st)) ->
      tr = List.concat (repeat (round_calls cfg i) (S (Z.to_nat (retries st)))) ->
      fst (run limit NHeal st tr) = Ok st' ->
      intent st' = Some i /\ (0 <= retries st')%Z /\
      snd (run limit NHeal st tr)
      = List.concat (repeat (round_calls cfg i) (S (Z.to_nat (retries st')))) /\
      verify_passed st'
      = Some (probe_passes (net KHealth (Z.to_nat (retries st'))))).
Proof.
  induction limit as [|limit [IHv IHh]]; [split; intros; discriminate|].
  split; intros i st st' tr Hi Hr Hc Htr.
  - destruct (verify_node_exact st tr) as (s1 & E1 & I1 & R1 & V1).
    rewrite (MainPyFacts.run_graph_step lower_other cfg net limit NVerify st tr E1).
    simpl successor. destruct (verify_router s1).
    + simpl. intros [= <-]. rewrite R1, I1, V1, Hc. auto.
    + apply IHh; try congruence.
      rewrite R1, calls_app, Hc. unfold calls at 1. simpl. lia.
  - destruct (heal_node_exact st tr) as (s1 & E1 & I1 & R1 & V1).
    rewrite (MainPyFacts.run_graph_step lower_other cfg net limit NHeal st tr E1).
    simpl successor. cbv iota.
    assert (N : Z.to_nat (retries s1) = S (Z.to_nat (retries st)))
      by (rewrite R1, <- Z2Nat.inj_succ by exact Hr; reflexivity).
    apply IHv; try congruence.
    + lia.
    + rewrite calls_app, block_no_probe, N. lia.
    + rewrite N, concat_repeat_snoc, <- Htr, <- app_assoc. f_equal.
      unfold round_calls, pass_calls. rewrite Hi. destruct i; reflexivity.
Qed.

(** With a health endpoint that never passes, a HEALTH run ends only at the
    step limit. *)
Lemma health_run_no_return (limit : nat) :
  (forall j, probe_passes (net KHealth j) = false) ->
  forall (n : node) (st : OrchestratorState) (tr : list event),
    n <> NPlan -> intent st = Some HEALTH ->
    fst (run limit n st tr) = Raised GraphRecursionError.
Proof.
  intros Hdown. induction limit as [|limit IH]; intros n st tr Hn Hi; [reflexivity|].
  destruct n; [congruence | | |].
  - destruct (implement_node_exact st tr) as (s1 & E1 & I1 & _).
    rewrite (MainPyFacts.run_graph_step lower_other cfg net limit NImplement st tr E1).
    simpl successor. cbv iota. apply IH; [discriminate | congruence].
  - destruct (verify_node_exact st tr) as (s1 & E1 & I1 & _ & V1).
    rewrite (MainPyFacts.run_graph_step lower_other cfg net limit NVerify st tr E1).
    simpl successor. unfold verify_router. rewrite I1, Hi, V1, Hdown.
    apply IH; [discriminate | congruence].
  - destruct (heal_node_exact st tr) as (s1 & E1 & I1 & _).
    rewrite (MainPyFacts.run_graph_step lower_other cfg net limit NHeal st tr E1).
    simpl successor. cbv iota. apply IH; [discriminate | congruence].
Qed.
End Nodes.

End MainPyMore.

(** X4. The call log of main.py. Whenever the run of the graph started by
    [POST /orchestrate] of main.py ends in a final state, the calls it made
    are one fixed round repeated [retries + 1] times: for a HEALTH intent a
    round is a single GET of the health URL; for DEPLOY and OTHER it is the
    redeploy action (one POST per configured hook, in order, whether or not
    an earlier one failed) followed by that GET. The final [verify_passed]
    is the outcome of the last probe, the final intent is the planned one,
    and the handler itself adds no call to those of the run. *)
Theorem main_py_call_log
        (lower_other : str -> nat -> str) (cfg : MainPy.Config)
        (net : kind -> nat -> reply) (limit : nat) (text : str)
        (final : MainPy.OrchestratorState) (tr : list event) :
  MainPy.ainvoke lower_other cfg net limit (MainPy.init_state text) [] = (Ok final, tr) ->
  (0 <= MainPy.retries final)%Z /\
  tr = List.concat (repeat (MainPy.round_calls cfg (MainPy.plan_intent lower_other text))
                      (S (Z.to_nat (MainPy.retries final)))) /\
  MainPy.verify_passed final
  = Some (probe_passes (net KHealth (Z.to_nat (MainPy.retries final)))) /\
  MainPy.intent final = Some (MainPy.plan_intent lower_other text) /\
  snd (MainPy.orchestrate lower_other cfg net limit text []) = tr.
Proof.
  intros E.
  assert (L : snd (MainPy.orchestrate lower_other cfg net limit text []) = tr)
    by (rewrite MainPyFacts.orchestrate_eq, E; reflexivity).
  revert E. unfold MainPy.ainvoke.
  destruct limit as [|limit]; [discriminate|].
  destruct (MainPyFacts.plan_node_eq lower_other (MainPy.init_state text) [])
    as (s1 & E1 & I1 & R1 & _).
  rewrite (MainPyFacts.run_graph_step lower_other cfg net limit MainPy.NPlan _ [] E1).
  simpl MainPy.successor. cbv iota. simpl in I1, R1.
  destruct limit as [|limit]; [discriminate|].
  destruct (MainPyMore.implement_node_exact cfg net s1 []) as (s2 & E2 & I2 & R2 & _).
  rewrite (MainPyFacts.run_graph_step lower_other cfg net limit MainPy.NImplement _ [] E2).
  simpl MainPy.successor. cbv iota.
  set (i := MainPy.plan_intent lower_other text) in *.
  destruct (MainPyMore.run_shape lower_other cfg net limit) as (Hv & _).
  intros E.
  destruct (Hv i s2 final ([] ++ MainPy.pass_calls cfg (MainPy.intent s1)))
    as (If & Rf & Tf & Vf); try congruence.
  - lia.
  - rewrite R2, R1. simpl. apply MainPyMore.block_no_probe.
  - rewrite R2, R1, I1. simpl. rewrite app_nil_r.
    unfold MainPy.round_calls, MainPy.pass_calls. destruct i; reflexivity.
  - rewrite E. reflexivity.
  - rewrite E in Tf. simpl in Tf. auto.
Qed.

(** A text without keyword against a health endpoint that never passes: the
    hook is posted twice, each time before a probe. *)
Lemma main_py_call_log_witness :
  exists final tr,
    MainPy.ainvoke Samples.lower_ascii_only Samples.main_one_hook Samples.net_unhealthy 25
                   (MainPy.init_state (cps "hello")) [] = (Ok final, tr) /\
    tr = List.concat
           (repeat (MainPy.round_calls Samples.main_one_hook
                      (MainPy.plan_intent Samples.lower_ascii_only (cps "hello")))
                   (S (Z.to_nat (MainPy.retries final)))) /\
    MainPy.verify_passed final
    = Some (probe_passes (Samples.net_unhealthy KHealth (Z.to_nat (MainPy.retries final)))).
Proof.
  destruct (MainPy.ainvoke Samples.lower_ascii_only Samples.main_one_hook
              Samples.net_unhealthy 25 (MainPy.init_state (cps "hello")) [])
    as [[final|e] tr] eqn:E; [|vm_compute in E; discriminate].
  exists final, tr. split; [reflexivity|].
  destruct (main_py_call_log Samples.lower_ascii_only Samples.main_one_hook
              Samples.net_unhealthy 25 (cps "hello") E) as (_ & T & V & _).
  split; [exact T | exact V].
Defined.

(** X5. A health check of main.py against a health endpoint that never
    answers 200 produces no response: for every step limit the run ends by
    exhausting it. *)
Theorem main_py_health_check_hangs
        (lower_other : str -> nat -> str) (cfg : MainPy.Config)
        (net : kind -> nat -> reply) (limit : nat) (text : str) :
  MainPy.plan_intent lower_other text = MainPy.HEALTH ->
  (forall j, probe_passes (net KHealth j) = false) ->
  fst (MainPy.orchestrate lower_other cfg net limit text []) = Raised GraphRecursionError.
Proof.
  intros Hi Hdown. rewrite MainPyFacts.orchestrate_eq. cbn [fst]. unfold MainPy.ainvoke.
  destruct limit as [|limit]; [reflexivity|].
  destruct (MainPyFacts.plan_node_eq lower_other (MainPy.init_state text) [])
    as (s1 & E1 & I1 & _).
  rewrite (MainPyFacts.run_graph_step lower_other cfg net limit MainPy.NPlan _ [] E1).
  simpl MainPy.successor. cbv iota. simpl in I1.
  rewrite (MainPyMore.health_run_no_return lower_other cfg net limit Hdown);
    [reflexivity | discriminate | congruence].
Qed.

Lemma main_py_health_check_hangs_witness :
  fst (MainPy.orchestrate Samples.lower_ascii_only Samples.main_one_hook Samples.net_unhealthy
         25 (cps "health?") []) = Raised GraphRecursionError.
Proof.
  apply main_py_health_check_hangs.
  - reflexivity.
  - intros j. reflexivity.
Defined.

(* ===================================================================== *)
(** ** Further properties: the helpers and handlers of current_app.py *)
(* ===================================================================== *)

Module CurrentAppMore.
Import Text Http HttpFacts CurrentApp.

Lemma bind_ok {A B} (m : M A) (f : A -> M B) (tr tr' : list event) (a : A) :
  m tr = (Ok a, tr') -> bind m f tr = f a tr'.
Proof.
  intros E. unfold bind. rewrite E. reflexivity.
Qed.

Lemma bind_raised {A B} (m : M A) (f : A -> M B) (tr tr' : list event) (e : exc) :
  m tr = (Raised e, tr') -> bind m f tr = (Raised e, tr').
Proof.
  intros E. unfold bind. rewrite E. reflexivity.
Qed.

Arguments bind_ok {A B m} f {tr tr' a} _.
Arguments bind_raised {A B m} f {tr tr' e} _.

Lemma calls_map_call (k k' : kind) (urls : list string) :
  calls k (map (Call k') urls) = if kind_eqb k k' then List.length urls else 0.
Proof.
  unfold calls. induction urls as [|u urls IH]; simpl.
  - destruct (kind_eqb k k'); reflexivity.
  - destruct (kind_eqb k k'); simpl; rewrite IH; reflexivity.
Qed.

Lemma redeploys_map_call (k : kind) (urls : list string) :
  redeploys (map (Call k) urls) = 0.
Proof.
  unfold redeploys. induction urls as [|u urls IH]; simpl; auto.
Qed.

Section Handlers.
Variable ci_other : codepoint -> codepoint -> bool.
Variable cfg : Config.
Variable net : kind -> nat -> reply.

(** The fan-out, exactly: each hook is posted once, in order, and its entry
    records what the network did for that post. *)
Lemma post_hooks_exact (urls : list string) :
  forall (results : list HookResult) (tr : list event),
  exists out,
    post_hooks net urls results tr = (Ok (results ++ out), tr ++ map (Call KHook) urls) /\
    List.length out = List.length urls /\
    forall j url, nth_error urls j = Some url ->
                  nth_error out j = Some (hook_entry url (net KHook (calls KHook tr + j))).
Proof.
  induction urls as [|url urls IH]; intros results tr.
  - exists []. simpl. unfold ret. rewrite !app_nil_r.
    split; [reflexivity|]. split; [reflexivity|]. intros [|j] u; discriminate.
  - set (entry := hook_entry url (net KHook (calls KHook tr))).
    destruct (IH (results ++ [entry]) (tr ++ [Call KHook url])) as (out & E & L & N).
    exists (entry :: out). split; [|split].
    + cbn [post_hooks]. unfold bind at 1, try_except, bind at 1, request, ret at 1 2.
      subst entry. simpl map.
      destruct (net KHook (calls KHook tr)); simpl hook_entry in E; simpl str_of_exc;
        rewrite E, <- !app_assoc; reflexivity.
    + simpl. rewrite L. reflexivity.
    + intros [|j] u H; simpl in *.
      * injection H as <-. rewrite Nat.add_0_r. reflexivity.
      * rewrite (N j u H), calls_snoc. simpl. f_equal. f_equal. f_equal. lia.
Qed.

Lemma log_supabase_exact (level message : string) (tr : list event) :
  log_supabase cfg net level message tr
  = (Ok tt,
     tr ++ (if nonempty (SUPABASE_URL cfg) && nonempty (SUPABASE_KEY cfg)
            then [Call KLog (SUPABASE_URL cfg ++ "/rest/v1/ai_logs")%string]
            else [])).
Proof.
  unfold log_supabase.
  destruct (nonempty (SUPABASE_URL cfg)), (nonempty (SUPABASE_KEY cfg)); simpl;
    try (unfold ret; rewrite app_nil_r; reflexivity).
  unfold try_except, bind, request, ret.
  destruct (net KLog (calls KLog tr)); reflexivity.
Qed.

Lemma call_health_exact (tr : list event) :
  exists hl,
    call_health cfg net tr
    = (Ok hl, tr ++ (if nonempty (API_HEALTH cfg) then [Call KHealth (API_HEALTH cfg)] else [])) /\
    health_ok hl
    = nonempty (API_HEALTH cfg) && probe_passes (net KHealth (calls KHealth tr)) /\
    (hl = HealthMissing <-> nonempty (API_HEALTH cfg) = false).
Proof.
  unfold call_health. destruct (nonempty (API_HEALTH cfg)); simpl.
  - unfold try_except, bind, request, ret.
    destruct (net KHealth (calls KHealth tr)); eexists; (split; [reflexivity|]);
      simpl; (split; [reflexivity | split; discriminate]).
  - exists HealthMissing. unfold ret. rewrite app_nil_r. repeat split; reflexivity.
Qed.

Lemma call_vercel_hooks_exact (tr : list event) :
  exists results,
    call_vercel_hooks cfg net tr
    = (Ok results, tr ++ Redeploy :: map (Call KHook) (VERCEL_HOOKS cfg)) /\
    List.length results = List.length (VERCEL_HOOKS cfg) /\
    forall j url, nth_error (VERCEL_HOOKS cfg) j = Some url ->
                  nth_error results j
                  = Some (hook_entry url (net KHook (calls KHook tr + j))).
Proof.
  unfold call_vercel_hooks, bind, mark.
  destruct (post_hooks_exact (VERCEL_HOOKS cfg) [] (tr ++ [Redeploy])) as (out & E & L & N).
  exists out. rewrite E, <- app_assoc. simpl. split; [reflexivity|]. split; [exact L|].
  intros j url H. rewrite (N j url H), calls_snoc. simpl. rewrite Nat.add_0_r. reflexivity.
Qed.

(** What [call_anthropic] can end with. *)
Lemma call_anthropic_cases (prompt : str) (critical : bool) (tr : list event) :
  (nonempty (ANTHROPIC_API_KEY cfg) = false /\
   call_anthropic cfg net prompt critical tr = (Ok LLMMissingKey, tr)) \/
  (nonempty (ANTHROPIC_API_KEY cfg) = true /\
   exists r raw,
     net KLLM (calls KLLM tr) = Answer r /\
     fst (call_anthropic cfg net prompt critical tr)
     = Ok (LLMReply ((status_code r =? 200)%Z || (status_code r =? 201)%Z)
                    (status_code r) (choose_model cfg prompt critical) raw)) \/
  (nonempty (ANTHROPIC_API_KEY cfg) = true /\
   exists e,
     net KLLM (calls KLLM tr) = Fails e /\
     fst (call_anthropic cfg net prompt critical tr) = Raised (NetworkError e)).
Proof.
  unfold call_anthropic. destruct (nonempty (ANTHROPIC_API_KEY cfg)); simpl.
  - right. unfold bind, mark, request, ret. rewrite calls_snoc. simpl. rewrite Nat.add_0_r.
    destruct (net KLLM (calls KLLM tr)) as [r|e].
    + left. split; [reflexivity|]. eexists r, _. split; reflexivity.
    + right. split; [reflexivity|]. exists e. split; reflexivity.
  - left. split; reflexivity.
Qed.
End Handlers.

End CurrentAppMore.

(** X6. The hook fan-out of current_app.py never raises: it posts once to
    each configured hook, in order, whether or not an earlier post failed,
    and returns one entry per hook, the [j]-th recording the status code or
    the error of the [j]-th post. *)
Theorem current_app_hook_fan_out
        (cfg : CurrentApp.Config) (net : kind -> nat -> reply) (tr : list event) :
  exists results,
    CurrentApp.call_vercel_hooks cfg net tr
    = (Ok results, tr ++ Redeploy :: map (Call KHook) (CurrentApp.VERCEL_HOOKS cfg)) /\
    List.length results = List.length (CurrentApp.VERCEL_HOOKS cfg) /\
    List.length results <= 2 /\
    forall j url, nth_error (CurrentApp.VERCEL_HOOKS cfg) j = Some url ->
                  nth_error results j
                  = Some (CurrentApp.hook_entry url (net KHook (calls KHook tr + j))).
Proof.
  destruct (CurrentAppMore.call_vercel_hooks_exact cfg net tr) as (results & E & L & N).
  exists results. repeat split; try assumption.
  rewrite L. unfold CurrentApp.VERCEL_HOOKS. simpl.
  destruct (nonempty _), (nonempty _); simpl; lia.
Qed.

(** X7. The health probe of current_app.py never raises, makes no call when
    [API_HEALTH] is unset, and otherwise makes one GET; its [ok] entry is true
    exactly when the URL is set and the endpoint answered with status 200
    (any other status, 2xx included, and any exception give a failed
    probe). *)
Theorem current_app_health_probe
        (cfg : CurrentApp.Config) (net : kind -> nat -> reply) (tr : list event) :
  exists hl,
    CurrentApp.call_health cfg net tr
    = (Ok hl, tr ++ (if nonempty (CurrentApp.API_HEALTH cfg)
                     then [Call KHealth (CurrentApp.API_HEALTH cfg)] else [])) /\
    CurrentApp.health_ok hl
    = nonempty (CurrentApp.API_HEALTH cfg) && probe_passes (net KHealth (calls KHealth tr)) /\
    (hl = CurrentApp.HealthMissing <-> nonempty (CurrentApp.API_HEALTH cfg) = false).
Proof.
  unfold CurrentApp.call_health. destruct (nonempty (CurrentApp.API_HEALTH cfg)); simpl.
  - unfold try_except, bind, request, ret.
    destruct (net KHealth (calls KHealth tr)); eexists; (split; [reflexivity|]);
      simpl; (split; [reflexivity | split; discriminate]).
  - exists CurrentApp.HealthMissing. unfold ret. rewrite app_nil_r.
    repeat split; reflexivity.
Qed.

(** X8. [call_anthropic] of current_app.py ends in one of three ways: with no
    API key it makes no call and returns the missing-key result; with a key
    and an answer from the provider it returns a result whose [ok] is true
    exactly for status 200 or 201, whether or not the body parses, with the
    model chosen from the prompt length and the critical flag; with a key and
    a failing call it raises. *)
Theorem current_app_call_anthropic_cases
        (cfg : CurrentApp.Config) (net : kind -> nat -> reply)
        (prompt : str) (critical : bool) (tr : list event) :
  (nonempty (CurrentApp.ANTHROPIC_API_KEY cfg) = false /\
   CurrentApp.call_anthropic cfg net prompt critical tr = (Ok CurrentApp.LLMMissingKey, tr)) \/
  (nonempty (CurrentApp.ANTHROPIC_API_KEY cfg) = true /\
   exists r raw,
     net KLLM (calls KLLM tr) = Answer r /\
     fst (CurrentApp.call_anthropic cfg net prompt critical tr)
     = Ok (CurrentApp.LLMReply ((status_code r =? 200)%Z || (status_code r =? 201)%Z)
                               (status_code r)
                               (CurrentApp.choose_model cfg prompt critical) raw)) \/
  (nonempty (CurrentApp.ANTHROPIC_API_KEY cfg) = true /\
   exists e,
     net KLLM (calls KLLM tr) = Fails e /\
     fst (CurrentApp.call_anthropic cfg net prompt critical tr) = Raised (NetworkError e)).
Proof.
  unfold CurrentApp.call_anthropic.
  destruct (nonempty (CurrentApp.ANTHROPIC_API_KEY cfg)); simpl.
  - right. unfold bind, mark, request, ret. rewrite calls_snoc. simpl. rewrite Nat.add_0_r.
    destruct (net KLLM (calls KLLM tr)) as [r|e].
    + left. split; [reflexivity|]. eexists r, _. split; reflexivity.
    + right. split; [reflexivity|]. exists e. split; reflexivity.
  - left. split; reflexivity.
Qed.

(** X9. How [POST /orchestrate] of current_app.py can end. It answers with
    [ok = true] for every text that is not blank, whatever the hooks, the
    health endpoint and the log sink do, with two exceptions only: a blank
    text is refused with status 400, and a request routed to the LLM fails
    when the API key is set and the call to the provider raises. *)
Theorem current_app_orchestrate_outcomes
        (ci_other : codepoint -> codepoint -> bool) (cfg : CurrentApp.Config)
        (net : kind -> nat -> reply) (body : CurrentApp.OrchestrateIn) :
  match fst (CurrentApp.orchestrate ci_other cfg net body []) with
  | Ok reply =>
      CurrentApp.ok reply = true /\
      forallb isspace (CurrentApp.text body) = false /\
      CurrentApp.intent (CurrentApp.result reply)
      = CurrentApp.route_intent ci_other (strip (CurrentApp.text body))
  | Raised (HTTPException status _) =>
      status = 400%Z /\ forallb isspace (CurrentApp.text body) = true
  | Raised (NetworkError e) =>
      forallb isspace (CurrentApp.text body) = false /\
      CurrentApp.route_intent ci_other (strip (CurrentApp.text body)) = CurrentApp.llm_plan /\
      nonempty (CurrentApp.ANTHROPIC_API_KEY cfg) = true /\
      net KLLM 0 = Fails e
  | Raised GraphRecursionError => False
  | Raised (AttributeError _) => False
  end.
Proof.
  destruct (forallb isspace (CurrentApp.text body)) eqn:B.
  - rewrite (CurrentAppFacts.orchestrate_blank ci_other cfg net body B). simpl. auto.
  - assert (Hne : strip (CurrentApp.text body) <> []).
    { intros H. apply TextMore.strip_nil_iff in H. congruence. }
    unfold CurrentApp.orchestrate.
    destruct (strip (CurrentApp.text body)) as [|c t] eqn:S; [congruence|].
    destruct (CurrentApp.route_intent ci_other (c :: t)) eqn:R.
    + destruct (CurrentApp.call_anthropic cfg net (c :: t)
                  (CurrentApp.truthy (CurrentApp.critical body)) []) as [[ai|e] tr1] eqn:E.
      * rewrite (CurrentAppMore.bind_ok _ (CurrentAppMore.bind_ok _ E)).
        rewrite (CurrentAppMore.bind_ok _ (CurrentAppMore.log_supabase_exact cfg net _ _ _)).
        simpl. auto.
      * rewrite (CurrentAppMore.bind_raised _ (CurrentAppMore.bind_raised _ E)). simpl.
        destruct (CurrentAppMore.call_anthropic_cases cfg net (c :: t)
                    (CurrentApp.truthy (CurrentApp.critical body)) [])
          as [(K & E') | [(K & r & raw & A & E') | (K & e' & A & E')]];
          rewrite E in E'; simpl in E'; try discriminate.
        injection E' as ->. auto.
    + destruct (CurrentAppMore.call_vercel_hooks_exact cfg net []) as (v & E & _).
      destruct (CurrentAppMore.call_health_exact cfg net
                  ([] ++ Redeploy :: map (Call KHook) (CurrentApp.VERCEL_HOOKS cfg)))
        as (hl & E2 & _).
      rewrite (CurrentAppMore.bind_ok _
                 (eq_trans (CurrentAppMore.bind_ok _ E) (CurrentAppMore.bind_ok _ E2))).
      rewrite (CurrentAppMore.bind_ok _ (CurrentAppMore.log_supabase_exact cfg net _ _ _)).
      simpl. auto.
    + destruct (CurrentAppMore.call_health_exact cfg net []) as (hl & E2 & _).
      rewrite (CurrentAppMore.bind_ok _ (CurrentAppMore.bind_ok _ E2)).
      rewrite (CurrentAppMore.bind_ok _ (CurrentAppMore.log_supabase_exact cfg net _ _ _)).
      simpl. auto.
Qed.

(** X10. The calls of a deploy or health-check request to current_app.py, in
    order and for every network: for a deploy, one POST to each configured
    hook; then, for both, one GET of the health URL when it is set; then one
    POST to the log sink when both its URL and key are set. No call to the
    LLM provider is made. *)
Theorem current_app_call_order
        (ci_other : codepoint -> codepoint -> bool) (cfg : CurrentApp.Config)
        (net : kind -> nat -> reply) (body : CurrentApp.OrchestrateIn) :
  CurrentApp.route_intent ci_other (strip (CurrentApp.text body)) <> CurrentApp.llm_plan ->
  snd (CurrentApp.orchestrate ci_other cfg net body [])
  = match CurrentApp.route_intent ci_other (strip (CurrentApp.text body)) with
    | CurrentApp.deploy_frontend =>
        Redeploy :: map (Call KHook) (CurrentApp.VERCEL_HOOKS cfg)
    | _ => []
    end
    ++ (if nonempty (CurrentApp.API_HEALTH cfg)
        then [Call KHealth (CurrentApp.API_HEALTH cfg)] else [])
    ++ (if nonempty (CurrentApp.SUPABASE_URL cfg) && nonempty (CurrentApp.SUPABASE_KEY cfg)
        then [Call KLog (CurrentApp.SUPABASE_URL cfg ++ "/rest/v1/ai_logs")%string]
        else []).
Proof.
  intros Hr. unfold CurrentApp.orchestrate.
  destruct (strip (CurrentApp.text body)) as [|c t] eqn:S;
    [vm_compute in Hr; congruence|].
  destruct (CurrentApp.route_intent ci_other (c :: t)) eqn:R; [congruence | |].
  - destruct (CurrentAppMore.call_vercel_hooks_exact cfg net []) as (v & E & _).
    destruct (CurrentAppMore.call_health_exact cfg net
                ([] ++ Redeploy :: map (Call KHook) (CurrentApp.VERCEL_HOOKS cfg)))
      as (hl & E2 & _).
    rewrite (CurrentAppMore.bind_ok _
               (eq_trans (CurrentAppMore.bind_ok _ E) (CurrentAppMore.bind_ok _ E2))).
    rewrite (CurrentAppMore.bind_ok _ (CurrentAppMore.log_supabase_exact cfg net _ _ _)).
    simpl. rewrite <- app_assoc. reflexivity.
  - destruct (CurrentAppMore.call_health_exact cfg net []) as (hl & E2 & _).
    rewrite (CurrentAppMore.bind_ok _ (CurrentAppMore.bind_ok _ E2)).
    rewrite (CurrentAppMore.bind_ok _ (CurrentAppMore.log_supabase_exact cfg net _ _ _)).
    reflexivity.
Qed.

(** A health check with every integration set up and every call failing. *)
Lemma current_app_call_order_witness :
  snd (CurrentApp.orchestrate Samples.ci_ascii_only Samples.app_no_hooks
         (fun _ _ => Fails "connection refused") (Samples.app_request "status?" None) [])
  = [Call KHealth "https://svc.example/health";
     Call KLog "https://db.example/rest/v1/ai_logs"].
Proof.
  apply (current_app_call_order Samples.ci_ascii_only Samples.app_no_hooks
           (fun _ _ => Fails "connection refused") (Samples.app_request "status?" None)).
  vm_compute. discriminate.
Defined.

(** X11. [POST /mvp] of current_app.py always answers with [ok] and [logged]
    true and echoes the payload, whether or not anything was logged: it makes
    no call when the log sink is not set up, and one POST otherwise, whose
    failure is not reported. *)
Theorem current_app_mvp_log
        (cfg : CurrentApp.Config) (net : kind -> nat -> reply)
        (payload : string) (tr : list event) :
  CurrentApp.mvp_log cfg net payload tr
  = (Ok {| CurrentApp.mvp_ok := true; CurrentApp.logged := true;
           CurrentApp.echo := payload |},
     tr ++ (if nonempty (CurrentApp.SUPABASE_URL cfg) && nonempty (CurrentApp.SUPABASE_KEY cfg)
            then [Call KLog (CurrentApp.SUPABASE_URL cfg ++ "/rest/v1/ai_logs")%string]
            else [])).
Proof.
  unfold CurrentApp.mvp_log.
  rewrite (CurrentAppMore.bind_ok _ (CurrentAppMore.log_supabase_exact cfg net _ _ tr)).
  reflexivity.
Qed.

(* ===================================================================== *)
(** ** Further properties: main_langgraph.py *)
(* ===================================================================== *)

Module MainLanggraphMore.
Import Text Http HttpFacts MainLanggraph.
Import CurrentAppMore.

Section Handlers.
Variable ci_other : codepoint -> codepoint -> bool.
Variable cfg : Config.
Variable net : kind -> nat -> reply.

(** The events of one call to the provider. *)
Lemma call_anthropic_exact (prompt : str) (critical : bool) (tr : list event) :
  call_anthropic cfg net prompt critical tr
  = if nonempty (ANTHROPIC_API_KEY cfg)
    then (match net KLLM (calls KLLM tr) with
          | Answer resp =>
              Ok (LLMReply ((status_code resp =? 200)%Z || (status_code resp =? 201)%Z)
                           (status_code resp) (choose_model cfg prompt critical)
                           match json resp with
                           | Some j => Parsed j
                           | None => Unparsed (status_code resp)
                                              (substring 0 400 (Http.text resp))
                           end)
          | Fails e => Raised (NetworkError e)
          end,
          tr ++ [LLMRequest (choose_model cfg prompt critical) (LLM_MAX_TOKENS cfg) prompt;
                 Call KLLM (ANTHROPIC_API_URL cfg ++ "/v1/messages")%string])
    else (Ok LLMMissingKey, tr).
Proof.
  unfold call_anthropic. destruct (nonempty (ANTHROPIC_API_KEY cfg)); simpl; [|reflexivity].
  unfold bind, mark, request, ret. rewrite calls_snoc. simpl. rewrite Nat.add_0_r.
  destruct (net KLLM (calls KLLM tr)); rewrite <- app_assoc; reflexivity.
Qed.

Lemma lg_post_hooks_exact (hooks : list string) :
  forall (idx : nat) (results : HookDict) (tr : list event),
  exists out,
    post_hooks net idx hooks results tr = (Ok (results ++ out), tr ++ map (Call KHook) hooks) /\
    map fst out = seq idx (List.length hooks) /\
    forall j, j < List.length hooks ->
              nth_error out j = Some (idx + j, hook_value (net KHook (calls KHook tr + j))).
Proof.
  induction hooks as [|hook hooks IH]; intros idx results tr.
  - exists []. simpl. unfold ret. rewrite !app_nil_r.
    split; [reflexivity|]. split; [reflexivity|]. intros j H. inversion H.
  - set (entry := (idx, hook_value (net KHook (calls KHook tr)))).
    destruct (IH (S idx) (results ++ [entry]) (tr ++ [Call KHook hook])) as (out & E & K & N).
    exists (entry :: out). split; [|split].
    + cbn [post_hooks]. unfold bind at 1, try_except, bind at 1, request, ret at 1 2.
      subst entry. simpl map.
      destruct (net KHook (calls KHook tr)); simpl hook_value in E; simpl str_of_exc;
        rewrite E, <- !app_assoc; reflexivity.
    + simpl. rewrite K. reflexivity.
    + intros [|j] H; simpl in *.
      * rewrite !Nat.add_0_r. reflexivity.
      * rewrite (N j) by lia. rewrite calls_snoc. simpl. f_equal. f_equal; [lia|].
        f_equal. f_equal. lia.
Qed.

Lemma lg_call_vercel_hooks_exact (tr : list event) :
  exists results,
    call_vercel_hooks cfg net tr
    = (Ok results, tr ++ Redeploy :: map (Call KHook) (VERCEL_HOOKS cfg)) /\
    map fst results = seq 1 (List.length (VERCEL_HOOKS cfg)) /\
    forall j, j < List.length (VERCEL_HOOKS cfg) ->
              nth_error results j
              = Some (S j, hook_value (net KHook (calls KHook tr + j))).
Proof.
  unfold call_vercel_hooks, bind, mark.
  destruct (lg_post_hooks_exact (VERCEL_HOOKS cfg) 1 [] (tr ++ [Redeploy])) as (out & E & K & N).
  exists out. rewrite E, <- app_assoc. simpl. split; [reflexivity|]. split; [exact K|].
  intros j H. rewrite (N j H), calls_snoc. simpl. rewrite Nat.add_0_r. reflexivity.
Qed.

Lemma lg_call_health_exact (tr : list event) :
  exists hl,
    call_health cfg net tr
    = (Ok hl, tr ++ (if nonempty (API_HEALTH cfg) then [Call KHealth (API_HEALTH cfg)] else [])) /\
    health_ok hl
    = nonempty (API_HEALTH cfg) && probe_passes (net KHealth (calls KHealth tr)).
Proof.
  unfold call_health. destruct (nonempty (API_HEALTH cfg)); simpl.
  - unfold try_except, bind, request, ret.
    destruct (net KHealth (calls KHealth tr)); eexists; split; reflexivity.
  - exists HealthMissing. unfold ret. rewrite app_nil_r. split; reflexivity.
Qed.

Lemma lg_log_supabase_exact (action : string) (tr : list event) :
  log_supabase cfg net action tr
  = if nonempty (SUPABASE_URL cfg) && nonempty (SUPABASE_KEY cfg)
    then (match net KLog (calls KLog tr) with
          | Answer _ => Ok tt
          | Fails e => Raised (NetworkError e)
          end,
          tr ++ [Call KLog (SUPABASE_URL cfg ++ "/rest/v1/" ++ AI_LOGS_TABLE cfg)%string])
    else (Ok tt, tr).
Proof.
  unfold log_supabase.
  destruct (nonempty (SUPABASE_URL cfg)), (nonempty (SUPABASE_KEY cfg)); simpl;
    try reflexivity.
  unfold bind, request, ret. destruct (net KLog (calls KLog tr)); reflexivity.
Qed.

(** One node execution of the runner. *)
Lemma graph_runner_step (limit : nat) (n nxt : name) (st st' : OrchestratorState)
      (tr tr' : list event) :
  run_node cfg net n st tr = (Ok (st', nxt), tr') ->
  graph_runner cfg net (S limit) n st tr
  = match nxt with
    | stop => (Ok st', tr')
    | _ => graph_runner cfg net limit nxt st' tr'
    end.
Proof.
  intros E. cbn [graph_runner]. rewrite (bind_ok _ E). simpl. destruct nxt; reflexivity.
Qed.

Lemma graph_runner_raised (limit : nat) (n : name) (st : OrchestratorState)
      (tr tr' : list event) (e : exc) :
  run_node cfg net n st tr = (Raised e, tr') ->
  graph_runner cfg net (S limit) n st tr = (Raised e, tr').
Proof.
  intros E. cbn [graph_runner]. rewrite (bind_raised _ E). reflexivity.
Qed.

Arguments graph_runner_step limit {n nxt st st' tr tr'} _.
Arguments graph_runner_raised limit {n st tr tr' e} _.

(** Every node either hands over to a node of smaller rank, keeping the
    intent, or raises because a call to the provider failed. *)
Lemma run_node_outcome (n : name) (st : OrchestratorState) (tr : list event) :
  n <> stop ->
  match run_node cfg net n st tr with
  | (Ok (st', nxt), _) => rank nxt < rank n /\ intent st' = intent st
  | (Raised (NetworkError e), _) => exists i, net KLLM i = Fails e
  | (Raised _, _) => False
  end.
Proof.
  intros Hn. destruct n; [| | | | |congruence]; simpl.
  - unfold node_plan.
    destruct (call_anthropic cfg net (plan_prompt st) false tr) as [[p|e] tr1] eqn:E.
    + rewrite (bind_ok _ E). simpl. destruct (intent st); simpl; auto with arith.
    + rewrite (bind_raised _ E). rewrite call_anthropic_exact in E.
      destruct (nonempty (ANTHROPIC_API_KEY cfg)); [|discriminate].
      destruct (net KLLM (calls KLLM tr)) eqn:F; [discriminate|].
      injection E as <- _. eauto.
  - unfold node_implement. destruct (intent st) eqn:I; simpl; auto with arith.
    destruct (lg_call_vercel_hooks_exact tr) as (v & E & _).
    rewrite (bind_ok _ E). simpl. auto with arith.
  - unfold node_verify. destruct (intent st) eqn:I.
    + destruct (lg_call_health_exact tr) as (hl & E & _).
      rewrite (bind_ok _ E). simpl. destruct (health_ok hl); simpl; auto with arith.
    + destruct (lg_call_health_exact tr) as (hl & E & _).
      rewrite (bind_ok _ E). simpl. auto with arith.
    + destruct (call_anthropic cfg net (prompt st) (200 <? List.length (prompt st)) tr)
        as [[p|e] tr1] eqn:E.
      * rewrite (bind_ok _ E). simpl. auto with arith.
      * rewrite (bind_raised _ E). rewrite call_anthropic_exact in E.
        destruct (nonempty (ANTHROPIC_API_KEY cfg)); [|discriminate].
        destruct (net KLLM (calls KLLM tr)) eqn:F; [discriminate|].
        injection E as <- _. eauto.
  - unfold node_heal.
    destruct (lg_call_vercel_hooks_exact tr) as (v & E & _).
    destruct (lg_call_health_exact (tr ++ Redeploy :: map (Call KHook) (VERCEL_HOOKS cfg)))
      as (hl & E2 & _).
    rewrite (bind_ok _ E), (bind_ok _ E2). simpl. auto with arith.
  - auto with arith.
Qed.

(** A run that is allowed as many node executions as the rank of its first
    node ends with a state, or with a failed call to the provider. *)
Lemma graph_runner_outcome (limit : nat) :
  forall (n : name) (st : OrchestratorState) (tr : list event),
    n <> stop -> rank n <= limit ->
    match fst (graph_runner cfg net limit n st tr) with
    | Ok st' => intent st' = intent st
    | Raised (NetworkError e) => exists i, net KLLM i = Fails e
    | Raised _ => False
    end.
Proof.
  induction limit as [|limit IH]; intros n st tr Hn Hl.
  - destruct n; simpl in Hl; try lia. congruence.
  - pose proof (@run_node_outcome n st tr Hn) as O.
    destruct (run_node cfg net n st tr) as [[[st' nxt]|e] tr'] eqn:E.
    + rewrite (graph_runner_step limit E). destruct O as (Hrank & Hi).
      destruct nxt; try exact Hi;
        match goal with
        | |- context [graph_runner cfg net limit ?m st' tr'] =>
            assert (IH' := IH m st' tr');
            destruct (fst (graph_runner cfg net limit m st' tr')) as [s2|[| | |]];
            [ rewrite <- Hi; apply IH'; [discriminate | simpl in *; lia]
            | apply IH'; [discriminate | simpl in *; lia] ..]
        end.
    + rewrite (graph_runner_raised limit E). simpl. exact O.
Qed.

Lemma calls_cons (k : kind) (e : event) (l : list event) :
  calls k (e :: l) = (if is_call k e then 1 else 0) + calls k l.
Proof.
  unfold calls. simpl. destruct (is_call k e); reflexivity.
Qed.

Lemma redeploys_cons (e : event) (l : list event) :
  redeploys (e :: l) = (if is_redeploy e then 1 else 0) + redeploys l.
Proof.
  unfold redeploys. simpl. destruct (is_redeploy e); reflexivity.
Qed.

(** The calls of one fan-out and of one probe. *)
Local Abbreviation fan_out := (Redeploy :: map (Call KHook) (VERCEL_HOOKS cfg)).
Local Abbreviation probe :=
  (if nonempty (API_HEALTH cfg) then [Call KHealth (API_HEALTH cfg)] else []).

(** The planning call returns when there is no key or the provider answers;
    it touches nothing but the provider. *)
Lemma call_anthropic_returns (prompt : str) (critical : bool) (tr : list event) :
  nonempty (ANTHROPIC_API_KEY cfg) = false \/
  (exists r, net KLLM (calls KLLM tr) = Answer r) ->
  exists p tr1,
    call_anthropic cfg net prompt critical tr = (Ok p, tr1) /\
    calls KHook tr1 = calls KHook tr /\ calls KHealth tr1 = calls KHealth tr /\
    calls KLog tr1 = calls KLog tr /\ redeploys tr1 = redeploys tr.
Proof.
  intros H. rewrite call_anthropic_exact.
  destruct (nonempty (ANTHROPIC_API_KEY cfg)).
  - destruct H as [H | (r & H)]; [discriminate|]. rewrite H.
    eexists _, _. split; [reflexivity|].
    rewrite !MainPyMore.calls_app, MainPyMore.redeploys_app. simpl.
    unfold calls, redeploys. simpl. repeat split; lia.
  - eexists _, _. split; [reflexivity|]. auto.
Qed.

Lemma node_implement_deploy (st : OrchestratorState) (tr : list event) :
  intent st = deploy ->
  exists v, run_node cfg net implement st tr
            = (Ok (set_implement st (Hooks v), verify), tr ++ fan_out).
Proof.
  intros I. simpl. unfold node_implement. rewrite I.
  destruct (lg_call_vercel_hooks_exact tr) as (v & E & _).
  exists v. rewrite (bind_ok _ E). reflexivity.
Qed.

Lemma node_verify_deploy (st : OrchestratorState) (tr : list event) :
  intent st = deploy ->
  exists hl, run_node cfg net verify st tr
             = (Ok (set_verify st (VerifyHealth hl), if health_ok hl then done else heal),
                tr ++ probe) /\
             health_ok hl
             = nonempty (API_HEALTH cfg) && probe_passes (net KHealth (calls KHealth tr)).
Proof.
  intros I. simpl. unfold node_verify. rewrite I.
  destruct (lg_call_health_exact tr) as (hl & E & O).
  exists hl. rewrite (bind_ok _ E). split; [reflexivity | exact O].
Qed.

Lemma node_heal_eq (st : OrchestratorState) (tr : list event) :
  exists h, run_node cfg net heal st tr
            = (Ok (set_heal st h, done), (tr ++ fan_out) ++ probe).
Proof.
  simpl. unfold node_heal.
  destruct (lg_call_vercel_hooks_exact tr) as (v & E & _).
  destruct (lg_call_health_exact (tr ++ fan_out)) as (hl & E2 & _).
  eexists. rewrite (bind_ok _ E), (bind_ok _ E2). reflexivity.
Qed.

(** The run of a deploy request once the planning call has returned. *)
Lemma deploy_run (l : nat) (st : OrchestratorState) (tr : list event) :
  intent st = deploy ->
  exists final,
    graph_runner cfg net (S (S (S (S l)))) implement st tr
    = (Ok final,
       (tr ++ fan_out) ++ probe
       ++ (if nonempty (API_HEALTH cfg)
              && probe_passes (net KHealth (calls KHealth (tr ++ fan_out)))
           then [] else fan_out ++ probe)) /\
    (if nonempty (API_HEALTH cfg)
        && probe_passes (net KHealth (calls KHealth (tr ++ fan_out)))
     then heal_result final = heal_result st
     else heal_result final <> None).
Proof.
  intros I.
  destruct (node_implement_deploy st tr I) as (v & E1).
  rewrite (graph_runner_step _ E1).
  destruct (node_verify_deploy (set_implement st (Hooks v)) (tr ++ fan_out) I)
    as (hl & E2 & O).
  rewrite (graph_runner_step _ E2). rewrite <- O.
  destruct (health_ok hl).
  - rewrite (graph_runner_step (n := done) (nxt := stop) _ eq_refl).
    eexists. split; [rewrite app_nil_r; reflexivity|]. reflexivity.
  - destruct (node_heal_eq (set_verify (set_implement st (Hooks v)) (VerifyHealth hl))
                ((tr ++ fan_out) ++ probe)) as (h & E3).
    rewrite (graph_runner_step _ E3).
    rewrite (graph_runner_step (n := done) (nxt := stop) _ eq_refl).
    eexists. split; [rewrite <- !app_assoc; reflexivity|]. simpl. discriminate.
Qed.

(** *** Requests that are not deploys stay away from the hooks *)

Lemma bind_ret_snd {A B} (m : M A) (g : A -> B) (tr : list event) :
  snd (bind m (fun a => ret (g a)) tr) = snd (m tr).
Proof.
  unfold bind, ret. destruct (m tr) as [[a|e] tr']; reflexivity.
Qed.

Lemma bind_ret_fst {A B} (m : M A) (g : A -> B) (tr : list event) (b : B) :
  fst (bind m (fun a => ret (g a)) tr) = Ok b ->
  exists a, fst (m tr) = Ok a /\ b = g a.
Proof.
  unfold bind, ret. destruct (m tr) as [[a|e] tr']; simpl; [|discriminate].
  intros [= <-]. eauto.
Qed.

Lemma call_anthropic_quiet (prompt : str) (critical : bool) (tr : list event) :
  calls KHook (snd (call_anthropic cfg net prompt critical tr)) = calls KHook tr /\
  redeploys (snd (call_anthropic cfg net prompt critical tr)) = redeploys tr.
Proof.
  rewrite call_anthropic_exact. destruct (nonempty (ANTHROPIC_API_KEY cfg)); simpl; [|auto].
  rewrite MainPyMore.calls_app, MainPyMore.redeploys_app. unfold calls, redeploys. simpl.
  split; lia.
Qed.

Lemma call_health_quiet (tr : list event) :
  calls KHook (snd (call_health cfg net tr)) = calls KHook tr /\
  redeploys (snd (call_health cfg net tr)) = redeploys tr.
Proof.
  destruct (lg_call_health_exact tr) as (hl & E & _). rewrite E. simpl.
  rewrite MainPyMore.calls_app, MainPyMore.redeploys_app.
  destruct (nonempty (API_HEALTH cfg)); unfold calls, redeploys; simpl; split; lia.
Qed.

Lemma run_node_quiet (n : name) (st : OrchestratorState) (tr : list event) :
  intent st <> deploy -> n <> heal ->
  calls KHook (snd (run_node cfg net n st tr)) = calls KHook tr /\
  redeploys (snd (run_node cfg net n st tr)) = redeploys tr /\
  forall st' nxt, fst (run_node cfg net n st tr) = Ok (st', nxt) ->
                  intent st' = intent st /\ nxt <> heal.
Proof.
  intros Hi Hn. destruct n; [| | |congruence| |]; simpl.
  - unfold node_plan.
    rewrite (bind_ret_snd _ (fun p => (set_plan st p,
                                       match intent st with deploy => implement | _ => verify end))).
    destruct (call_anthropic_quiet (plan_prompt st) false tr) as (K & D).
    split; [exact K|]. split; [exact D|]. intros st' nxt H.
    apply (bind_ret_fst _ (fun p => (set_plan st p,
                                     match intent st with deploy => implement | _ => verify end)))
      in H as (p & _ & [= -> ->]).
    split; [reflexivity|]. destruct (intent st); discriminate.
  - unfold node_implement. destruct (intent st) eqn:I; [congruence | |];
      simpl; (split; [reflexivity|]); (split; [reflexivity|]);
      intros st' nxt [= <- <-]; simpl; (split; [congruence | discriminate]).
  - unfold node_verify. destruct (intent st) eqn:I; [congruence | |].
    + rewrite (bind_ret_snd _ (fun v => (set_verify st (VerifyHealth v), done))).
      destruct (call_health_quiet tr) as (K & D).
      split; [exact K|]. split; [exact D|]. intros st' nxt H.
      apply (bind_ret_fst _ (fun v => (set_verify st (VerifyHealth v), done)))
        in H as (v & _ & [= -> ->]).
      simpl. split; [congruence | discriminate].
    + rewrite (bind_ret_snd _ (fun llm => (set_verify st (VerifyLLM llm), done))).
      destruct (call_anthropic_quiet (prompt st) (200 <? List.length (prompt st)) tr)
        as (K & D).
      split; [exact K|]. split; [exact D|]. intros st' nxt H.
      apply (bind_ret_fst _ (fun llm => (set_verify st (VerifyLLM llm), done)))
        in H as (v & _ & [= -> ->]).
      simpl. split; [congruence | discriminate].
  - split; [reflexivity|]. split; [reflexivity|].
    intros st' nxt [= <- <-]. split; [reflexivity | discriminate].
  - split; [reflexivity|]. split; [reflexivity|].
    intros st' nxt [= <- <-]. split; [reflexivity | discriminate].
Qed.

Lemma graph_runner_quiet (limit : nat) :
  forall (n : name) (st : OrchestratorState) (tr : list event),
    intent st <> deploy -> n <> heal ->
    calls KHook (snd (graph_runner cfg net limit n st tr)) = calls KHook tr /\
    redeploys (snd (graph_runner cfg net limit n st tr)) = redeploys tr.
Proof.
  induction limit as [|limit IH]; intros n st tr Hi Hn; [simpl; auto|].
  destruct (@run_node_quiet n st tr Hi Hn) as (K & D & Hnext).
  destruct (run_node cfg net n st tr) as [[[st' nxt]|e] tr'] eqn:E.
  - rewrite (graph_runner_step limit E). simpl in K, D.
    destruct (Hnext st' nxt eq_refl) as (Hi' & Hn').
    destruct nxt; try (simpl; auto; fail);
      rewrite <- K, <- D; apply IH; congruence.
  - rewrite (graph_runner_raised limit E). simpl in *. auto.
Qed.
End Handlers.

End MainLanggraphMore.

(** X12. How [POST /orchestrate] of main_langgraph.py can end, when the
    runner may execute five nodes: with [ok = true] and the classified
    intent; with status 400, exactly for a blank prompt; or with the
    exception of a failed call to the LLM provider or to the log sink. The
    run never exhausts its steps, and a failing hook or health probe never
    fails the request. *)
Theorem langgraph_orchestrate_outcomes
        (ci_other : codepoint -> codepoint -> bool) (cfg : MainLanggraph.Config)
        (net : kind -> nat -> reply) (limit : nat) (req : MainLanggraph.NLRequest) :
  5 <= limit ->
  match fst (MainLanggraph.orchestrate ci_other cfg net limit req []) with
  | Ok reply =>
      MainLanggraph.ok reply = true /\
      forallb isspace (MainLanggraph.req_prompt req) = false /\
      MainLanggraph.reply_intent reply
      = MainLanggraph.classify ci_other (strip (MainLanggraph.req_prompt req))
  | Raised (HTTPException status _) =>
      status = 400%Z /\ forallb isspace (MainLanggraph.req_prompt req) = true
  | Raised (NetworkError e) =>
      forallb isspace (MainLanggraph.req_prompt req) = false /\
      exists k i, (k = KLLM \/ k = KLog) /\ net k i = Fails e
  | Raised GraphRecursionError => False
  | Raised (AttributeError _) => False
  end.
Proof.
  intros Hl. unfold MainLanggraph.orchestrate.
  destruct (forallb isspace (MainLanggraph.req_prompt req)) eqn:B.
  - rewrite (CurrentAppFacts.strip_blank _ B). simpl. auto.
  - destruct (strip (MainLanggraph.req_prompt req)) as [|c t] eqn:S.
    { apply TextMore.strip_nil_iff in S. congruence. }
    match goal with
    | |- context [MainLanggraph.graph_runner cfg net limit MainLanggraph.plan ?st0] =>
        pose proof (MainLanggraphMore.graph_runner_outcome cfg net (n := MainLanggraph.plan)
                      st0 [] ltac:(discriminate) Hl) as O;
        destruct (MainLanggraph.graph_runner cfg net limit MainLanggraph.plan st0 [])
          as [[final|e] tr1] eqn:G
    end.
    + rewrite (CurrentAppMore.bind_ok _ G).
      unfold bind. rewrite MainLanggraphMore.lg_log_supabase_exact.
      destruct (nonempty _ && nonempty _); [|simpl; auto].
      destruct (net KLog (calls KLog tr1)) eqn:L; simpl; [auto|].
      split; [reflexivity|]. exists KLog, (calls KLog tr1). auto.
    + rewrite (CurrentAppMore.bind_raised _ G). simpl in *.
      destruct e as [| | |]; try contradiction.
      destruct O as (i & F). split; [reflexivity|]. exists KLLM, i. auto.
Qed.

(** A deploy request with failing hooks and a failing health endpoint is
    answered all the same. *)
Lemma langgraph_orchestrate_outcomes_witness :
  exists reply,
    fst (MainLanggraph.orchestrate Samples.ci_ascii_only (Samples.lg_config 120)
           (fun k _ => match k with
                       | KHook | KHealth => Fails "connection refused"
                       | _ => Samples.r200
                       end)
           5 (Samples.lg_request (cps "deploy it") None) []) = Ok reply /\
    MainLanggraph.ok reply = true.
Proof.
  pose proof (langgraph_orchestrate_outcomes Samples.ci_ascii_only (Samples.lg_config 120)
                (fun k _ => match k with
                            | KHook | KHealth => Fails "connection refused"
                            | _ => Samples.r200
                            end)
                (limit := 5) (Samples.lg_request (cps "deploy it") None) (le_n 5)) as H.
  destruct (fst (MainLanggraph.orchestrate _ _ _ _ _ _)) as [reply|e] eqn:E.
  - exists reply. split; [reflexivity | apply H].
  - vm_compute in E. discriminate.
Defined.

(** X13. In main_langgraph.py every request starts with a call to the LLM
    provider, whatever its intent: when the API key is set and that first
    call fails, a request with a non-blank prompt fails with that exception
    before any hook, health or log call is made. *)
Theorem langgraph_provider_failure_aborts
        (ci_other : codepoint -> codepoint -> bool) (cfg : MainLanggraph.Config)
        (net : kind -> nat -> reply) (limit : nat) (req : MainLanggraph.NLRequest)
        (e : string) :
  1 <= limit ->
  forallb isspace (MainLanggraph.req_prompt req) = false ->
  nonempty (MainLanggraph.ANTHROPIC_API_KEY cfg) = true ->
  net KLLM 0 = Fails e ->
  fst (MainLanggraph.orchestrate ci_other cfg net limit req [])
  = Raised (NetworkError e) /\
  calls KLLM (snd (MainLanggraph.orchestrate ci_other cfg net limit req [])) = 1 /\
  calls KHook (snd (MainLanggraph.orchestrate ci_other cfg net limit req [])) = 0 /\
  calls KHealth (snd (MainLanggraph.orchestrate ci_other cfg net limit req [])) = 0 /\
  calls KLog (snd (MainLanggraph.orchestrate ci_other cfg net limit req [])) = 0 /\
  redeploys (snd (MainLanggraph.orchestrate ci_other cfg net limit req [])) = 0.
Proof.
  intros Hl B K F. unfold MainLanggraph.orchestrate.
  destruct (strip (MainLanggraph.req_prompt req)) as [|c t] eqn:S.
  { apply TextMore.strip_nil_iff in S. congruence. }
  match goal with
  | |- context [MainLanggraph.graph_runner cfg net limit MainLanggraph.plan ?st0] =>
      assert (G : exists tr1,
                 MainLanggraph.graph_runner cfg net limit MainLanggraph.plan st0 []
                 = (Raised (NetworkError e), tr1) /\
                 calls KLLM tr1 = 1 /\ calls KHook tr1 = 0 /\ calls KHealth tr1 = 0 /\
                 calls KLog tr1 = 0 /\ redeploys tr1 = 0)
  end.
  { destruct limit as [|limit]; [lia|]. eexists. split.
    - apply MainLanggraphMore.graph_runner_raised. simpl MainLanggraph.run_node.
      unfold MainLanggraph.node_plan. apply CurrentAppMore.bind_raised.
      rewrite MainLanggraphMore.call_anthropic_exact, K.
      change (calls KLLM []) with 0. rewrite F.
      reflexivity.
    - repeat split. }
  destruct G as (tr1 & G & Hc).
  rewrite (CurrentAppMore.bind_raised _ G). simpl. split; [reflexivity | exact Hc].
Qed.

Lemma langgraph_provider_failure_aborts_witness :
  fst (MainLanggraph.orchestrate Samples.ci_ascii_only (Samples.lg_config 120)
         Samples.net_llm_timeout 25 (Samples.lg_request (cps "check health") None) [])
  = Raised (NetworkError "timed out") /\
  calls KHealth (snd (MainLanggraph.orchestrate Samples.ci_ascii_only (Samples.lg_config 120)
                        Samples.net_llm_timeout 25
                        (Samples.lg_request (cps "check health") None) [])) = 0.
Proof.
  destruct (langgraph_provider_failure_aborts Samples.ci_ascii_only (Samples.lg_config 120)
              Samples.net_llm_timeout (limit := 25)
              (Samples.lg_request (cps "check health") None)
              (e := "timed out")) as (R & _ & _ & H & _).
  - lia.
  - reflexivity.
  - reflexivity.
  - reflexivity.
  - split; [exact R | exact H].
Defined.

(** X14. A deploy request to main_langgraph.py whose planning call returns
    (no API key, or an answer from the provider) fans out to the hooks once
    when the first health result is ok, and twice otherwise; in particular
    always twice when [API_HEALTH] is unset, since a missing health URL counts
    as a failed verification. Each fan-out posts once to every configured
    hook and is followed by one probe when the health URL is set; the
    response carries a heal result exactly when the fan-out ran twice. *)
Theorem langgraph_deploy_heals_once
        (ci_other : codepoint -> codepoint -> bool) (cfg : MainLanggraph.Config)
        (net : kind -> nat -> reply) (limit : nat) (req : MainLanggraph.NLRequest) :
  5 <= limit ->
  MainLanggraph.classify ci_other (strip (MainLanggraph.req_prompt req))
  = MainLanggraph.deploy ->
  nonempty (MainLanggraph.ANTHROPIC_API_KEY cfg) = false \/
  (exists r, net KLLM 0 = Answer r) ->
  redeploys (snd (MainLanggraph.orchestrate ci_other cfg net limit req []))
  = (if nonempty (MainLanggraph.API_HEALTH cfg) && probe_passes (net KHealth 0)
     then 1 else 2) /\
  calls KHook (snd (MainLanggraph.orchestrate ci_other cfg net limit req []))
  = redeploys (snd (MainLanggraph.orchestrate ci_other cfg net limit req []))
    * List.length (MainLanggraph.VERCEL_HOOKS cfg) /\
  calls KHealth (snd (MainLanggraph.orchestrate ci_other cfg net limit req []))
  = (if nonempty (MainLanggraph.API_HEALTH cfg)
     then redeploys (snd (MainLanggraph.orchestrate ci_other cfg net limit req []))
     else 0) /\
  (forall reply,
      fst (MainLanggraph.orchestrate ci_other cfg net limit req []) = Ok reply ->
      (MainLanggraph.reply_heal reply = None <->
       nonempty (MainLanggraph.API_HEALTH cfg) && probe_passes (net KHealth 0) = true)).
Proof.
  intros Hl Hd Hp. unfold MainLanggraph.orchestrate.
  destruct (strip (MainLanggraph.req_prompt req)) as [|c t] eqn:Hs;
    [vm_compute in Hd; discriminate|].
  rewrite Hd.
  set (st0 := {| MainLanggraph.prompt := c :: t; MainLanggraph.intent := MainLanggraph.deploy;
                 MainLanggraph.user := MainLanggraph.req_user req;
                 MainLanggraph.plan_result := None;
                 MainLanggraph.implement_result := None;
                 MainLanggraph.verify_result := None;
                 MainLanggraph.heal_result := None |}).
  destruct (MainLanggraphMore.call_anthropic_returns cfg net
              (MainLanggraph.plan_prompt st0) false [] Hp)
    as (p & tr1 & E0 & K1 & H1 & L1 & D1).
  assert (E1 : MainLanggraph.run_node cfg net MainLanggraph.plan st0 []
               = (Ok (MainLanggraph.set_plan st0 p, MainLanggraph.implement), tr1)).
  { simpl. unfold MainLanggraph.node_plan. rewrite (CurrentAppMore.bind_ok _ E0).
    reflexivity. }
  do 5 (destruct limit as [|limit]; [lia|]).
  destruct (MainLanggraphMore.deploy_run cfg net limit (MainLanggraph.set_plan st0 p) tr1
              eq_refl) as (final & G & Hheal).
  assert (G0 : MainLanggraph.graph_runner cfg net (S (S (S (S (S limit)))))
                 MainLanggraph.plan st0 []
               = (Ok final,
                  (tr1 ++ Redeploy :: map (Call KHook) (MainLanggraph.VERCEL_HOOKS cfg))
                  ++ (if nonempty (MainLanggraph.API_HEALTH cfg)
                      then [Call KHealth (MainLanggraph.API_HEALTH cfg)] else [])
                  ++ (if nonempty (MainLanggraph.API_HEALTH cfg)
                         && probe_passes (net KHealth 0)
                      then []
                      else (Redeploy :: map (Call KHook) (MainLanggraph.VERCEL_HOOKS cfg))
                           ++ (if nonempty (MainLanggraph.API_HEALTH cfg)
                               then [Call KHealth (MainLanggraph.API_HEALTH cfg)]
                               else [])))).
  { rewrite (@MainLanggraphMore.graph_runner_step cfg net _ _ _ _ _ _ _ E1), G.
    replace (calls KHealth
               (tr1 ++ Redeploy :: map (Call KHook) (MainLanggraph.VERCEL_HOOKS cfg)))
      with 0; [reflexivity|].
    rewrite MainPyMore.calls_app, MainLanggraphMore.calls_cons,
      CurrentAppMore.calls_map_call, H1. reflexivity. }
  replace (calls KHealth
             (tr1 ++ Redeploy :: map (Call KHook) (MainLanggraph.VERCEL_HOOKS cfg)))
    with 0 in Hheal
    by (rewrite MainPyMore.calls_app, MainLanggraphMore.calls_cons,
          CurrentAppMore.calls_map_call, H1; reflexivity).
  assert (Hnone : MainLanggraph.heal_result (MainLanggraph.set_plan st0 p) = None)
    by reflexivity.
  clearbody st0. clear E0 E1 G.
  rewrite (CurrentAppMore.bind_ok _ G0).
  set (ok0 := nonempty (MainLanggraph.API_HEALTH cfg) && probe_passes (net KHealth 0)) in *.
  match goal with
  | |- context [bind (MainLanggraph.log_supabase cfg net ?a) ?k ?T] =>
      assert (HT : redeploys T = (if ok0 then 1 else 2) /\
                   calls KHook T = redeploys T * List.length (MainLanggraph.VERCEL_HOOKS cfg) /\
                   calls KHealth T
                   = (if nonempty (MainLanggraph.API_HEALTH cfg) then redeploys T else 0));
        [|assert (HL : exists d,
                     snd (bind (MainLanggraph.log_supabase cfg net a) k T) = T ++ d /\
                     redeploys d = 0 /\ calls KHook d = 0 /\ calls KHealth d = 0 /\
                     (forall reply,
                         fst (bind (MainLanggraph.log_supabase cfg net a) k T) = Ok reply ->
                         MainLanggraph.reply_heal reply = MainLanggraph.heal_result final))]
  end.
  - rewrite !MainPyMore.redeploys_app, !MainPyMore.calls_app,
      !MainLanggraphMore.redeploys_cons, !MainLanggraphMore.calls_cons,
      !CurrentAppMore.redeploys_map_call, !CurrentAppMore.calls_map_call, K1, H1, D1.
    change (calls KHook []) with 0. change (calls KHealth []) with 0.
    change (redeploys []) with 0. simpl is_redeploy. simpl is_call. simpl kind_eqb. cbv iota.
    destruct ok0, (nonempty (MainLanggraph.API_HEALTH cfg));
      rewrite ?MainPyMore.redeploys_app, ?MainPyMore.calls_app,
        ?MainLanggraphMore.redeploys_cons, ?MainLanggraphMore.calls_cons,
        ?CurrentAppMore.redeploys_map_call, ?CurrentAppMore.calls_map_call;
      simpl; unfold calls, redeploys; simpl; repeat split; lia.
  - unfold bind. rewrite MainLanggraphMore.lg_log_supabase_exact.
    destruct (nonempty _ && nonempty _).
    + eexists. split; [destruct (net KLog _); reflexivity|].
      repeat split; try reflexivity.
      intros reply. destruct (net KLog _); simpl; [intros [= <-]; reflexivity | discriminate].
    + exists []. rewrite app_nil_r. repeat split; try reflexivity.
      simpl. intros reply [= <-]. reflexivity.
  - destruct HL as (d & Es & Dd & Kd & Hd' & Hreply).
    destruct HT as (T1 & T2 & T3). rewrite Es.
    match type of T1 with
    | redeploys ?T = _ => set (T0 := T) in *
    end.
    rewrite MainPyMore.redeploys_app, !MainPyMore.calls_app, Dd, Kd, Hd', !Nat.add_0_r.
    split; [exact T1|]. split; [exact T2|]. split; [exact T3|].
    intros reply Hr. rewrite (Hreply reply Hr).
    destruct ok0.
    + rewrite Hheal, Hnone. split; auto.
    + split; [intros X; contradiction | discriminate].
Qed.

(** A deploy against a health endpoint that answers 500: two fan-outs. *)
Lemma langgraph_deploy_heals_once_witness :
  redeploys (snd (MainLanggraph.orchestrate Samples.ci_ascii_only (Samples.lg_config 120)
                    Samples.net_unhealthy 25 (Samples.lg_request (cps "Deploy!") None) []))
  = 2.
Proof.
  destruct (langgraph_deploy_heals_once Samples.ci_ascii_only (Samples.lg_config 120)
              Samples.net_unhealthy (limit := 25) (Samples.lg_request (cps "Deploy!") None))
    as (R & _).
  - lia.
  - reflexivity.
  - right. eexists. reflexivity.
  - exact R.
Defined.

(** X15. The model that [node_verify] of main_langgraph.py asks for on an
    Other-intent state (API key set): the request it sends carries the raw
    prompt, and the large model exactly when the prompt is longer than 200
    characters or longer than the configured threshold. Nothing else enters
    the choice. *)
Theorem langgraph_node_verify_model
        (cfg : MainLanggraph.Config) (net : kind -> nat -> reply)
        (st : MainLanggraph.OrchestratorState) (tr : list event) :
  MainLanggraph.intent st = MainLanggraph.other ->
  nonempty (MainLanggraph.ANTHROPIC_API_KEY cfg) = true ->
  exists model,
    snd (MainLanggraph.node_verify cfg net st tr)
    = tr ++ [LLMRequest model (MainLanggraph.LLM_MAX_TOKENS cfg) (MainLanggraph.prompt st);
             Call KLLM (MainLanggraph.ANTHROPIC_API_URL cfg ++ "/v1/messages")%string] /\
    (model = MainLanggraph.sonnet <->
     200 < List.length (MainLanggraph.prompt st) \/
     (MainLanggraph.LLM_PROMOTION_THRESHOLD cfg
      < Z.of_nat (List.length (MainLanggraph.prompt st)))%Z).
Proof.
  intros Hi Hk.
  exists (MainLanggraph.choose_model cfg (MainLanggraph.prompt st)
            (200 <? List.length (MainLanggraph.prompt st))).
  split.
  - unfold MainLanggraph.node_verify. rewrite Hi.
    unfold bind. rewrite MainLanggraphMore.call_anthropic_exact, Hk.
    destruct (net KLLM (calls KLLM tr)); reflexivity.
  - unfold MainLanggraph.choose_model.
    destruct (Nat.ltb_spec 200 (List.length (MainLanggraph.prompt st))) as [L|L]; simpl.
    + split; auto.
    + destruct (Z.gtb_spec (Z.of_nat (List.length (MainLanggraph.prompt st)))
                           (MainLanggraph.LLM_PROMOTION_THRESHOLD cfg)) as [G|G].
      * split; auto.
      * split; [discriminate|]. intros [X|X]; lia.
Qed.

Lemma langgraph_node_verify_model_witness :
  exists model,
    snd (MainLanggraph.node_verify (Samples.lg_config 1000) Samples.net_ok
           {| MainLanggraph.prompt := Samples.long_prompt;
              MainLanggraph.intent := MainLanggraph.other;
              MainLanggraph.user := None; MainLanggraph.plan_result := None;
              MainLanggraph.implement_result := None;
              MainLanggraph.verify_result := None;
              MainLanggraph.heal_result := None |} [])
    = [LLMRequest model 512 Samples.long_prompt;
       Call KLLM "https://api.anthropic.com/v1/messages"] /\
    (model = MainLanggraph.sonnet <->
     200 < List.length Samples.long_prompt \/
     (1000 < Z.of_nat (List.length Samples.long_prompt))%Z).
Proof.
  apply (langgraph_node_verify_model (Samples.lg_config 1000) Samples.net_ok
           {| MainLanggraph.prompt := Samples.long_prompt;
              MainLanggraph.intent := MainLanggraph.other;
              MainLanggraph.user := None; MainLanggraph.plan_result := None;
              MainLanggraph.implement_result := None;
              MainLanggraph.verify_result := None;
              MainLanggraph.heal_result := None |} []); reflexivity.
Defined.

(** X16. The hook fan-out of main_langgraph.py never raises: it posts once
    to each configured hook, in order, whether or not an earlier post failed,
    and returns a dict whose keys are hook1, hook2, ... in that order, the
    [j]-th value being the status code or the error of the [j]-th post. *)
Theorem langgraph_hook_fan_out
        (cfg : MainLanggraph.Config) (net : kind -> nat -> reply) (tr : list event) :
  exists results,
    MainLanggraph.call_vercel_hooks cfg net tr
    = (Ok results, tr ++ Redeploy :: map (Call KHook) (MainLanggraph.VERCEL_HOOKS cfg)) /\
    map fst results = seq 1 (List.length (MainLanggraph.VERCEL_HOOKS cfg)) /\
    List.length results <= 2 /\
    forall j, j < List.length (MainLanggraph.VERCEL_HOOKS cfg) ->
              nth_error results j
              = Some (S j, MainLanggraph.hook_value (net KHook (calls KHook tr + j))).
Proof.
  destruct (MainLanggraphMore.lg_call_vercel_hooks_exact cfg net tr) as (results & E & K & N).
  exists results. repeat split; try assumption.
  rewrite <- (length_map fst), K, length_seq.
  unfold MainLanggraph.VERCEL_HOOKS. simpl.
  destruct (nonempty _), (nonempty _); simpl; lia.
Qed.

(** X17. In main_langgraph.py only deploys reach the hooks: a request
    classified as a health check or as Other posts to no hook and never
    enters the redeploy action, for every network and every step limit. *)
Theorem langgraph_only_deploys_fan_out
        (ci_other : codepoint -> codepoint -> bool) (cfg : MainLanggraph.Config)
        (net : kind -> nat -> reply) (limit : nat) (req : MainLanggraph.NLRequest) :
  MainLanggraph.classify ci_other (strip (MainLanggraph.req_prompt req))
  <> MainLanggraph.deploy ->
  calls KHook (snd (MainLanggraph.orchestrate ci_other cfg net limit req [])) = 0 /\
  redeploys (snd (MainLanggraph.orchestrate ci_other cfg net limit req [])) = 0.
Proof.
  intros Hd. unfold MainLanggraph.orchestrate.
  destruct (strip (MainLanggraph.req_prompt req)) as [|c t] eqn:Hs; [simpl; auto|].
  match goal with
  | |- context [MainLanggraph.graph_runner cfg net limit MainLanggraph.plan ?st0] =>
      destruct (@MainLanggraphMore.graph_runner_quiet cfg net limit
                  MainLanggraph.plan st0 [] Hd ltac:(discriminate)) as (K & D);
      destruct (MainLanggraph.graph_runner cfg net limit MainLanggraph.plan st0 [])
        as [[final|e] tr1] eqn:G
  end.
  - rewrite (CurrentAppMore.bind_ok _ G). simpl in K, D.
    unfold bind. rewrite MainLanggraphMore.lg_log_supabase_exact.
    destruct (nonempty _ && nonempty _); [|simpl; auto].
    destruct (net KLog (calls KLog tr1)); simpl;
      rewrite calls_snoc, redeploys_snoc, K, D; simpl; auto.
  - rewrite (CurrentAppMore.bind_raised _ G). simpl in *. auto.
Qed.

Lemma langgraph_only_deploys_fan_out_witness :
  calls KHook (snd (MainLanggraph.orchestrate Samples.ci_ascii_only (Samples.lg_config 120)
                      Samples.net_unhealthy 25
                      (Samples.lg_request (cps "is it healthy?") None) [])) = 0.
Proof.
  apply (langgraph_only_deploys_fan_out Samples.ci_ascii_only (Samples.lg_config 120)
           Samples.net_unhealthy 25 (Samples.lg_request (cps "is it healthy?") None)).
  vm_compute. discriminate.
Defined.
